(** * RayTracedGL1: acceleration-structure manager and shader-side geometry access

    A shallow embedding of [Source/ASManager.cpp] (the orchestrator that owns
    the bottom-level structures, assembles the top-level instance list and
    writes the instance offset table) and of the geometry lookups in
    [Source/Shaders/VertexData.inl], with the properties the specification
    states about them.

    Conventions.
    - Bit masks, handles and sizes are [Z]; bit tests are [Z.land].
    - Array indices and element counts are [nat]; C arrays are lists indexed
      with [!!] and updated with [<[i:=x]>].  An out-of-range store is
      undefined behaviour in C++: the model leaves the array as it is and
      records the store in an overrun log.
    - [assert] is a debug-only check: it aborts when assertions are compiled
      in and does nothing under NDEBUG. *)

From Stdlib Require Import ZArith Lia Bool.
From stdpp Require Import base tactics option numbers gmultiset list.

Local Open Scope Z_scope.

(** ** Machine integers *)

Definition UINT32_MAX : Z := 2 ^ 32 - 1.

(** Value of a [uint32_t] expression. *)
Definition to_uint32 (z : Z) : Z := z mod 2 ^ 32.

(** Value of an [int32_t] (GLSL [int]) holding the low 32 bits of [z]. *)
Definition to_int32 (z : Z) : Z :=
  let u := z mod 2 ^ 32 in if u <? 2 ^ 31 then u else u - 2 ^ 32.

(** A [w]-bit bit-field of a Vulkan structure keeps the low [w] bits. *)
Definition bitfield (w : Z) (z : Z) : Z := Z.land z (Z.ones w).

(** ** Constants *)

(** The generated shader-common header. *)
Definition MAX_BOTTOM_LEVEL_GEOMETRIES_COUNT : Z := 4096.
Definition MAX_TOP_LEVEL_INSTANCE_COUNT : nat := 45.
Definition INSTANCE_CUSTOM_INDEX_FLAG_DYNAMIC : Z := Z.shiftl 1 0.
Definition SBT_INDEX_HITGROUP_FULLY_OPAQUE : Z := 0.
Definition SBT_INDEX_HITGROUP_ALPHA_TESTED : Z := 1.
Definition GEOM_INST_FLAG_IS_MOVABLE : Z := Z.shiftl 1 31.

(** [Common.h]. *)
Definition MAX_FRAMES_IN_FLIGHT : nat := 2.

(** Vulkan ([vulkan_core.h]). *)
Definition VK_NULL_HANDLE : Z := 0.
Definition VK_GEOMETRY_INSTANCE_TRIANGLE_FACING_CULL_DISABLE_BIT_KHR : Z := 1.
Definition VK_GEOMETRY_INSTANCE_FORCE_OPAQUE_BIT_KHR : Z := 4.
Definition VK_GEOMETRY_INSTANCE_FORCE_NO_OPAQUE_BIT_KHR : Z := 8.

(** ** Declarations used by the manager whose headers are not available

    [VertexCollectorFilterType.h] (the filter tag bits, the two filter groups
    and [VertexCollectorFilterTypeFlagsToOffset]) and three shader constants
    are used by [ASManager.cpp] but declared elsewhere.  They are taken as
    parameters.  What is assumed of them is what the data model states: a
    filter tag is one change-frequency bit combined with one pass-through bit,
    every class has a bit of its own. *)

Class FilterTypeDecls := {
  CF_STATIC_NON_MOVABLE : Z;
  CF_STATIC_MOVABLE : Z;
  CF_DYNAMIC : Z;
  PT_OPAQUE : Z;
  PT_ALPHA_TESTED : Z;
  PT_BLEND_ADDITIVE : Z;
  PT_BLEND_UNDER : Z;
  VertexCollectorFilterTypeFlagsToOffset : Z → Z;
  INSTANCE_MASK_HAS_SHADOWS : Z;
  SBT_INDEX_HITGROUP_BLEND_ADDITIVE : Z;
  SBT_INDEX_HITGROUP_BLEND_UNDER : Z;
  (* one bit per class *)
  FT_single_bit :
    Forall (λ b, ∃ n, 0 ≤ n < 32 ∧ b = 2 ^ n)
      [CF_STATIC_NON_MOVABLE; CF_STATIC_MOVABLE; CF_DYNAMIC;
       PT_OPAQUE; PT_ALPHA_TESTED; PT_BLEND_ADDITIVE; PT_BLEND_UNDER];
  FT_distinct :
    NoDup
      [CF_STATIC_NON_MOVABLE; CF_STATIC_MOVABLE; CF_DYNAMIC;
       PT_OPAQUE; PT_ALPHA_TESTED; PT_BLEND_ADDITIVE; PT_BLEND_UNDER];
  (* the offset of a filter group times the group capacity fits an int32_t *)
  FT_offset_range :
    ∀ f, 0 ≤ VertexCollectorFilterTypeFlagsToOffset f < 2 ^ 19;
  (* the shadow bit lies within the 8-bit instance mask *)
  HAS_SHADOWS_range : 0 < INSTANCE_MASK_HAS_SHADOWS < 2 ^ 8;
  SBT_ADDITIVE_range : 0 ≤ SBT_INDEX_HITGROUP_BLEND_ADDITIVE < 2 ^ 24;
  SBT_UNDER_range : 0 ≤ SBT_INDEX_HITGROUP_BLEND_UNDER < 2 ^ 24
}.

(** The seven flag bits of a filter tag. *)
Definition flagBits `{FilterTypeDecls} : list Z :=
  [CF_STATIC_NON_MOVABLE; CF_STATIC_MOVABLE; CF_DYNAMIC;
   PT_OPAQUE; PT_ALPHA_TESTED; PT_BLEND_ADDITIVE; PT_BLEND_UNDER].

(** ** Acceleration structure records *)

(** Modelled from the spec: the [Buffer] class is not among the sources at
    hand.  A buffer is either not initialised or owns a native buffer
    handle of a given size;
    [Init] creates a buffer of exactly the requested size, [Destroy] returns
    it to the uninitialised state, [GetSize] of an uninitialised buffer
    is 0. *)
Record Buffer := {
  buf_handle : Z;
  buf_size : Z
}.

Definition BufferSlot := option Buffer.

Definition IsInitted (b : BufferSlot) : bool := bool_decide (is_Some b).
Definition GetSize (b : BufferSlot) : Z := from_option buf_size 0 b.
Definition GetBuffer (b : BufferSlot) : Z := from_option buf_handle VK_NULL_HANDLE b.

(** [struct AccelerationStructure { as; buffer; filter }]. *)
Record AccelerationStructure := {
  as_ : Z;
  buffer : BufferSlot;
  filter : Z
}.

(** [VkAccelerationStructureInstanceKHR].  The transform holds the twelve
    float literals of the source, which are the integers 0 and 1. *)
Record VkAccelerationStructureInstanceKHR := {
  transform : list Z;
  instanceCustomIndex : Z;
  mask : Z;
  instanceShaderBindingTableRecordOffset : Z;
  flags : Z;
  accelerationStructureReference : Z
}.

(** Value-initialised instance ([instances[32] = {}]). *)
Definition zeroInstance : VkAccelerationStructureInstanceKHR :=
  {| transform := replicate 12 0;
     instanceCustomIndex := 0;
     mask := 0;
     instanceShaderBindingTableRecordOffset := 0;
     flags := 0;
     accelerationStructureReference := 0 |}.

Definition identityTransform : list Z :=
  [1; 0; 0; 0;
   0; 1; 0; 0;
   0; 0; 1; 0].

(** [filter & bits] used as a condition. *)
Definition hasAny (f bits : Z) : bool := negb (Z.land f bits =? 0).

(** ** The driver and the collaborators

    What the manager asks of the Vulkan driver and of the texture manager:
    the device address of a structure, the size a structure needs for the
    given primitive counts and build preference (the sizes query reads the
    geometry kinds and the maximum primitive counts, not the vertex or
    transform data), and the texture indices of a material.  [RgTransform] is
    the application's transform type; its content is never inspected. *)

Class Platform := {
  RgTransform : Type;
  GetASAddress : Z → Z;
  GetBottomBuildSizes : list Z → bool → Z;
  GetTopBuildSizes : nat → bool → Z;
  GetMaterialTextures : Z → list Z
}.

Section Manager.

Context `{FT : FilterTypeDecls} `{PF : Platform}.

(** Modelled from the spec: the two filter groups of
    [VertexCollectorFilterType.h], which is not among the sources at hand:
    the three change-frequency classes and the four pass-through classes. *)
Definition VertexCollectorFilterGroup_ChangeFrequency : list Z :=
  [CF_STATIC_NON_MOVABLE; CF_STATIC_MOVABLE; CF_DYNAMIC].

Definition VertexCollectorFilterGroup_PassThrough : list Z :=
  [PT_OPAQUE; PT_ALPHA_TESTED; PT_BLEND_ADDITIVE; PT_BLEND_UNDER].

(** [ASManager::SetupTLASInstance].  [instance] is the slot passed by
    reference; the result is [None] when the function returns [false] (the
    slot is then untouched) and the new content of the slot otherwise.  The
    record offset is left as it was when no pass-through bit is set. *)
Definition SetupTLASInstance (a : AccelerationStructure)
    (instance : VkAccelerationStructureInstanceKHR)
    : option VkAccelerationStructureInstanceKHR :=
  if as_ a =? VK_NULL_HANDLE then None
  else
    let filter := filter a in
    let customIndex :=
      if hasAny filter CF_DYNAMIC then INSTANCE_CUSTOM_INDEX_FLAG_DYNAMIC else 0 in
    let mask :=
      if hasAny filter (Z.lor PT_BLEND_ADDITIVE PT_BLEND_UNDER)
      then Z.lnot INSTANCE_MASK_HAS_SHADOWS
      else INSTANCE_MASK_HAS_SHADOWS in
    let sbt :=
      if hasAny filter PT_OPAQUE then SBT_INDEX_HITGROUP_FULLY_OPAQUE
      else if hasAny filter PT_ALPHA_TESTED then SBT_INDEX_HITGROUP_ALPHA_TESTED
      else if hasAny filter PT_BLEND_ADDITIVE then SBT_INDEX_HITGROUP_BLEND_ADDITIVE
      else if hasAny filter PT_BLEND_UNDER then SBT_INDEX_HITGROUP_BLEND_UNDER
      else instanceShaderBindingTableRecordOffset instance in
    let flags :=
      if hasAny filter PT_OPAQUE
      then Z.lor VK_GEOMETRY_INSTANCE_FORCE_OPAQUE_BIT_KHR
                 VK_GEOMETRY_INSTANCE_TRIANGLE_FACING_CULL_DISABLE_BIT_KHR
      else Z.lor VK_GEOMETRY_INSTANCE_FORCE_NO_OPAQUE_BIT_KHR
                 VK_GEOMETRY_INSTANCE_TRIANGLE_FACING_CULL_DISABLE_BIT_KHR in
    Some {| transform := identityTransform;
            instanceCustomIndex := bitfield 24 customIndex;
            mask := bitfield 8 mask;
            instanceShaderBindingTableRecordOffset := bitfield 24 sbt;
            flags := bitfield 8 flags;
            accelerationStructureReference := GetASAddress (as_ a) |}.

End Manager.

(** ** Assertions and state

    The manager's functions are state transformers that stop at a failed
    [assert].  [AssertionFailed] carries the state reached when the program
    aborted. *)

Inductive Res (S A : Type) : Type :=
  | Ok (a : A) (s : S)
  | AssertionFailed (s : S).
Global Arguments Ok {S A} a s.
Global Arguments AssertionFailed {S A} s.

Definition M (S A : Type) : Type := S → Res S A.

Global Instance M_ret {S} : MRet (M S) := λ A a s, Ok a s.
Global Instance M_bind {S} : MBind (M S) := λ A B f m s,
  match m s with
  | Ok a s' => f a s'
  | AssertionFailed s' => AssertionFailed s'
  end.

Definition get {S} : M S S := λ s, Ok s s.
Definition gets {S A} (f : S → A) : M S A := λ s, Ok (f s) s.
Definition modify {S} (f : S → S) : M S unit := λ s, Ok tt (f s).

(** [assert(b)]: [ndebug] tells whether the build defines NDEBUG. *)
Definition assert {S} (ndebug : bool) (b : bool) : M S unit := λ s,
  if ndebug || b then Ok tt s else AssertionFailed s.

(** A range-based [for] over a vector, for its effects only. *)
Fixpoint forM_ {S A} (l : list A) (body : A → M S unit) : M S unit :=
  match l with
  | [] => mret tt
  | x :: l => body x ≫= λ _, forM_ l body
  end.

(** The state a run ends in, whether it returned or aborted. *)
Definition finalState {S A} (r : Res S A) : S :=
  match r with Ok _ s => s | AssertionFailed s => s end.

Definition returned {S A} (r : Res S A) : bool :=
  match r with Ok _ _ => true | AssertionFailed _ => false end.

(** ** Top-level instance assembly (the loops of [ASManager::TryBuildTLAS]) *)

(** The two local arrays of [TryBuildTLAS]. *)
Inductive LocalArray := ArrInstances | ArrInstanceGeomInfoOffset.

Global Instance LocalArray_eq_dec : EqDecision LocalArray.
Proof. solve_decision. Defined.

(** An access outside a local array: a store at an index past its end, or a
    block read of more elements than it has. *)
Inductive Overrun :=
  | StorePastEnd (arr : LocalArray) (index : nat)
  | ReadPastEnd (arr : LocalArray) (count : nat).

Global Instance Overrun_eq_dec : EqDecision Overrun.
Proof. solve_decision. Defined.

(** [VkAccelerationStructureInstanceKHR instances[32]]. *)
Definition instances_length : nat := 32.

(** [int32_t instanceGeomInfoOffset[MAX_TOP_LEVEL_INSTANCE_COUNT * 4]]. *)
Definition instanceGeomInfoOffset_length : nat :=
  (MAX_TOP_LEVEL_INSTANCE_COUNT * 4)%nat.

(** The locals of [TryBuildTLAS]. *)
Record TlasFrame := {
  instanceCount : nat;
  instances : list VkAccelerationStructureInstanceKHR;
  instanceGeomInfoOffset : list Z;
  overrun : list Overrun
}.

(** The locals on entry: the count is 0, the instance list is
    value-initialised, the offset array is not initialised and holds whatever
    the stack held, [stack]. *)
Definition initialFrame (stack : list Z) : TlasFrame :=
  {| instanceCount := 0;
     instances := replicate instances_length zeroInstance;
     instanceGeomInfoOffset := stack;
     overrun := [] |}.

(** [arr[i] = x] on a local array. *)
Definition storeInstance (i : nat) (x : VkAccelerationStructureInstanceKHR)
    (fr : TlasFrame) : TlasFrame :=
  if decide (i < length (instances fr))%nat
  then {| instanceCount := instanceCount fr;
          instances := <[i:=x]> (instances fr);
          instanceGeomInfoOffset := instanceGeomInfoOffset fr;
          overrun := overrun fr |}
  else {| instanceCount := instanceCount fr;
          instances := instances fr;
          instanceGeomInfoOffset := instanceGeomInfoOffset fr;
          overrun := overrun fr ++ [StorePastEnd ArrInstances i] |}.

Definition storeOffset (i : nat) (x : Z) (fr : TlasFrame) : TlasFrame :=
  if decide (i < length (instanceGeomInfoOffset fr))%nat
  then {| instanceCount := instanceCount fr;
          instances := instances fr;
          instanceGeomInfoOffset := <[i:=x]> (instanceGeomInfoOffset fr);
          overrun := overrun fr |}
  else {| instanceCount := instanceCount fr;
          instances := instances fr;
          instanceGeomInfoOffset := instanceGeomInfoOffset fr;
          overrun := overrun fr ++ [StorePastEnd ArrInstanceGeomInfoOffset i] |}.

Definition incrementCount (fr : TlasFrame) : TlasFrame :=
  {| instanceCount := S (instanceCount fr);
     instances := instances fr;
     instanceGeomInfoOffset := instanceGeomInfoOffset fr;
     overrun := overrun fr |}.

Section Assembly.

Context `{FT : FilterTypeDecls} `{PF : Platform}.

(** The geometry-metadata base offset of a filter group, as the source
    computes it: a [uint32_t] product stored into an [int32_t]. *)
Definition geomInfoBaseOffset (filter : Z) : Z :=
  to_int32 (to_uint32
    (VertexCollectorFilterTypeFlagsToOffset filter * MAX_BOTTOM_LEVEL_GEOMETRIES_COUNT)).

(** The body of either loop of [TryBuildTLAS]; [static] tells which loop. *)
Definition addInstance (ndebug : bool) (static : bool)
    (blas : AccelerationStructure) : M TlasFrame unit :=
  assert ndebug
    (if static then negb (hasAny (filter blas) CF_DYNAMIC)
     else hasAny (filter blas) CF_DYNAMIC) ≫= λ _,
  fr ← get;
  let slot := instanceCount fr in
  match SetupTLASInstance blas (default zeroInstance (instances fr !! slot)) with
  | None => mret tt
  | Some inst =>
      modify (storeInstance slot inst) ≫= λ _,
      modify (storeOffset (slot * 4) (geomInfoBaseOffset (filter blas))) ≫= λ _,
      modify incrementCount ≫= λ _,
      assert ndebug (bool_decide (S slot < MAX_TOP_LEVEL_INSTANCE_COUNT)%nat)
  end.

(** Both loops: the static structures, then the dynamic structures of the
    frame. *)
Definition assembleInstances (ndebug : bool)
    (staticBlas dynamicBlas : list AccelerationStructure) : M TlasFrame unit :=
  forM_ staticBlas (addInstance ndebug true) ≫= λ _,
  forM_ dynamicBlas (addInstance ndebug false).

End Assembly.

(** ** Geometry upload records ([RTGL1.h])

    Modelled from the spec: the public header is not among the sources.  An
    upload record carries its classification (static / static-movable /
    dynamic), its pass-through class, its transform, the sizes of its vertex
    and index ranges and the material handles of its three layers. *)

Inductive RgGeometryType :=
  | RG_GEOMETRY_TYPE_STATIC
  | RG_GEOMETRY_TYPE_STATIC_MOVABLE
  | RG_GEOMETRY_TYPE_DYNAMIC.

Inductive RgGeometryPassThroughType :=
  | RG_GEOMETRY_PASS_THROUGH_TYPE_OPAQUE
  | RG_GEOMETRY_PASS_THROUGH_TYPE_ALPHA_TESTED
  | RG_GEOMETRY_PASS_THROUGH_TYPE_BLEND_ADDITIVE
  | RG_GEOMETRY_PASS_THROUGH_TYPE_BLEND_UNDER.

Global Instance RgGeometryType_eq_dec : EqDecision RgGeometryType.
Proof. solve_decision. Defined.

Section Collector.

Context `{FT : FilterTypeDecls} `{PF : Platform}.

Record RgGeometryUploadInfo := {
  geomType : RgGeometryType;
  passThroughType : RgGeometryPassThroughType;
  vertexCount : Z;
  indexCount : Z;
  layerMaterials : list Z;
  info_transform : RgTransform
}.

(** ** Geometry collector

    Modelled from the spec: [VertexCollector] is not among the sources.  The
    collector keeps, in submission order, one record per geometry added since
    the last reset; a record belongs to the filter group of its
    classification, and the geometry index returned by [AddGeometry] is the
    position of the record.  [GetASGeometries filter] is the group of
    [filter]; [AreGeometriesEmpty flags] holds when no group whose tag
    intersects [flags] has a record; [UpdateTransform] changes the transform
    of one record and nothing else; [Reset] discards every record;
    [BeginCollecting], [EndCollecting] and [CopyFromStaging] move staging
    memory and leave the records as they are. *)

Record CollectedGeometry := {
  g_filter : Z;
  g_primitiveCount : Z;
  g_materials : list (list Z);
  g_transform : RgTransform
}.

Record VertexCollector := {
  geometries : list CollectedGeometry
}.

Definition changeFrequencyBit (t : RgGeometryType) : Z :=
  match t with
  | RG_GEOMETRY_TYPE_STATIC => CF_STATIC_NON_MOVABLE
  | RG_GEOMETRY_TYPE_STATIC_MOVABLE => CF_STATIC_MOVABLE
  | RG_GEOMETRY_TYPE_DYNAMIC => CF_DYNAMIC
  end.

Definition passThroughBit (t : RgGeometryPassThroughType) : Z :=
  match t with
  | RG_GEOMETRY_PASS_THROUGH_TYPE_OPAQUE => PT_OPAQUE
  | RG_GEOMETRY_PASS_THROUGH_TYPE_ALPHA_TESTED => PT_ALPHA_TESTED
  | RG_GEOMETRY_PASS_THROUGH_TYPE_BLEND_ADDITIVE => PT_BLEND_ADDITIVE
  | RG_GEOMETRY_PASS_THROUGH_TYPE_BLEND_UNDER => PT_BLEND_UNDER
  end.

Definition filterOf (info : RgGeometryUploadInfo) : Z :=
  Z.lor (changeFrequencyBit (geomType info)) (passThroughBit (passThroughType info)).

Definition primitiveCountOf (info : RgGeometryUploadInfo) : Z :=
  (if indexCount info =? 0 then vertexCount info else indexCount info) / 3.

Definition Reset (c : VertexCollector) : VertexCollector :=
  {| geometries := [] |}.

Definition BeginCollecting (c : VertexCollector) : VertexCollector := c.
Definition EndCollecting (c : VertexCollector) : VertexCollector := c.

Definition AddGeometry (info : RgGeometryUploadInfo) (materials : list (list Z))
    (c : VertexCollector) : Z * VertexCollector :=
  (to_uint32 (Z.of_nat (length (geometries c))),
   {| geometries := geometries c ++
        [{| g_filter := filterOf info;
            g_primitiveCount := primitiveCountOf info;
            g_materials := materials;
            g_transform := info_transform info |}] |}).

Definition withTransform (t : RgTransform) (g : CollectedGeometry) : CollectedGeometry :=
  {| g_filter := g_filter g;
     g_primitiveCount := g_primitiveCount g;
     g_materials := g_materials g;
     g_transform := t |}.

Definition UpdateTransform (geomIndex : Z) (t : RgTransform)
    (c : VertexCollector) : VertexCollector :=
  {| geometries := alter (withTransform t) (Z.to_nat geomIndex) (geometries c) |}.

Definition GetASGeometries (c : VertexCollector) (filter : Z) : list CollectedGeometry :=
  List.filter (λ g, g_filter g =? filter) (geometries c).

Definition GetPrimitiveCounts (c : VertexCollector) (filter : Z) : list Z :=
  g_primitiveCount <$> GetASGeometries c filter.

Definition AreGeometriesEmpty (c : VertexCollector) (flags : Z) : bool :=
  forallb (λ g, negb (hasAny (g_filter g) flags)) (geometries c).

(** ** Structure builder

    Modelled from the spec: [ASBuilder] is not among the sources.  Builds are
    enqueued and flushed as one batch; the batch issued to the driver is
    recorded in the event trace. *)

Record BuildRequest := {
  br_as : Z;
  br_geoms : list CollectedGeometry;
  br_accelerationStructureSize : Z;
  br_fastTrace : bool;
  br_update : bool
}.

Record TopBuildRequest := {
  tbr_as : Z;
  tbr_instanceCount : nat;
  tbr_accelerationStructureSize : Z;
  tbr_fastTrace : bool;
  tbr_update : bool
}.

Record ASBuilder := {
  bottomQueue : list BuildRequest;
  topQueue : list TopBuildRequest
}.

Definition IsEmpty (b : ASBuilder) : bool :=
  bool_decide (length (bottomQueue b) = 0%nat) && bool_decide (length (topQueue b) = 0%nat).

(** ** What the manager does to the device, in order *)

Inductive Event :=
  | EvBufferDestroy (buffer : Z)
  | EvDestroyAccelerationStructure (handle : Z)
  | EvBufferInit (buffer size : Z)
  | EvCreateAccelerationStructure (handle buffer size : Z) (topLevel : bool)
  | EvCopyFromStaging (dynamicFrame : option nat) (barrier : bool)
  | EvBuildBottomLevel (batch : list BuildRequest)
  | EvBuildTopLevel (batch : list TopBuildRequest)
  | EvASBuildMemoryBarrier
  | EvSubmitAndWait
  | EvUpdateASDescriptors (frameIndex : nat).

(** ** The manager *)

Record ASManager := {
  allStaticBlas : list AccelerationStructure;
  allDynamicBlas : list (list AccelerationStructure);
  tlas : list AccelerationStructure;
  instanceBuffers : list (list VkAccelerationStructureInstanceKHR);
  collectorStatic : VertexCollector;
  collectorDynamic : list VertexCollector;
  asBuilder : ASBuilder;
  nextHandle : Z;
  trace : list Event
}.

End Collector.

Section Operations.

Context `{FT : FilterTypeDecls} `{PF : Platform}.

(** *** Field updates *)

Definition set_allStaticBlas (v : list AccelerationStructure) (m : ASManager) : ASManager :=
  {| allStaticBlas := v; allDynamicBlas := allDynamicBlas m; tlas := tlas m;
     instanceBuffers := instanceBuffers m; collectorStatic := collectorStatic m;
     collectorDynamic := collectorDynamic m; asBuilder := asBuilder m;
     nextHandle := nextHandle m; trace := trace m |}.

Definition set_allDynamicBlas (v : list (list AccelerationStructure)) (m : ASManager) : ASManager :=
  {| allStaticBlas := allStaticBlas m; allDynamicBlas := v; tlas := tlas m;
     instanceBuffers := instanceBuffers m; collectorStatic := collectorStatic m;
     collectorDynamic := collectorDynamic m; asBuilder := asBuilder m;
     nextHandle := nextHandle m; trace := trace m |}.

Definition set_tlas (v : list AccelerationStructure) (m : ASManager) : ASManager :=
  {| allStaticBlas := allStaticBlas m; allDynamicBlas := allDynamicBlas m; tlas := v;
     instanceBuffers := instanceBuffers m; collectorStatic := collectorStatic m;
     collectorDynamic := collectorDynamic m; asBuilder := asBuilder m;
     nextHandle := nextHandle m; trace := trace m |}.

Definition set_instanceBuffers (v : list (list VkAccelerationStructureInstanceKHR))
    (m : ASManager) : ASManager :=
  {| allStaticBlas := allStaticBlas m; allDynamicBlas := allDynamicBlas m; tlas := tlas m;
     instanceBuffers := v; collectorStatic := collectorStatic m;
     collectorDynamic := collectorDynamic m; asBuilder := asBuilder m;
     nextHandle := nextHandle m; trace := trace m |}.

Definition set_collectorStatic (v : VertexCollector) (m : ASManager) : ASManager :=
  {| allStaticBlas := allStaticBlas m; allDynamicBlas := allDynamicBlas m; tlas := tlas m;
     instanceBuffers := instanceBuffers m; collectorStatic := v;
     collectorDynamic := collectorDynamic m; asBuilder := asBuilder m;
     nextHandle := nextHandle m; trace := trace m |}.

Definition set_collectorDynamic (v : list VertexCollector) (m : ASManager) : ASManager :=
  {| allStaticBlas := allStaticBlas m; allDynamicBlas := allDynamicBlas m; tlas := tlas m;
     instanceBuffers := instanceBuffers m; collectorStatic := collectorStatic m;
     collectorDynamic := v; asBuilder := asBuilder m;
     nextHandle := nextHandle m; trace := trace m |}.

Definition set_asBuilder (v : ASBuilder) (m : ASManager) : ASManager :=
  {| allStaticBlas := allStaticBlas m; allDynamicBlas := allDynamicBlas m; tlas := tlas m;
     instanceBuffers := instanceBuffers m; collectorStatic := collectorStatic m;
     collectorDynamic := collectorDynamic m; asBuilder := v;
     nextHandle := nextHandle m; trace := trace m |}.

Definition set_nextHandle (v : Z) (m : ASManager) : ASManager :=
  {| allStaticBlas := allStaticBlas m; allDynamicBlas := allDynamicBlas m; tlas := tlas m;
     instanceBuffers := instanceBuffers m; collectorStatic := collectorStatic m;
     collectorDynamic := collectorDynamic m; asBuilder := asBuilder m;
     nextHandle := v; trace := trace m |}.

Definition set_trace (v : list Event) (m : ASManager) : ASManager :=
  {| allStaticBlas := allStaticBlas m; allDynamicBlas := allDynamicBlas m; tlas := tlas m;
     instanceBuffers := instanceBuffers m; collectorStatic := collectorStatic m;
     collectorDynamic := collectorDynamic m; asBuilder := asBuilder m;
     nextHandle := nextHandle m; trace := v |}.

(** Record what was done to the device. *)
Definition emit (e : Event) : M ASManager unit :=
  modify (λ m, set_trace (trace m ++ [e]) m).

(** The device hands out handles from a counter; creation always succeeds
    (a failed creation is fatal and ends the program). *)
Definition freshHandle : M ASManager Z :=
  h ← gets nextHandle;
  modify (set_nextHandle (h + 1)) ≫= λ _,
  mret h.

(** The per-frame arrays; [frameIndex < MAX_FRAMES_IN_FLIGHT] is the caller's
    obligation. *)
Definition dynamicBlasOf (m : ASManager) (frameIndex : nat) : list AccelerationStructure :=
  default [] (allDynamicBlas m !! frameIndex).

Definition emptyCollector : VertexCollector := {| geometries := [] |}.

Definition collectorDynamicOf (m : ASManager) (frameIndex : nat) : VertexCollector :=
  default emptyCollector (collectorDynamic m !! frameIndex).

Definition nullAS (filter : Z) : AccelerationStructure :=
  {| as_ := VK_NULL_HANDLE; buffer := None; filter := filter |}.

Definition tlasOf (m : ASManager) (frameIndex : nat) : AccelerationStructure :=
  default (nullAS 0) (tlas m !! frameIndex).

(** *** Builder calls *)

Definition AddBLAS (r : BuildRequest) : M ASManager unit :=
  modify (λ m, set_asBuilder
    {| bottomQueue := bottomQueue (asBuilder m) ++ [r];
       topQueue := topQueue (asBuilder m) |} m).

Definition AddTLAS (r : TopBuildRequest) : M ASManager unit :=
  modify (λ m, set_asBuilder
    {| bottomQueue := bottomQueue (asBuilder m);
       topQueue := topQueue (asBuilder m) ++ [r] |} m).

Definition BuildBottomLevel : M ASManager unit :=
  b ← gets asBuilder;
  emit (EvBuildBottomLevel (bottomQueue b)) ≫= λ _,
  modify (set_asBuilder {| bottomQueue := []; topQueue := topQueue b |}).

Definition BuildTopLevel : M ASManager unit :=
  b ← gets asBuilder;
  emit (EvBuildTopLevel (topQueue b)) ≫= λ _,
  modify (set_asBuilder {| bottomQueue := bottomQueue b; topQueue := [] |}).

(** *** [ASManager::IsFastBuild] *)
Definition IsFastBuild (filter : Z) : bool := hasAny filter CF_DYNAMIC.

(** *** [ASManager::DestroyAS] *)
Definition DestroyAS (a : AccelerationStructure) : M ASManager AccelerationStructure :=
  match buffer a with
  | Some b => emit (EvBufferDestroy (buf_handle b))
  | None => mret tt
  end ≫= λ _,
  (if as_ a =? VK_NULL_HANDLE then mret tt
   else emit (EvDestroyAccelerationStructure (as_ a))) ≫= λ _,
  mret {| as_ := VK_NULL_HANDLE; buffer := None; filter := filter a |}.

(** *** [ASManager::CreateASBuffer] *)
Definition CreateASBuffer (a : AccelerationStructure) (size : Z)
    : M ASManager AccelerationStructure :=
  h ← freshHandle;
  emit (EvBufferInit h size) ≫= λ _,
  mret {| as_ := as_ a;
          buffer := Some {| buf_handle := h; buf_size := size |};
          filter := filter a |}.

(** [svkCreateAccelerationStructureKHR] on the buffer of [a]. *)
Definition CreateAccelerationStructure (a : AccelerationStructure) (size : Z)
    (topLevel : bool) : M ASManager AccelerationStructure :=
  h ← freshHandle;
  emit (EvCreateAccelerationStructure h (GetBuffer (buffer a)) size topLevel) ≫= λ _,
  mret {| as_ := h; buffer := buffer a; filter := filter a |}.

(** *** [ASManager::SetupBLAS] *)
Definition SetupBLAS (a : AccelerationStructure) (vertCollector : VertexCollector)
    : M ASManager AccelerationStructure :=
  let filter := filter a in
  let geoms := GetASGeometries vertCollector filter in
  if bool_decide (length geoms = 0%nat) then mret a
  else
    let primCounts := GetPrimitiveCounts vertCollector filter in
    let fastTrace := negb (IsFastBuild filter) in
    let update := false in
    let buildSizes := GetBottomBuildSizes primCounts fastTrace in
    a' ← (if negb (IsInitted (buffer a)) || (GetSize (buffer a) <? buildSizes)
          then
            a1 ← DestroyAS a;
            a2 ← CreateASBuffer a1 buildSizes;
            CreateAccelerationStructure a2 buildSizes false
          else mret a);
    AddBLAS {| br_as := as_ a'; br_geoms := geoms;
               br_accelerationStructureSize := buildSizes;
               br_fastTrace := fastTrace; br_update := update |} ≫= λ _,
    mret a'.

(** *** [ASManager::UpdateBLAS] *)
Definition UpdateBLAS (ndebug : bool) (a : AccelerationStructure)
    (vertCollector : VertexCollector) : M ASManager AccelerationStructure :=
  let filter := filter a in
  let geoms := GetASGeometries vertCollector filter in
  if bool_decide (length geoms = 0%nat) then mret a
  else
    let primCounts := GetPrimitiveCounts vertCollector filter in
    let fastTrace := negb (IsFastBuild filter) in
    let update := true in
    let buildSizes := GetBottomBuildSizes primCounts fastTrace in
    assert ndebug (IsInitted (buffer a) && (buildSizes <=? GetSize (buffer a))) ≫= λ _,
    AddBLAS {| br_as := as_ a; br_geoms := geoms;
               br_accelerationStructureSize := buildSizes;
               br_fastTrace := fastTrace; br_update := update |} ≫= λ _,
    mret a.

End Operations.

Section EntryPoints.

Context `{FT : FilterTypeDecls} `{PF : Platform}.

(** *** The constructor's structure lists

    One structure per filter tag [cf | pt], in the order of the nested loops
    of the constructor; the tags with the dynamic bit go to every frame's
    dynamic list, the others to the static list.  A new structure has no
    handle and no buffer. *)

Definition allFilters : list Z :=
  cf ← VertexCollectorFilterGroup_ChangeFrequency;
  pt ← VertexCollectorFilterGroup_PassThrough;
  [Z.lor cf pt].

Definition ASManager_new : ASManager :=
  {| allStaticBlas :=
       nullAS <$> List.filter (λ f, negb (hasAny f CF_DYNAMIC)) allFilters;
     allDynamicBlas :=
       replicate MAX_FRAMES_IN_FLIGHT
         (nullAS <$> List.filter (λ f, hasAny f CF_DYNAMIC) allFilters);
     tlas := replicate MAX_FRAMES_IN_FLIGHT (nullAS 0);
     instanceBuffers :=
       replicate MAX_FRAMES_IN_FLIGHT
         (replicate MAX_TOP_LEVEL_INSTANCE_COUNT zeroInstance);
     collectorStatic := emptyCollector;
     collectorDynamic := replicate MAX_FRAMES_IN_FLIGHT emptyCollector;
     asBuilder := {| bottomQueue := []; topQueue := [] |};
     nextHandle := 1;
     trace := [] |}.

Definition materialsOf (info : RgGeometryUploadInfo) : list (list Z) :=
  [GetMaterialTextures (default 0 (layerMaterials info !! 0%nat));
   GetMaterialTextures (default 0 (layerMaterials info !! 1%nat));
   GetMaterialTextures (default 0 (layerMaterials info !! 2%nat))].

(** *** [ASManager::AddStaticGeometry] *)
Definition AddStaticGeometry (ndebug : bool) (info : RgGeometryUploadInfo)
    : M ASManager Z :=
  if bool_decide (geomType info = RG_GEOMETRY_TYPE_STATIC)
     || bool_decide (geomType info = RG_GEOMETRY_TYPE_STATIC_MOVABLE)
  then
    c ← gets collectorStatic;
    let r := AddGeometry info (materialsOf info) c in
    modify (set_collectorStatic r.2) ≫= λ _,
    mret r.1
  else
    assert ndebug false ≫= λ _,
    mret UINT32_MAX.

(** *** [ASManager::AddDynamicGeometry] *)
Definition AddDynamicGeometry (ndebug : bool) (info : RgGeometryUploadInfo)
    (frameIndex : nat) : M ASManager Z :=
  if bool_decide (geomType info = RG_GEOMETRY_TYPE_DYNAMIC)
  then
    m ← get;
    let r := AddGeometry info (materialsOf info) (collectorDynamicOf m frameIndex) in
    modify (set_collectorDynamic (<[frameIndex := r.2]> (collectorDynamic m))) ≫= λ _,
    mret r.1
  else
    assert ndebug false ≫= λ _,
    mret UINT32_MAX.

(** *** [ASManager::ResetStaticGeometry], [ASManager::BeginStaticGeometry] *)
Definition ResetStaticGeometry : M ASManager unit :=
  modify (λ m, set_collectorStatic (Reset (collectorStatic m)) m).

Definition BeginStaticGeometry : M ASManager unit :=
  modify (λ m, set_collectorStatic (BeginCollecting (Reset (collectorStatic m))) m).

(** [FT::CF_STATIC_NON_MOVABLE | FT::CF_STATIC_MOVABLE]. *)
Definition staticFlags : Z := Z.lor CF_STATIC_NON_MOVABLE CF_STATIC_MOVABLE.

(** *** [ASManager::SubmitStaticGeometry] *)
Definition SubmitStaticGeometry (ndebug : bool) : M ASManager unit :=
  modify (λ m, set_collectorStatic (EndCollecting (collectorStatic m)) m) ≫= λ _,
  (* destroy previous static *)
  blas ← gets allStaticBlas;
  blas' ← mapM (λ staticBlas,
             assert ndebug (negb (hasAny (filter staticBlas) CF_DYNAMIC)) ≫= λ _,
             if hasAny (filter staticBlas) staticFlags
             then DestroyAS staticBlas
             else mret staticBlas) blas;
  modify (set_allStaticBlas blas') ≫= λ _,
  b ← gets asBuilder;
  assert ndebug (IsEmpty b) ≫= λ _,
  c ← gets collectorStatic;
  (* skip if all static geometries are empty *)
  if AreGeometriesEmpty c staticFlags then mret tt
  else
    (* copy from staging with barrier *)
    emit (EvCopyFromStaging None true) ≫= λ _,
    (* setup static blas *)
    blas ← gets allStaticBlas;
    blas' ← mapM (λ staticBlas,
               if hasAny (filter staticBlas) staticFlags
               then SetupBLAS staticBlas c
               else mret staticBlas) blas;
    modify (set_allStaticBlas blas') ≫= λ _,
    (* build AS *)
    BuildBottomLevel ≫= λ _,
    (* submit and wait *)
    emit EvSubmitAndWait.

(** *** [ASManager::BeginDynamicGeometry] *)
Definition BeginDynamicGeometry (frameIndex : nat) : M ASManager unit :=
  modify (λ m, set_collectorDynamic
    (<[frameIndex := BeginCollecting (Reset (collectorDynamicOf m frameIndex))]>
       (collectorDynamic m)) m).

(** *** [ASManager::SubmitDynamicGeometry] *)
Definition SubmitDynamicGeometry (ndebug : bool) (frameIndex : nat) : M ASManager unit :=
  modify (λ m, set_collectorDynamic
    (<[frameIndex := EndCollecting (collectorDynamicOf m frameIndex)]>
       (collectorDynamic m)) m) ≫= λ _,
  emit (EvCopyFromStaging (Some frameIndex) false) ≫= λ _,
  b ← gets asBuilder;
  assert ndebug (IsEmpty b) ≫= λ _,
  m ← get;
  let colDyn := collectorDynamicOf m frameIndex in
  if AreGeometriesEmpty colDyn CF_DYNAMIC then mret tt
  else
    (* recreate dynamic blas *)
    blas' ← mapM (λ dynamicBlas,
               assert ndebug (hasAny (filter dynamicBlas) CF_DYNAMIC) ≫= λ _,
               SetupBLAS dynamicBlas colDyn) (dynamicBlasOf m frameIndex);
    modify (λ m, set_allDynamicBlas (<[frameIndex := blas']> (allDynamicBlas m)) m) ≫= λ _,
    (* build BLAS *)
    BuildBottomLevel.

(** *** [ASManager::UpdateStaticMovableTransform] *)
Definition UpdateStaticMovableTransform (geomIndex : Z) (t : RgTransform)
    : M ASManager unit :=
  modify (λ m, set_collectorStatic (UpdateTransform geomIndex t (collectorStatic m)) m).

(** *** [ASManager::ResubmitStaticMovable] *)
Definition ResubmitStaticMovable (ndebug : bool) : M ASManager unit :=
  c ← gets collectorStatic;
  if AreGeometriesEmpty c CF_STATIC_MOVABLE then mret tt
  else
    b ← gets asBuilder;
    assert ndebug (IsEmpty b) ≫= λ _,
    (* update movable blas *)
    blas ← gets allStaticBlas;
    blas' ← mapM (λ blas,
               assert ndebug (negb (hasAny (filter blas) CF_DYNAMIC)) ≫= λ _,
               if hasAny (filter blas) CF_STATIC_MOVABLE
               then UpdateBLAS ndebug blas c
               else mret blas) blas;
    modify (set_allStaticBlas blas') ≫= λ _,
    BuildBottomLevel ≫= λ _,
    emit EvASBuildMemoryBarrier.

(** [memcpy(dst, src, n * sizeof(element))] on arrays of elements. *)
Definition memcpy {A} (dst src : list A) (n : nat) : list A :=
  take n src ++ drop n dst.

(** What [TryBuildTLAS] leaves behind besides the manager's state: its
    result, the offset table of the uniform block, and its locals. *)
Record TlasResult := {
  built : bool;
  uniform_instanceGeomInfoOffset : list Z;
  locals : TlasFrame
}.

(** The two block reads at the end of [TryBuildTLAS]. *)
Definition readLocals (fr : TlasFrame) : TlasFrame :=
  let n := instanceCount fr in
  {| instanceCount := n;
     instances := instances fr;
     instanceGeomInfoOffset := instanceGeomInfoOffset fr;
     overrun := overrun fr
       ++ (if decide (n * 4 ≤ length (instanceGeomInfoOffset fr))%nat then []
           else [ReadPastEnd ArrInstanceGeomInfoOffset (n * 4)])
       ++ (if decide (n ≤ length (instances fr))%nat then []
           else [ReadPastEnd ArrInstances n]) |}.

(** *** [ASManager::TryBuildTLAS]

    [stack] is the content of the uninitialised offset array on entry,
    [uniform] the offset table of the uniform block before the call. *)
Definition TryBuildTLAS (ndebug : bool) (stack : list Z) (frameIndex : nat)
    (uniform : list Z) : M ASManager TlasResult := λ m,
  match assembleInstances ndebug (allStaticBlas m) (dynamicBlasOf m frameIndex)
          (initialFrame stack) with
  | AssertionFailed _ => AssertionFailed m
  | Ok _ fr =>
      if bool_decide (instanceCount fr = 0%nat)
      then Ok {| built := false; uniform_instanceGeomInfoOffset := uniform; locals := fr |} m
      else
        let n := instanceCount fr in
        (modify (λ m, set_instanceBuffers
           (<[frameIndex := memcpy (default [] (instanceBuffers m !! frameIndex))
                              (instances fr) n]> (instanceBuffers m)) m) ≫= λ _,
         let curTlas := tlasOf m frameIndex in
         let buildSizes := GetTopBuildSizes n false in
         curTlas' ← (if GetSize (buffer curTlas) <? buildSizes
                     then
                       a1 ← DestroyAS curTlas;
                       a2 ← CreateASBuffer a1 buildSizes;
                       CreateAccelerationStructure a2 buildSizes true
                     else mret curTlas);
         modify (λ m, set_tlas (<[frameIndex := curTlas']> (tlas m)) m) ≫= λ _,
         b ← gets asBuilder;
         assert ndebug (IsEmpty b) ≫= λ _,
         AddTLAS {| tbr_as := as_ curTlas'; tbr_instanceCount := n;
                    tbr_accelerationStructureSize := buildSizes;
                    tbr_fastTrace := true; tbr_update := false |} ≫= λ _,
         BuildTopLevel ≫= λ _,
         emit EvASBuildMemoryBarrier ≫= λ _,
         emit (EvUpdateASDescriptors frameIndex) ≫= λ _,
         mret {| built := true;
                 uniform_instanceGeomInfoOffset :=
                   memcpy uniform (instanceGeomInfoOffset fr) (n * 4);
                 locals := readLocals fr |}) m
  end.

(** *** The calls of the public interface, and the states they lead to *)

Inductive Call :=
  | CallResetStaticGeometry
  | CallBeginStaticGeometry
  | CallAddStaticGeometry (info : RgGeometryUploadInfo)
  | CallSubmitStaticGeometry
  | CallBeginDynamicGeometry (frameIndex : nat)
  | CallAddDynamicGeometry (info : RgGeometryUploadInfo) (frameIndex : nat)
  | CallSubmitDynamicGeometry (frameIndex : nat)
  | CallUpdateStaticMovableTransform (geomIndex : Z) (t : RgTransform)
  | CallResubmitStaticMovable
  | CallTryBuildTLAS (stack : list Z) (frameIndex : nat) (uniform : list Z).

Definition perform (ndebug : bool) (c : Call) : M ASManager unit :=
  match c with
  | CallResetStaticGeometry => ResetStaticGeometry
  | CallBeginStaticGeometry => BeginStaticGeometry
  | CallAddStaticGeometry info => AddStaticGeometry ndebug info ≫= λ _, mret tt
  | CallSubmitStaticGeometry => SubmitStaticGeometry ndebug
  | CallBeginDynamicGeometry frameIndex => BeginDynamicGeometry frameIndex
  | CallAddDynamicGeometry info frameIndex =>
      AddDynamicGeometry ndebug info frameIndex ≫= λ _, mret tt
  | CallSubmitDynamicGeometry frameIndex => SubmitDynamicGeometry ndebug frameIndex
  | CallUpdateStaticMovableTransform geomIndex t =>
      UpdateStaticMovableTransform geomIndex t
  | CallResubmitStaticMovable => ResubmitStaticMovable ndebug
  | CallTryBuildTLAS stack frameIndex uniform =>
      TryBuildTLAS ndebug stack frameIndex uniform ≫= λ _, mret tt
  end.

(** The states of a manager that was constructed and then used through
    calls that returned. *)
Inductive reachable (ndebug : bool) : ASManager → Prop :=
  | reachable_new : reachable ndebug ASManager_new
  | reachable_call (m m' : ASManager) (c : Call) :
      reachable ndebug m → perform ndebug c m = Ok tt m' → reachable ndebug m'.

End EntryPoints.

(** ** Shader-side geometry access ([Shaders/VertexData.inl])

    Floating-point values are kept abstract: [float] with the operations the
    shader applies to it, and 4x4 matrices with their two uses, transforming a
    point ([(m * vec4(p, 1.0)).xyz]) and transforming a direction
    ([mat3(m) * n]).  Storage buffers are total maps from an index to an
    element.  Of [ShTriangle] the model keeps positions, previous positions
    and normals; texture coordinates, materials and tangents do not take part
    in them. *)

Class ShaderMath := {
  float : Type;
  mat4 : Type;
  f_one : float;
  f_add : float → float → float;
  f_sub : float → float → float;
  f_mul : float → float → float;
  mulPoint : mat4 → float * float * float → float * float * float;
  mulDirection : mat4 → float * float * float → float * float * float
}.

Module VertexData.
Section VertexData.

Context `{SM : ShaderMath}.

Definition vec3 : Type := float * float * float.
Definition vec2 : Type := float * float.
(** Three vertices ([mat3] with the vertices as columns, [uvec3] of indices). *)
Definition mat3 : Type := vec3 * vec3 * vec3.
Definition uvec3 : Type := Z * Z * Z.

Definition v_scale (v : vec3) (s : float) : vec3 :=
  (f_mul v.1.1 s, f_mul v.1.2 s, f_mul v.2 s).

Definition v_add (a b : vec3) : vec3 :=
  (f_add a.1.1 b.1.1, f_add a.1.2 b.1.2, f_add a.2 b.2).

(** [m * v] for a [mat3] given by its columns. *)
Definition mat3_mul (m : mat3) (v : vec3) : vec3 :=
  v_add (v_add (v_scale m.1.1 v.1.1) (v_scale m.1.2 v.1.2)) (v_scale m.2 v.2).

(** [vec3(1.0 - bary.x - bary.y, bary.x, bary.y)]. *)
Definition baryCoordsOf (bary : vec2) : vec3 :=
  (f_sub (f_sub f_one bary.1) bary.2, bary.1, bary.2).

(** The fields of [ShGeometryInstance] read by the position fetches. *)
Record ShGeometryInstance := {
  model : mat4;
  prevModel : mat4;
  flags : Z;
  baseVertexIndex : Z;
  baseIndexIndex : Z;
  prevBaseVertexIndex : Z;
  prevBaseIndexIndex : Z
}.

(** The uniform block and the bound buffers. *)
Record Bindings := {
  positionsStride : Z;
  normalsStride : Z;
  instanceGeomInfoOffset : list Z;
  instanceGeomInfoOffsetPrev : list Z;
  staticVertices_positions : Z → float;
  staticVertices_normals : Z → float;
  dynamicVertices_positions : Z → float;
  dynamicVertices_normals : Z → float;
  staticIndices : Z → Z;
  dynamicIndices : Z → Z;
  geometryInstances : Z → ShGeometryInstance;
  geomIndexPrevToCur : Z → Z;
  prevDynamicPositions : Z → float;
  prevDynamicIndices : Z → Z
}.

(** [uint] arithmetic. *)
Definition u_add (a b : Z) : Z := to_uint32 (a + b).
Definition u_mul (a b : Z) : Z := to_uint32 (a * b).

(** Three consecutive floats of a buffer starting at [index * stride]. *)
Definition fetch3 (buf : Z → float) (index stride : Z) : vec3 :=
  (buf (u_add (u_mul index stride) 0),
   buf (u_add (u_mul index stride) 1),
   buf (u_add (u_mul index stride) 2)).

Section Fetch.

Variable b : Bindings.

Definition getStaticVerticesPositions (index : Z) : vec3 :=
  fetch3 (staticVertices_positions b) index (positionsStride b).
Definition getStaticVerticesNormals (index : Z) : vec3 :=
  fetch3 (staticVertices_normals b) index (normalsStride b).
Definition getDynamicVerticesPositions (index : Z) : vec3 :=
  fetch3 (dynamicVertices_positions b) index (positionsStride b).
Definition getDynamicVerticesNormals (index : Z) : vec3 :=
  fetch3 (dynamicVertices_normals b) index (normalsStride b).
Definition getPrevDynamicVerticesPositions (index : Z) : vec3 :=
  fetch3 (prevDynamicPositions b) index (positionsStride b).

(** The body shared by [getVertIndicesStatic], [getVertIndicesDynamic] and
    [getPrevVertIndicesDynamic]: [indices] is the index buffer each reads. *)
Definition vertIndices (indices : Z → Z) (baseVertexIndex baseIndexIndex primitiveId : Z)
    : uvec3 :=
  if negb (baseIndexIndex =? UINT32_MAX)
  then
    (u_add baseVertexIndex (indices (u_add (u_add baseIndexIndex (u_mul primitiveId 3)) 0)),
     u_add baseVertexIndex (indices (u_add (u_add baseIndexIndex (u_mul primitiveId 3)) 1)),
     u_add baseVertexIndex (indices (u_add (u_add baseIndexIndex (u_mul primitiveId 3)) 2)))
  else
    (u_add (u_add baseVertexIndex (u_mul primitiveId 3)) 0,
     u_add (u_add baseVertexIndex (u_mul primitiveId 3)) 1,
     u_add (u_add baseVertexIndex (u_mul primitiveId 3)) 2).

Definition getVertIndicesStatic := vertIndices (staticIndices b).
Definition getVertIndicesDynamic := vertIndices (dynamicIndices b).
Definition getPrevVertIndicesDynamic := vertIndices (prevDynamicIndices b).

(** Positions, previous positions and normals of [ShTriangle]. *)
Record ShTriangle := {
  positions : mat3;
  prevPositions : mat3;
  normals : mat3
}.

(** [getTriangleStatic] and [getTriangleDynamic]: positions and normals of the
    three vertices; the previous positions are not set by them. *)
Definition getTriangleStatic (vi : uvec3) : mat3 * mat3 :=
  ((getStaticVerticesPositions vi.1.1, getStaticVerticesPositions vi.1.2,
    getStaticVerticesPositions vi.2),
   (getStaticVerticesNormals vi.1.1, getStaticVerticesNormals vi.1.2,
    getStaticVerticesNormals vi.2)).

Definition getTriangleDynamic (vi : uvec3) : mat3 * mat3 :=
  ((getDynamicVerticesPositions vi.1.1, getDynamicVerticesPositions vi.1.2,
    getDynamicVerticesPositions vi.2),
   (getDynamicVerticesNormals vi.1.1, getDynamicVerticesNormals vi.1.2,
    getDynamicVerticesNormals vi.2)).

(** Element [[i][c]] of an [ivec4] array in the uniform block, whose
    components are consecutive [int]s.  A read outside the array, which GLSL
    leaves undefined, is given the value 0 here. *)
Definition ivec4At (arr : list Z) (i c : Z) : Z :=
  default 0 (arr !! Z.to_nat (4 * i + c)).

(** [getGeometryIndex]. *)
Definition getGeometryIndex (instanceID localGeometryIndex : Z) : Z :=
  to_int32 (ivec4At (instanceGeomInfoOffset b) (Z.quot instanceID 4) (Z.rem instanceID 4)
            + localGeometryIndex).

(** [getCurrentGeometryIndexByPrev]: the result and the [out] parameter. *)
Definition getCurrentGeometryIndexByPrev (prevInstanceID prevLocalGeometryIndex : Z)
    : bool * Z :=
  let prevFrameGeomIndex :=
    to_int32 (ivec4At (instanceGeomInfoOffsetPrev b)
                (Z.quot prevInstanceID 4) (Z.rem prevInstanceID 4)
              + prevLocalGeometryIndex) in
  let curFrameGlobalGeomIndex := geomIndexPrevToCur b prevFrameGeomIndex in
  (negb (to_uint32 curFrameGlobalGeomIndex =? UINT32_MAX), curFrameGlobalGeomIndex).

Definition isDynamicIndex (instanceCustomIndex : Z) : bool :=
  Z.land instanceCustomIndex INSTANCE_CUSTOM_INDEX_FLAG_DYNAMIC
    =? INSTANCE_CUSTOM_INDEX_FLAG_DYNAMIC.

Definition map3 (f : vec3 → vec3) (m : mat3) : mat3 :=
  (f m.1.1, f m.1.2, f m.2).

(** [getTriangle]. *)
Definition getTriangle (instanceID instanceCustomIndex localGeometryIndex primitiveId : Z)
    : ShTriangle :=
  let globalGeometryIndex := getGeometryIndex instanceID localGeometryIndex in
  let inst := geometryInstances b globalGeometryIndex in
  let isDynamic := isDynamicIndex instanceCustomIndex in
  let tr :=
    if isDynamic then
      let vi := getVertIndicesDynamic (baseVertexIndex inst) (baseIndexIndex inst) primitiveId in
      let local := getTriangleDynamic vi in
      (* to world space *)
      let pos := map3 (mulPoint (model inst)) local.1 in
      let hasPrevInfo := negb (prevBaseVertexIndex inst =? UINT32_MAX) in
      let prev :=
        if hasPrevInfo then
          let pvi := getPrevVertIndicesDynamic (prevBaseVertexIndex inst)
                       (prevBaseIndexIndex inst) primitiveId in
          map3 (mulPoint (prevModel inst))
            (getPrevDynamicVerticesPositions pvi.1.1,
             getPrevDynamicVerticesPositions pvi.1.2,
             getPrevDynamicVerticesPositions pvi.2)
        else pos in
      (pos, prev, local.2)
    else
      let vi := getVertIndicesStatic (baseVertexIndex inst) (baseIndexIndex inst) primitiveId in
      let local := getTriangleStatic vi in
      let prevLocalPos := local.1 in
      (* to world space *)
      let pos := map3 (mulPoint (model inst)) prevLocalPos in
      let isMovable := negb (Z.land (flags inst) GEOM_INST_FLAG_IS_MOVABLE =? 0) in
      let hasPrevInfo := negb (prevBaseVertexIndex inst =? UINT32_MAX) in
      let prev :=
        if isMovable && hasPrevInfo
        then map3 (mulPoint (prevModel inst)) prevLocalPos
        else pos in
      (pos, prev, local.2) in
  {| positions := tr.1.1;
     prevPositions := tr.1.2;
     normals := map3 (mulDirection (model inst)) tr.2 |}.

(** [getTriangle_PositionAndNormal]: the four [out] parameters
    [(position, position_Prev, normal, normal_Prev)]. *)
Definition getTriangle_PositionAndNormal
    (instanceID instanceCustomIndex localGeometryIndex primitiveId : Z) (bary : vec2)
    : vec3 * vec3 * vec3 * vec3 :=
  let baryCoords := baryCoordsOf bary in
  let globalGeometryIndex := getGeometryIndex instanceID localGeometryIndex in
  let inst := geometryInstances b globalGeometryIndex in
  let isDynamic := isDynamicIndex instanceCustomIndex in
  if isDynamic then
    let vi := getVertIndicesDynamic (baseVertexIndex inst) (baseIndexIndex inst) primitiveId in
    let tr := getTriangleDynamic vi in
    let position := mulPoint (model inst) (mat3_mul tr.1 baryCoords) in
    let localNormal := mat3_mul tr.2 baryCoords in
    let normal := mulDirection (model inst) localNormal in
    let hasPrevInfo := negb (prevBaseVertexIndex inst =? UINT32_MAX) in
    if hasPrevInfo then
      let pvi := getPrevVertIndicesDynamic (prevBaseVertexIndex inst)
                   (prevBaseIndexIndex inst) primitiveId in
      let position_Prev :=
        v_add (v_add (v_scale (getPrevDynamicVerticesPositions pvi.1.1) baryCoords.1.1)
                     (v_scale (getPrevDynamicVerticesPositions pvi.1.2) baryCoords.1.2))
              (v_scale (getPrevDynamicVerticesPositions pvi.2) baryCoords.2) in
      (position, mulPoint (prevModel inst) position_Prev,
       normal, mulDirection (prevModel inst) localNormal)
    else (position, position, normal, normal)
  else
    let vi := getVertIndicesStatic (baseVertexIndex inst) (baseIndexIndex inst) primitiveId in
    let tr := getTriangleStatic vi in
    let localPosition := mat3_mul tr.1 baryCoords in
    let localNormal := mat3_mul tr.2 baryCoords in
    let position := mulPoint (model inst) localPosition in
    let normal := mulDirection (model inst) localNormal in
    let isMovable := negb (Z.land (flags inst) GEOM_INST_FLAG_IS_MOVABLE =? 0) in
    let hasPrevInfo := negb (prevBaseVertexIndex inst =? UINT32_MAX) in
    if isMovable && hasPrevInfo
    then (position, mulPoint (prevModel inst) localPosition,
          normal, mulDirection (prevModel inst) localNormal)
    else (position, position, normal, normal).

(** [getOnlyCurPositions]. *)
Definition getOnlyCurPositions (globalGeometryIndex instanceCustomIndex primitiveId : Z)
    : mat3 :=
  let inst := geometryInstances b globalGeometryIndex in
  if isDynamicIndex instanceCustomIndex then
    let vi := getVertIndicesDynamic (baseVertexIndex inst) (baseIndexIndex inst) primitiveId in
    map3 (mulPoint (model inst))
      (getDynamicVerticesPositions vi.1.1, getDynamicVerticesPositions vi.1.2,
       getDynamicVerticesPositions vi.2)
  else
    let vi := getVertIndicesStatic (baseVertexIndex inst) (baseIndexIndex inst) primitiveId in
    map3 (mulPoint (model inst))
      (getStaticVerticesPositions vi.1.1, getStaticVerticesPositions vi.1.2,
       getStaticVerticesPositions vi.2).

(** [getOnlyPrevPositions]. *)
Definition getOnlyPrevPositions (globalGeometryIndex instanceCustomIndex primitiveId : Z)
    : mat3 :=
  let inst := geometryInstances b globalGeometryIndex in
  if isDynamicIndex instanceCustomIndex then
    let hasPrevInfo := negb (prevBaseVertexIndex inst =? UINT32_MAX) in
    if hasPrevInfo then
      let pvi := getPrevVertIndicesDynamic (prevBaseVertexIndex inst)
                   (prevBaseIndexIndex inst) primitiveId in
      map3 (mulPoint (prevModel inst))
        (getPrevDynamicVerticesPositions pvi.1.1, getPrevDynamicVerticesPositions pvi.1.2,
         getPrevDynamicVerticesPositions pvi.2)
    else
      let vi := getVertIndicesDynamic (baseVertexIndex inst) (baseIndexIndex inst) primitiveId in
      map3 (mulPoint (model inst))
        (getDynamicVerticesPositions vi.1.1, getDynamicVerticesPositions vi.1.2,
         getDynamicVerticesPositions vi.2)
  else
    let vi := getVertIndicesStatic (baseVertexIndex inst) (baseIndexIndex inst) primitiveId in
    let localPos :=
      (getStaticVerticesPositions vi.1.1, getStaticVerticesPositions vi.1.2,
       getStaticVerticesPositions vi.2) in
    let isMovable := negb (Z.land (flags inst) GEOM_INST_FLAG_IS_MOVABLE =? 0) in
    let hasPrevInfo := negb (prevBaseVertexIndex inst =? UINT32_MAX) in
    if isMovable && hasPrevInfo
    then map3 (mulPoint (prevModel inst)) localPos
    else map3 (mulPoint (model inst)) localPos.

(** [unpackPrevVisibilityBuffer], after the two unpacking calls (which are
    declared elsewhere): [None] is the [false] result, which leaves [prevPos]
    unset. *)
Definition unpackPrevVisibilityBuffer
    (prevInstanceID instCustomIndex prevLocalGeomIndex primIndex : Z) (bary : vec2)
    : option vec3 :=
  let r := getCurrentGeometryIndexByPrev prevInstanceID prevLocalGeomIndex in
  if negb r.1 then None
  else
    let prevVerts := getOnlyCurPositions r.2 instCustomIndex primIndex in
    Some (mat3_mul prevVerts (baryCoordsOf bary)).

End Fetch.

(** The bindings [b] with other previous-frame data: previous model
    matrices [pm] and previous base index indices [pbi] in the geometry
    records, previous dynamic positions [pp] and previous dynamic indices
    [pi].  The current-frame data and the previous base vertex index, whose
    sentinel value tells that there is no previous-frame data, are kept. *)
Definition withPrevData (pm : Z → mat4) (pbi : Z → Z) (pp : Z → float) (pi : Z → Z)
    (b : Bindings) : Bindings :=
  {| positionsStride := positionsStride b;
     normalsStride := normalsStride b;
     instanceGeomInfoOffset := instanceGeomInfoOffset b;
     instanceGeomInfoOffsetPrev := instanceGeomInfoOffsetPrev b;
     staticVertices_positions := staticVertices_positions b;
     staticVertices_normals := staticVertices_normals b;
     dynamicVertices_positions := dynamicVertices_positions b;
     dynamicVertices_normals := dynamicVertices_normals b;
     staticIndices := staticIndices b;
     dynamicIndices := dynamicIndices b;
     geometryInstances := λ i,
       {| model := model (geometryInstances b i);
          prevModel := pm i;
          flags := flags (geometryInstances b i);
          baseVertexIndex := baseVertexIndex (geometryInstances b i);
          baseIndexIndex := baseIndexIndex (geometryInstances b i);
          prevBaseVertexIndex := prevBaseVertexIndex (geometryInstances b i);
          prevBaseIndexIndex := pbi i |};
     geomIndexPrevToCur := geomIndexPrevToCur b;
     prevDynamicPositions := pp;
     prevDynamicIndices := pi |}.

(** The geometry record has no usable previous-frame data for a fetch with
    the given custom index: its previous base vertex index is the sentinel,
    or the fetch is of static geometry and the record is not movable. *)
Definition noPrevData (inst : ShGeometryInstance) (instanceCustomIndex : Z) : Prop :=
  prevBaseVertexIndex inst = UINT32_MAX
  ∨ (isDynamicIndex instanceCustomIndex = false
     ∧ Z.land (flags inst) GEOM_INST_FLAG_IS_MOVABLE = 0).

End VertexData.
End VertexData.

(** ** A concrete configuration

    Bit values for the filter tags in the order of the two groups, the group
    offset as the position of the tag in the constructor's loops, and a device
    whose sizes grow with the primitive and instance counts.  The examples
    below are evaluated on it. *)

Definition exampleOffset (f : Z) : Z :=
  (if hasAny f 2 then 4 else if hasAny f 4 then 8 else 0)
  + (if hasAny f 16 then 1 else if hasAny f 32 then 2 else if hasAny f 64 then 3 else 0).

Definition exampleDecls : FilterTypeDecls.
Proof.
  refine
    {| CF_STATIC_NON_MOVABLE := 1; CF_STATIC_MOVABLE := 2; CF_DYNAMIC := 4;
       PT_OPAQUE := 8; PT_ALPHA_TESTED := 16; PT_BLEND_ADDITIVE := 32;
       PT_BLEND_UNDER := 64;
       VertexCollectorFilterTypeFlagsToOffset := exampleOffset;
       INSTANCE_MASK_HAS_SHADOWS := 1;
       SBT_INDEX_HITGROUP_BLEND_ADDITIVE := 2;
       SBT_INDEX_HITGROUP_BLEND_UNDER := 3 |}.
  - repeat apply Forall_cons_2; [ | | | | | | | apply Forall_nil_2 ].
    + exists 0; split; [lia | reflexivity].
    + exists 1; split; [lia | reflexivity].
    + exists 2; split; [lia | reflexivity].
    + exists 3; split; [lia | reflexivity].
    + exists 4; split; [lia | reflexivity].
    + exists 5; split; [lia | reflexivity].
    + exists 6; split; [lia | reflexivity].
  - apply (bool_decide_unpack _); vm_compute; exact I.
  - intros f; unfold exampleOffset.
    destruct (hasAny f 2), (hasAny f 4), (hasAny f 16), (hasAny f 32), (hasAny f 64);
      split; (discriminate || reflexivity).
  - split; reflexivity.
  - split; [discriminate | reflexivity].
  - split; [discriminate | reflexivity].
Defined.

Definition examplePlatform : Platform :=
  {| RgTransform := Z;
     GetASAddress := λ h, 4096 * h;
     GetBottomBuildSizes := λ primCounts fastTrace, 128 + 64 * foldr Z.add 0 primCounts;
     GetTopBuildSizes := λ n fastTrace, 256 * Z.of_nat n;
     GetMaterialTextures := λ m, [m; m + 1; m + 2] |}.

(** Integer arithmetic in place of floating point; a matrix is a scale
    factor and a translation along the first axis. *)
Definition exampleMath : ShaderMath :=
  {| float := Z;
     mat4 := Z * Z;
     f_one := 1;
     f_add := Z.add;
     f_sub := Z.sub;
     f_mul := Z.mul;
     mulPoint := λ m v, (m.1 * v.1.1 + m.2, m.1 * v.1.2, m.1 * v.2);
     mulDirection := λ m v, (m.1 * v.1.1, m.1 * v.1.2, m.1 * v.2) |}.

(** A live structure of a given filter tag: handle [h], buffer [h + 1]. *)
Definition liveAS (h filter : Z) : AccelerationStructure :=
  {| as_ := h;
     buffer := Some {| buf_handle := h + 1; buf_size := 1024 |};
     filter := filter |}.

(** ** Notions used to state the properties *)

(** A structure is live when its handle is valid. *)
Definition isLive (a : AccelerationStructure) : bool :=
  negb (as_ a =? VK_NULL_HANDLE).

Definition liveBlas (l : list AccelerationStructure) : list AccelerationStructure :=
  List.filter isLive l.

Section AssemblyNotions.

Context `{FT : FilterTypeDecls} `{PF : Platform}.

(** The filter tag a loop of [TryBuildTLAS] asserts of its structures. *)
Definition tagOK (static : bool) (a : AccelerationStructure) : bool :=
  if static then negb (hasAny (filter a) CF_DYNAMIC)
  else hasAny (filter a) CF_DYNAMIC.

(** The stores one loop iteration makes for a live structure. *)
Definition pushInstance (a : AccelerationStructure) (fr : TlasFrame) : TlasFrame :=
  match SetupTLASInstance a (default zeroInstance (instances fr !! instanceCount fr)) with
  | None => fr
  | Some inst =>
      incrementCount
        (storeOffset (instanceCount fr * 4) (geomInfoBaseOffset (filter a))
           (storeInstance (instanceCount fr) inst fr))
  end.

(** The stores of a whole loop when no assertion stops it. *)
Definition pushAll (l : list AccelerationStructure) (fr : TlasFrame) : TlasFrame :=
  foldl (λ fr a, pushInstance a fr) fr l.

(** The stores past the end of a local array made for slot [c], when the
    arrays have [ni] instances and [no] offsets. *)
Definition overrunsOfSlot (ni no : nat) (c : nat) : list Overrun :=
  (if decide (c < ni)%nat then [] else [StorePastEnd ArrInstances c])
  ++ (if decide (c * 4 < no)%nat then [] else [StorePastEnd ArrInstanceGeomInfoOffset (c * 4)]).


End AssemblyNotions.

Section ManagerNotions.

Context `{FT : FilterTypeDecls} `{PF : Platform}.

(** What [DestroyAS] does to the device for a structure. *)
Definition destroyEvents (a : AccelerationStructure) : list Event :=
  match buffer a with
  | Some b => [EvBufferDestroy (buf_handle b)]
  | None => []
  end
  ++ (if as_ a =? VK_NULL_HANDLE then [] else [EvDestroyAccelerationStructure (as_ a)]).

Definition emitAll (es : list Event) (m : ASManager) : ASManager :=
  set_trace (trace m ++ es) m.

(** The size the driver requires for the structure of [a] over the
    geometries [c] holds for its filter group. *)
Definition requiredSize (c : VertexCollector) (a : AccelerationStructure) : Z :=
  GetBottomBuildSizes (GetPrimitiveCounts c (filter a)) (negb (IsFastBuild (filter a))).

(** The condition under which [SetupBLAS] replaces the buffer. *)
Definition needsNewBuffer (c : VertexCollector) (a : AccelerationStructure) : bool :=
  negb (IsInitted (buffer a)) || (GetSize (buffer a) <? requiredSize c a).

Definition hasGeometry (c : VertexCollector) (a : AccelerationStructure) : bool :=
  negb (bool_decide (length (GetASGeometries c (filter a)) = 0%nat)).

(** The request [SetupBLAS] or [UpdateBLAS] enqueues for a structure. *)
Definition buildRequest (update : bool) (c : VertexCollector) (a : AccelerationStructure)
    : BuildRequest :=
  {| br_as := as_ a;
     br_geoms := GetASGeometries c (filter a);
     br_accelerationStructureSize := requiredSize c a;
     br_fastTrace := negb (IsFastBuild (filter a));
     br_update := update |}.

(** The assertion of [UpdateBLAS]. *)
Definition updatable (c : VertexCollector) (a : AccelerationStructure) : bool :=
  IsInitted (buffer a) && (requiredSize c a <=? GetSize (buffer a)).

(** The structures [ResubmitStaticMovable] updates. *)
Definition movableToUpdate (c : VertexCollector) (l : list AccelerationStructure)
    : list AccelerationStructure :=
  List.filter (λ a, hasAny (filter a) CF_STATIC_MOVABLE && hasGeometry c a) l.

(** A static structure after the first loop of [SubmitStaticGeometry]. *)
Definition afterDestroy (a : AccelerationStructure) : AccelerationStructure :=
  if hasAny (filter a) staticFlags then nullAS (filter a) else a.

Definition destroyEventsOf (l : list AccelerationStructure) : list Event :=
  concat ((λ a, if hasAny (filter a) staticFlags then destroyEvents a else []) <$> l).

(** [m'] differs from [m] at most in the builder's queues, the handle
    counter and the event trace. *)
Definition sameStructures (m m' : ASManager) : Prop :=
  allStaticBlas m' = allStaticBlas m
  ∧ allDynamicBlas m' = allDynamicBlas m
  ∧ tlas m' = tlas m
  ∧ instanceBuffers m' = instanceBuffers m
  ∧ collectorStatic m' = collectorStatic m
  ∧ collectorDynamic m' = collectorDynamic m.

(** The structure [SetupBLAS] creates in place of [a] when it replaces the
    buffer: the next two handles of the device. *)
Definition rebuiltAS (c : VertexCollector) (a : AccelerationStructure) (m : ASManager)
    : AccelerationStructure :=
  {| as_ := nextHandle m + 1;
     buffer := Some {| buf_handle := nextHandle m; buf_size := requiredSize c a |};
     filter := filter a |}.

(** What the assertions in the loop of [ResubmitStaticMovable] ask of a
    static structure: no dynamic bit, and, if it is movable and its group
    holds geometry, an initialised buffer of sufficient size. *)
Definition resubmitReady (c : VertexCollector) (a : AccelerationStructure) : bool :=
  tagOK true a
  && (negb (hasAny (filter a) CF_STATIC_MOVABLE && hasGeometry c a) || updatable c a).

(** The filter tags of the structure lists, in order. *)
Definition structureFilters (m : ASManager) : list Z * list (list Z) :=
  (map filter (allStaticBlas m), map (map filter) (allDynamicBlas m)).

(** [m'] has the structure lists of [m]. *)
Definition keepsLists (m m' : ASManager) : Prop :=
  allStaticBlas m' = allStaticBlas m ∧ allDynamicBlas m' = allDynamicBlas m.

(** The invariant: the structure lists carry the filter tags the constructor
    gave them, in the constructor's order. *)
Definition structuresAsNew (m : ASManager) : Prop :=
  structureFilters m = structureFilters ASManager_new.


Definition enqueueAll (rs : list BuildRequest) (m : ASManager) : ASManager :=
  set_asBuilder
    {| bottomQueue := bottomQueue (asBuilder m) ++ rs;
       topQueue := topQueue (asBuilder m) |} m.

End ManagerNotions.

(** ** Example runs *)

Section Examples.

Local Existing Instance exampleDecls.
Local Existing Instance examplePlatform.
Local Existing Instance exampleMath.

(** A one-triangle geometry without indices. *)
Definition exampleInfo (t : RgGeometryType) (p : RgGeometryPassThroughType)
    : RgGeometryUploadInfo :=
  {| geomType := t; passThroughType := p; vertexCount := 3; indexCount := 0;
     layerMaterials := [1; 0; 0]; info_transform := 0 |}.

(** The state a sequence of calls leaves the manager in. *)
Definition run {A} (calls : M ASManager A) (m : ASManager) : ASManager :=
  finalState (calls m).

(** A new manager after one static opaque and one static alpha-tested
    geometry were submitted. *)
Definition twoStaticGroups : ASManager :=
  run (BeginStaticGeometry ≫= λ _,
       AddStaticGeometry false (exampleInfo RG_GEOMETRY_TYPE_STATIC
                                  RG_GEOMETRY_PASS_THROUGH_TYPE_OPAQUE) ≫= λ _,
       AddStaticGeometry false (exampleInfo RG_GEOMETRY_TYPE_STATIC
                                  RG_GEOMETRY_PASS_THROUGH_TYPE_ALPHA_TESTED) ≫= λ _,
       SubmitStaticGeometry false)
      ASManager_new.

(** A new manager after frame slot 0 was used twice: first with one dynamic
    opaque geometry, then with no geometry at all. *)
Definition emptySecondFrame : ASManager :=
  run (BeginDynamicGeometry 0 ≫= λ _,
       AddDynamicGeometry false (exampleInfo RG_GEOMETRY_TYPE_DYNAMIC
                                   RG_GEOMETRY_PASS_THROUGH_TYPE_OPAQUE) 0 ≫= λ _,
       SubmitDynamicGeometry false 0 ≫= λ _,
       BeginDynamicGeometry 0 ≫= λ _,
       SubmitDynamicGeometry false 0)
      ASManager_new.

(** A new manager after frame slot 0 was used twice: first with a dynamic
    opaque and a dynamic alpha-tested geometry, then with a dynamic opaque
    geometry only. *)
Definition shrunkSecondFrame : ASManager :=
  run (BeginDynamicGeometry 0 ≫= λ _,
       AddDynamicGeometry false (exampleInfo RG_GEOMETRY_TYPE_DYNAMIC
                                   RG_GEOMETRY_PASS_THROUGH_TYPE_OPAQUE) 0 ≫= λ _,
       AddDynamicGeometry false (exampleInfo RG_GEOMETRY_TYPE_DYNAMIC
                                   RG_GEOMETRY_PASS_THROUGH_TYPE_ALPHA_TESTED) 0 ≫= λ _,
       SubmitDynamicGeometry false 0 ≫= λ _,
       BeginDynamicGeometry 0 ≫= λ _,
       AddDynamicGeometry false (exampleInfo RG_GEOMETRY_TYPE_DYNAMIC
                                   RG_GEOMETRY_PASS_THROUGH_TYPE_OPAQUE) 0 ≫= λ _,
       SubmitDynamicGeometry false 0)
      ASManager_new.

Definition exampleInstance : VertexData.ShGeometryInstance :=
  {| VertexData.model := (1, 0); VertexData.prevModel := (2, 5);
     VertexData.flags := 0;
     VertexData.baseVertexIndex := 0; VertexData.baseIndexIndex := UINT32_MAX;
     VertexData.prevBaseVertexIndex := UINT32_MAX;
     VertexData.prevBaseIndexIndex := UINT32_MAX |}.

(** Bindings whose offset table is [table], whose previous-frame map has no
    match for any geometry, and whose vertex buffers hold their own
    indices. *)
Definition exampleBindings (table : list Z) : VertexData.Bindings :=
  {| VertexData.positionsStride := 3;
     VertexData.normalsStride := 3;
     VertexData.instanceGeomInfoOffset := table;
     VertexData.instanceGeomInfoOffsetPrev := table;
     VertexData.staticVertices_positions := λ i, i;
     VertexData.staticVertices_normals := λ i, 2 * i;
     VertexData.dynamicVertices_positions := λ i, 3 * i;
     VertexData.dynamicVertices_normals := λ i, 4 * i;
     VertexData.staticIndices := λ i, i;
     VertexData.dynamicIndices := λ i, i;
     VertexData.geometryInstances := λ _, exampleInstance;
     VertexData.geomIndexPrevToCur := λ _, -1;
     VertexData.prevDynamicPositions := λ i, 5 * i;
     VertexData.prevDynamicIndices := λ i, i |}.

(** A collector holding one static opaque geometry. *)
Definition oneOpaqueCollector : VertexCollector :=
  (AddGeometry (exampleInfo RG_GEOMETRY_TYPE_STATIC RG_GEOMETRY_PASS_THROUGH_TYPE_OPAQUE)
     [] emptyCollector).2.

(** A new manager after one static-movable opaque geometry was submitted. *)
Definition oneMovable : ASManager :=
  run (BeginStaticGeometry ≫= λ _,
       AddStaticGeometry false (exampleInfo RG_GEOMETRY_TYPE_STATIC_MOVABLE
                                  RG_GEOMETRY_PASS_THROUGH_TYPE_OPAQUE) ≫= λ _,
       SubmitStaticGeometry false)
      ASManager_new.

(** [twoStaticGroups] after the static collector was reset for a new scene:
    two live static structures, no static geometry. *)
Definition twoStaticGroupsReset : ASManager :=
  run BeginStaticGeometry twoStaticGroups.

End Examples.

(** ** Vertex buffer lengths *)

(** The generated shader-common header: vertex counts and the array lengths
    of [ShVertexBufferStatic] and [ShVertexBufferDynamic]. *)
Definition MAX_STATIC_VERTEX_COUNT : Z := 1048576.
Definition MAX_DYNAMIC_VERTEX_COUNT : Z := 2097152.
Definition ShVertexBufferStatic_positions_length : Z := 3145728.
Definition ShVertexBufferStatic_normals_length : Z := 3145728.
Definition ShVertexBufferStatic_texCoords_length : Z := 2097152.
Definition ShVertexBufferStatic_texCoordsLayer1_length : Z := 2097152.
Definition ShVertexBufferStatic_texCoordsLayer2_length : Z := 2097152.
Definition ShVertexBufferDynamic_positions_length : Z := 6291456.
Definition ShVertexBufferDynamic_normals_length : Z := 6291456.
Definition ShVertexBufferDynamic_texCoords_length : Z := 4194304.

(** ** Shader-side vertex access: texture coordinates and the writeable
    buffers

    The part of [VertexData.inl] compiled with [VERTEX_BUFFER_WRITEABLE],
    and the texture-coordinate reads.  A storage buffer is a map from an
    index to an element, of which the declared array is the part below its
    length.  An assignment to an element of the array changes the map at
    that index; an assignment outside the array, which GLSL leaves
    undefined, has no result. *)

Module VertexDataWriteable.
Section Writeable.

Context `{SM : ShaderMath}.

Import VertexData.

(** [buf[addr] = value] on an array of [len] elements.  A store outside the
    array is undefined in GLSL: it has no result here. *)
Definition store (len : Z) (buf : Z → float) (addr : Z) (value : float)
    : option (Z → float) :=
  if (0 <=? addr) && (addr <? len)
  then Some (λ k, if k =? addr then value else buf k)
  else None.

(** The three assignments of a [vec3] setter, in the order of the source. *)
Definition store3 (len : Z) (buf : Z → float) (index stride : Z) (value : vec3)
    : option (Z → float) :=
  buf ← store len buf (u_add (u_mul index stride) 0) value.1.1;
  buf ← store len buf (u_add (u_mul index stride) 1) value.1.2;
  store len buf (u_add (u_mul index stride) 2) value.2.

(** The two assignments of a [vec2] setter. *)
Definition store2 (len : Z) (buf : Z → float) (index stride : Z) (value : vec2)
    : option (Z → float) :=
  buf ← store len buf (u_add (u_mul index stride) 0) value.1;
  store len buf (u_add (u_mul index stride) 1) value.2.

(** Two consecutive floats of a buffer starting at [index * stride]. *)
Definition fetch2 (buf : Z → float) (index stride : Z) : vec2 :=
  (buf (u_add (u_mul index stride) 0), buf (u_add (u_mul index stride) 1)).

(** The bindings with other position and normal buffers. *)
Definition withVertices (sp sn dp dn : Z → float) (b : Bindings) : Bindings :=
  {| positionsStride := positionsStride b;
     normalsStride := normalsStride b;
     instanceGeomInfoOffset := instanceGeomInfoOffset b;
     instanceGeomInfoOffsetPrev := instanceGeomInfoOffsetPrev b;
     staticVertices_positions := sp;
     staticVertices_normals := sn;
     dynamicVertices_positions := dp;
     dynamicVertices_normals := dn;
     staticIndices := staticIndices b;
     dynamicIndices := dynamicIndices b;
     geometryInstances := geometryInstances b;
     geomIndexPrevToCur := geomIndexPrevToCur b;
     prevDynamicPositions := prevDynamicPositions b;
     prevDynamicIndices := prevDynamicIndices b |}.

Definition setStaticVerticesPositions (index : Z) (value : vec3) (b : Bindings)
    : option Bindings :=
  buf ← store3 ShVertexBufferStatic_positions_length (staticVertices_positions b)
           index (positionsStride b) value;
  Some (withVertices buf (staticVertices_normals b) (dynamicVertices_positions b)
          (dynamicVertices_normals b) b).

Definition setStaticVerticesNormals (index : Z) (value : vec3) (b : Bindings)
    : option Bindings :=
  buf ← store3 ShVertexBufferStatic_normals_length (staticVertices_normals b)
           index (normalsStride b) value;
  Some (withVertices (staticVertices_positions b) buf (dynamicVertices_positions b)
          (dynamicVertices_normals b) b).

Definition setDynamicVerticesPositions (index : Z) (value : vec3) (b : Bindings)
    : option Bindings :=
  buf ← store3 ShVertexBufferDynamic_positions_length (dynamicVertices_positions b)
           index (positionsStride b) value;
  Some (withVertices (staticVertices_positions b) (staticVertices_normals b) buf
          (dynamicVertices_normals b) b).

Definition setDynamicVerticesNormals (index : Z) (value : vec3) (b : Bindings)
    : option Bindings :=
  buf ← store3 ShVertexBufferDynamic_normals_length (dynamicVertices_normals b)
           index (normalsStride b) value;
  Some (withVertices (staticVertices_positions b) (staticVertices_normals b)
          (dynamicVertices_positions b) buf b).

(** The texture-coordinate arrays of the two vertex buffers and their
    stride in the uniform block. *)
Record TexCoords := {
  texCoordsStride : Z;
  staticVertices_texCoords : Z → float;
  staticVertices_texCoordsLayer1 : Z → float;
  staticVertices_texCoordsLayer2 : Z → float;
  dynamicVertices_texCoords : Z → float
}.

Definition getStaticVerticesTexCoords (t : TexCoords) (index : Z) : vec2 :=
  fetch2 (staticVertices_texCoords t) index (texCoordsStride t).
Definition getStaticVerticesTexCoordsLayer1 (t : TexCoords) (index : Z) : vec2 :=
  fetch2 (staticVertices_texCoordsLayer1 t) index (texCoordsStride t).
Definition getStaticVerticesTexCoordsLayer2 (t : TexCoords) (index : Z) : vec2 :=
  fetch2 (staticVertices_texCoordsLayer2 t) index (texCoordsStride t).
Definition getDynamicVerticesTexCoords (t : TexCoords) (index : Z) : vec2 :=
  fetch2 (dynamicVertices_texCoords t) index (texCoordsStride t).

Definition setStaticVerticesTexCoords (index : Z) (value : vec2) (t : TexCoords)
    : option TexCoords :=
  buf ← store2 ShVertexBufferStatic_texCoords_length (staticVertices_texCoords t)
           index (texCoordsStride t) value;
  Some {| texCoordsStride := texCoordsStride t;
          staticVertices_texCoords := buf;
          staticVertices_texCoordsLayer1 := staticVertices_texCoordsLayer1 t;
          staticVertices_texCoordsLayer2 := staticVertices_texCoordsLayer2 t;
          dynamicVertices_texCoords := dynamicVertices_texCoords t |}.

Definition setStaticVerticesTexCoordsLayer1 (index : Z) (value : vec2) (t : TexCoords)
    : option TexCoords :=
  buf ← store2 ShVertexBufferStatic_texCoordsLayer1_length
           (staticVertices_texCoordsLayer1 t) index (texCoordsStride t) value;
  Some {| texCoordsStride := texCoordsStride t;
          staticVertices_texCoords := staticVertices_texCoords t;
          staticVertices_texCoordsLayer1 := buf;
          staticVertices_texCoordsLayer2 := staticVertices_texCoordsLayer2 t;
          dynamicVertices_texCoords := dynamicVertices_texCoords t |}.

Definition setStaticVerticesTexCoordsLayer2 (index : Z) (value : vec2) (t : TexCoords)
    : option TexCoords :=
  buf ← store2 ShVertexBufferStatic_texCoordsLayer2_length
           (staticVertices_texCoordsLayer2 t) index (texCoordsStride t) value;
  Some {| texCoordsStride := texCoordsStride t;
          staticVertices_texCoords := staticVertices_texCoords t;
          staticVertices_texCoordsLayer1 := staticVertices_texCoordsLayer1 t;
          staticVertices_texCoordsLayer2 := buf;
          dynamicVertices_texCoords := dynamicVertices_texCoords t |}.

Definition setDynamicVerticesTexCoords (index : Z) (value : vec2) (t : TexCoords)
    : option TexCoords :=
  buf ← store2 ShVertexBufferDynamic_texCoords_length (dynamicVertices_texCoords t)
           index (texCoordsStride t) value;
  Some {| texCoordsStride := texCoordsStride t;
          staticVertices_texCoords := staticVertices_texCoords t;
          staticVertices_texCoordsLayer1 := staticVertices_texCoordsLayer1 t;
          staticVertices_texCoordsLayer2 := staticVertices_texCoordsLayer2 t;
          dynamicVertices_texCoords := buf |}.

(** [getModelMatrix]. *)
Definition getModelMatrix (b : Bindings) (instanceID localGeometryIndex : Z) : mat4 :=
  let globalGeometryIndex := getGeometryIndex b instanceID localGeometryIndex in
  model (geometryInstances b globalGeometryIndex).

(** Two maps agree on the elements of an array of [len] elements. *)
Definition agreeWithin (len : Z) (f g : Z → float) : Prop :=
  ∀ k, 0 ≤ k < len → f k = g k.

(** The [width] elements of vertex [index], at [index * stride] and after,
    lie within an array of [len] elements. *)
Definition withinArray (len stride width index : Z) : Prop :=
  0 ≤ index ∧ 0 ≤ stride ∧ index * stride + width ≤ len.

End Writeable.
End VertexDataWriteable.

(** ** Specifications of state transformers

    [triple total P c Q]: from a state of [P], a run of [c] that returns
    does so with a result and in a state of [Q]; when [total] is set the run
    does return (no assertion fails). *)
Definition triple {S A} (total : bool) (P : S → Prop) (c : M S A) (Q : A → S → Prop)
    : Prop :=
  ∀ s, P s →
    match c s with
    | Ok a s' => Q a s'
    | AssertionFailed _ => total = false
    end.

(** ** The device objects the manager owns *)

Section Resources.

Context `{FT : FilterTypeDecls} `{PF : Platform}.

(** A device object by its handle: a buffer ([inl]) or an acceleration
    structure ([inr]). *)
Definition Resource : Type := Z + Z.

Definition handleOf (r : Resource) : Z :=
  match r with inl h => h | inr h => h end.

Definition createdBy (e : Event) : list Resource :=
  match e with
  | EvBufferInit h _ => [inl h]
  | EvCreateAccelerationStructure h _ _ _ => [inr h]
  | _ => []
  end.

Definition destroyedBy (e : Event) : list Resource :=
  match e with
  | EvBufferDestroy h => [inl h]
  | EvDestroyAccelerationStructure h => [inr h]
  | _ => []
  end.

(** The acceleration structures and the buffers backing them that a trace
    creates, and the ones it destroys, with multiplicity.  (The buffers the
    constructor creates for the instances, the scratch memory and the
    collectors are not structure objects and have no events.) *)
Definition created (es : list Event) : gmultiset Resource :=
  list_to_set_disj (es ≫= createdBy).

Definition destroyed (es : list Event) : gmultiset Resource :=
  list_to_set_disj (es ≫= destroyedBy).

(** The objects a structure record refers to: its buffer when initialised,
    its handle when valid. *)
Definition held (a : AccelerationStructure) : list Resource :=
  match buffer a with
  | Some b => [inl (buf_handle b)]
  | None => []
  end
  ++ (if as_ a =? VK_NULL_HANDLE then [] else [inr (as_ a)]).

Definition heldBy (l : list AccelerationStructure) : gmultiset Resource :=
  list_to_set_disj (l ≫= held).

(** Every structure record of the manager: the static ones, the dynamic
    ones of every frame and the top-level ones. *)
Definition allStructures (m : ASManager) : list AccelerationStructure :=
  allStaticBlas m ++ concat (allDynamicBlas m) ++ tlas m.

(** What was created and not destroyed is [X]. *)
Definition balanced (X : gmultiset Resource) (m : ASManager) : Prop :=
  created (trace m) = destroyed (trace m) ⊎ X.

(** No handle was handed out twice, and every handle handed out is a valid
    one below the device's counter. *)
Definition handlesFresh (m : ASManager) : Prop :=
  0 < nextHandle m
  ∧ ∀ r, (multiplicity r (created (trace m)) ≤ 1)%nat
         ∧ (r ∈ created (trace m) → 0 < handleOf r < nextHandle m).

(** A structure is live exactly when its buffer is initialised. *)
Definition wellFormed (a : AccelerationStructure) : Prop :=
  isLive a = IsInitted (buffer a).

(** The state at a point of a public call where the structure lists are up
    to date: the lists have the constructor's tags, there are two top-level
    records, the top-level queue of the builder is empty (and its
    bottom-level queue when [q] is set), every object created and not
    destroyed is held by exactly one record, and the records are
    well-formed. *)
Definition staged (q : bool) (m : ASManager) : Prop :=
  structuresAsNew m
  ∧ length (tlas m) = MAX_FRAMES_IN_FLIGHT
  ∧ topQueue (asBuilder m) = []
  ∧ (q = true → bottomQueue (asBuilder m) = [])
  ∧ balanced (heldBy (allStructures m)) m
  ∧ handlesFresh m
  ∧ Forall wellFormed (allStructures m).

(** The state between two public calls. *)
Definition consistent (m : ASManager) : Prop := staged true m.

(** The state inside a call that started with the structure lists of [m0]:
    the lists are untouched so far, the top-level queue is empty (and the
    bottom-level queue when [q] is set), and what was created and not
    destroyed is [X]. *)
Definition working (q : bool) (m0 : ASManager) (X : gmultiset Resource) (m : ASManager)
    : Prop :=
  sameStructures m0 m
  ∧ topQueue (asBuilder m) = []
  ∧ (q = true → bottomQueue (asBuilder m) = [])
  ∧ handlesFresh m
  ∧ balanced X m.

(** *** [ASManager::~ASManager]

    The loops of the destructor.  The descriptor pool, the descriptor set
    layouts and the fence, which it destroys last, are not part of the
    manager's state here. *)
Definition ASManager_delete : M ASManager unit :=
  blas ← gets allStaticBlas;
  blas' ← mapM DestroyAS blas;
  modify (set_allStaticBlas blas') ≫= λ _,
  forM_ (seq 0 MAX_FRAMES_IN_FLIGHT) (λ i,
    blas ← gets (λ m, dynamicBlasOf m i);
    blas' ← mapM DestroyAS blas;
    modify (λ m, set_allDynamicBlas (<[i := blas']> (allDynamicBlas m)) m) ≫= λ _,
    t ← gets (λ m, tlasOf m i);
    t' ← DestroyAS t;
    modify (λ m, set_tlas (<[i := t']> (tlas m)) m)).

(** *** [ASManager::GetTLASDescSet]

    [asDescSets] are the descriptor sets allocated for the frames. *)
Definition GetTLASDescSet (asDescSets : list Z) (m : ASManager) (frameIndex : nat) : Z :=
  (* if TLAS wasn't built, return null *)
  if as_ (tlasOf m frameIndex) =? VK_NULL_HANDLE then VK_NULL_HANDLE
  else default VK_NULL_HANDLE (asDescSets !! frameIndex).

(** The frame index of a call, where it has one, is a frame in flight. *)
Definition frameInRange (c : Call) : Prop :=
  match c with
  | CallBeginDynamicGeometry f
  | CallAddDynamicGeometry _ f
  | CallSubmitDynamicGeometry f
  | CallTryBuildTLAS _ f _ => (f < MAX_FRAMES_IN_FLIGHT)%nat
  | _ => True
  end.

(** The states the calls of the public interface lead to from a new
    manager when every frame index is in range. *)
Inductive reachableInRange (ndebug : bool) : ASManager → Prop :=
  | reachableInRange_new : reachableInRange ndebug ASManager_new
  | reachableInRange_call (m m' : ASManager) (c : Call) :
      reachableInRange ndebug m → frameInRange c →
      perform ndebug c m = Ok tt m' → reachableInRange ndebug m'.

End Resources.

(** ** The top-level build in closed form *)

Section TlasNotions.

Context `{FT : FilterTypeDecls} `{PF : Platform}.

(** The top-level record of a frame after [TryBuildTLAS] assembled [n]
    instances: the record as it was when its buffer is large enough, a
    record on the next two handles of the device otherwise. *)
Definition tlasAfterBuild (m : ASManager) (frameIndex n : nat) : AccelerationStructure :=
  let curTlas := tlasOf m frameIndex in
  let buildSizes := GetTopBuildSizes n false in
  if GetSize (buffer curTlas) <? buildSizes
  then {| as_ := nextHandle m + 1;
          buffer := Some {| buf_handle := nextHandle m; buf_size := buildSizes |};
          filter := filter curTlas |}
  else curTlas.

(** What [TryBuildTLAS] does to the device when it builds [n] instances. *)
Definition tlasBuildEvents (m : ASManager) (frameIndex n : nat) : list Event :=
  let curTlas := tlasOf m frameIndex in
  let buildSizes := GetTopBuildSizes n false in
  (if GetSize (buffer curTlas) <? buildSizes
   then destroyEvents curTlas
        ++ [EvBufferInit (nextHandle m) buildSizes;
            EvCreateAccelerationStructure (nextHandle m + 1) (nextHandle m) buildSizes true]
   else [])
  ++ [EvBuildTopLevel
        (topQueue (asBuilder m)
         ++ [{| tbr_as := as_ (tlasAfterBuild m frameIndex n);
                tbr_instanceCount := n;
                tbr_accelerationStructureSize := buildSizes;
                tbr_fastTrace := true; tbr_update := false |}]);
      EvASBuildMemoryBarrier;
      EvUpdateASDescriptors frameIndex].

End TlasNotions.

(** ** What a call leaves alone *)

(** [c], when it returns, leaves a state that [R] relates to the one it
    started in. *)
Definition relates {S A} (R : S → S → Prop) (c : M S A) : Prop :=
  ∀ s a s', c s = Ok a s' → R s s'.

Section Locality.

Context `{FT : FilterTypeDecls} `{PF : Platform}.

(** [m'] is [m] up to the builder's queues and the device: the structure
    lists, the collectors and the instance buffers are the same, and the
    trace of [m'] extends the one of [m]. *)
Definition deviceStep (m m' : ASManager) : Prop :=
  sameStructures m m' ∧ ∃ es, trace m' = trace m ++ es.

(** What a call on the dynamic geometry of frame [f] leaves alone: the static
    structures and their collector, the top-level structures, the instance
    buffers, and the dynamic structures and collectors of the other
    frames. *)
Definition outsideFrame (f : nat) (m m' : ASManager) : Prop :=
  allStaticBlas m' = allStaticBlas m
  ∧ collectorStatic m' = collectorStatic m
  ∧ tlas m' = tlas m
  ∧ instanceBuffers m' = instanceBuffers m
  ∧ ∀ g, g ≠ f →
      allDynamicBlas m' !! g = allDynamicBlas m !! g
      ∧ collectorDynamic m' !! g = collectorDynamic m !! g.

(** What a call on the static geometry leaves alone: the dynamic structures
    and collectors of every frame, the top-level structures and the
    instance buffers. *)
Definition outsideStatic (m m' : ASManager) : Prop :=
  allDynamicBlas m' = allDynamicBlas m
  ∧ collectorDynamic m' = collectorDynamic m
  ∧ tlas m' = tlas m
  ∧ instanceBuffers m' = instanceBuffers m.

(** The top-level records are the same and the trace was extended. *)
Definition tlasKept (m m' : ASManager) : Prop :=
  tlas m' = tlas m ∧ ∃ es, trace m' = trace m ++ es.

(** The descriptors of every frame whose top-level record has a valid handle
    were updated after that handle was created. *)
Definition descriptorsCurrent (m : ASManager) : Prop :=
  ∀ f, as_ (tlasOf m f) ≠ VK_NULL_HANDLE →
    ∃ es1 es2, trace m = es1 ++ EvUpdateASDescriptors f :: es2
               ∧ inr (as_ (tlasOf m f)) ∈ created es1.

End Locality.

(** ** More example runs *)

Section MoreExamples.

Local Existing Instance exampleDecls.
Local Existing Instance examplePlatform.
Local Existing Instance exampleMath.

(** [twoStaticGroups] after the top-level structure of frame 0 was built. *)
Definition twoStaticGroupsBuilt : ASManager :=
  run (TryBuildTLAS false (replicate 180 0) 0 (replicate 48 0)) twoStaticGroups.

(** A new manager after two static geometries were added and not yet
    submitted. *)
Definition twoStaticAdded : ASManager :=
  run (BeginStaticGeometry ≫= λ _,
       AddStaticGeometry false (exampleInfo RG_GEOMETRY_TYPE_STATIC
                                  RG_GEOMETRY_PASS_THROUGH_TYPE_OPAQUE) ≫= λ _,
       AddStaticGeometry false (exampleInfo RG_GEOMETRY_TYPE_STATIC
                                  RG_GEOMETRY_PASS_THROUGH_TYPE_ALPHA_TESTED))
      ASManager_new.

(** [twoStaticGroups] after one dynamic opaque geometry was added for frame
    0 and not yet submitted. *)
Definition oneDynamicAdded : ASManager :=
  run (BeginDynamicGeometry 0 ≫= λ _,
       AddDynamicGeometry false (exampleInfo RG_GEOMETRY_TYPE_DYNAMIC
                                   RG_GEOMETRY_PASS_THROUGH_TYPE_OPAQUE) 0)
      twoStaticGroups.

(** Texture coordinates with a stride of two floats, each array holding its
    own indices. *)
Definition exampleTexCoords : VertexDataWriteable.TexCoords :=
  {| VertexDataWriteable.texCoordsStride := 2;
     VertexDataWriteable.staticVertices_texCoords := λ i, i;
     VertexDataWriteable.staticVertices_texCoordsLayer1 := λ i, 2 * i;
     VertexDataWriteable.staticVertices_texCoordsLayer2 := λ i, 3 * i;
     VertexDataWriteable.dynamicVertices_texCoords := λ i, 4 * i |}.

End MoreExamples.

(** * Properties *)

(** ** Bit tests on filter tags *)

Lemma land_pow2 (f n : Z) :
  0 ≤ n → Z.land f (2 ^ n) = if Z.testbit f n then 2 ^ n else 0.
Proof.
  intros Hn. apply Z.bits_inj'. intros k Hk.
  rewrite Z.land_spec, Z.pow2_bits_eqb by lia.
  destruct (Z.eqb_spec n k) as [->|Hne].
  - destruct (Z.testbit f k); simpl.
    + rewrite Z.pow2_bits_eqb by lia. symmetry. apply Z.eqb_refl.
    + symmetry. apply Z.bits_0.
  - rewrite andb_false_r. destruct (Z.testbit f n).
    + rewrite Z.pow2_bits_eqb by lia. symmetry. by apply Z.eqb_neq.
    + symmetry. apply Z.bits_0.
Qed.

Lemma hasAny_pow2 (f n : Z) : 0 ≤ n → hasAny f (2 ^ n) = Z.testbit f n.
Proof.
  intros Hn. unfold hasAny. rewrite land_pow2 by done.
  destruct (Z.testbit f n); [|done].
  assert (0 < 2 ^ n) by (apply Z.pow_pos_nonneg; lia).
  destruct (Z.eqb_spec (2 ^ n) 0); [lia | done].
Qed.

Lemma hasAny_lor_r (f a b : Z) : hasAny f (Z.lor a b) = hasAny f a || hasAny f b.
Proof.
  unfold hasAny. rewrite Z.land_lor_distr_r.
  destruct (Z.eqb_spec (Z.land f a) 0) as [->|Ha]; simpl.
  - by rewrite Z.lor_0_l.
  - destruct (Z.eqb_spec (Z.lor (Z.land f a) (Z.land f b)) 0) as [H0|]; [|done].
    apply Z.lor_eq_0_iff in H0 as [? _]. done.
Qed.

Lemma testbit_tag (a b n : Z) :
  0 ≤ a → 0 ≤ b → 0 ≤ n →
  Z.testbit (Z.lor (2 ^ a) (2 ^ b)) n = bool_decide (n = a ∨ n = b).
Proof.
  intros. rewrite Z.lor_spec, !Z.pow2_bits_eqb by lia.
  destruct (Z.eqb_spec a n), (Z.eqb_spec b n); simpl;
    symmetry; (apply bool_decide_eq_true || apply bool_decide_eq_false); lia.
Qed.

Section FilterBits.

Context `{FT : FilterTypeDecls}.

Lemma flagBit_pow2 (x : Z) : x ∈ flagBits → ∃ n, 0 ≤ n < 32 ∧ x = 2 ^ n.
Proof.
  intros Hx. pose proof FT_single_bit as Hall.
  rewrite Forall_forall in Hall. exact (Hall x Hx).
Qed.

Lemma flagBit_pos (x : Z) : x ∈ flagBits → 0 < x.
Proof.
  intros (n & Hn & ->)%flagBit_pow2. apply Z.pow_pos_nonneg; lia.
Qed.

(** A tag [cf | pt] has a flag bit exactly when the bit is [cf] or [pt]. *)
Lemma hasAny_tag (cf pt x : Z) :
  cf ∈ flagBits → pt ∈ flagBits → x ∈ flagBits →
  hasAny (Z.lor cf pt) x = bool_decide (x = cf ∨ x = pt).
Proof.
  intros (a & Ha & ->)%flagBit_pow2 (b & Hb & ->)%flagBit_pow2
         (n & Hn & ->)%flagBit_pow2.
  rewrite hasAny_pow2, testbit_tag by lia.
  apply bool_decide_ext. split.
  - intros [->| ->]; auto.
  - intros [H|H]; apply Z.pow_inj_r in H; lia.
Qed.

Lemma changeFrequency_flagBit (cf : Z) :
  cf ∈ VertexCollectorFilterGroup_ChangeFrequency → cf ∈ flagBits.
Proof.
  unfold VertexCollectorFilterGroup_ChangeFrequency, flagBits.
  rewrite !elem_of_cons. tauto.
Qed.

Lemma passThrough_flagBit (pt : Z) :
  pt ∈ VertexCollectorFilterGroup_PassThrough → pt ∈ flagBits.
Proof.
  unfold VertexCollectorFilterGroup_PassThrough, flagBits.
  rewrite !elem_of_cons. tauto.
Qed.

Lemma flagBit_member :
  CF_STATIC_NON_MOVABLE ∈ flagBits ∧ CF_STATIC_MOVABLE ∈ flagBits
  ∧ CF_DYNAMIC ∈ flagBits ∧ PT_OPAQUE ∈ flagBits ∧ PT_ALPHA_TESTED ∈ flagBits
  ∧ PT_BLEND_ADDITIVE ∈ flagBits ∧ PT_BLEND_UNDER ∈ flagBits.
Proof. unfold flagBits. rewrite !elem_of_cons. tauto. Qed.

(** A change-frequency bit is never a pass-through bit. *)
Lemma group_disjoint (cf pt : Z) :
  cf ∈ VertexCollectorFilterGroup_ChangeFrequency →
  pt ∈ VertexCollectorFilterGroup_PassThrough → cf ≠ pt.
Proof.
  pose proof FT_distinct as Hd.
  rewrite !NoDup_cons, !not_elem_of_cons in Hd.
  unfold VertexCollectorFilterGroup_ChangeFrequency,
    VertexCollectorFilterGroup_PassThrough.
  rewrite !elem_of_cons, !elem_of_nil. intuition congruence.
Qed.

End FilterBits.

(** Name the pairwise distinctness of the flag bits in the context. *)
Ltac flag_bits_distinct :=
  let Hd := fresh "Hd" in
  pose proof FT_distinct as Hd;
  rewrite !NoDup_cons, !not_elem_of_cons in Hd;
  destruct_and!.

(** Decide every [bool_decide] of the goal with the facts at hand. *)
Ltac settle_bool_decide :=
  repeat match goal with
  | |- context [bool_decide ?P] =>
      first [ rewrite (bool_decide_eq_true_2 P)
                by (first [left; reflexivity | right; reflexivity])
            | rewrite (bool_decide_eq_false_2 P)
                by (intros [?|?]; congruence) ]
  end.

Lemma bitfield_small (w z : Z) : 0 ≤ w → 0 ≤ z < 2 ^ w → bitfield w z = z.
Proof.
  intros Hw Hz. unfold bitfield. rewrite Z.land_ones by done.
  by apply Z.mod_small.
Qed.

Lemma bitfield_lnot_disjoint (w z : Z) : Z.land (bitfield w (Z.lnot z)) z = 0.
Proof.
  unfold bitfield. apply Z.bits_inj'. intros k Hk.
  rewrite !Z.land_spec, Z.lnot_spec, Z.bits_0 by done.
  by destruct (Z.testbit z k), (Z.testbit (Z.ones w) k).
Qed.

(** The bit-fields of an instance on the constants of the source. *)
Lemma customIndex_static :
  Z.land (bitfield 24 0) INSTANCE_CUSTOM_INDEX_FLAG_DYNAMIC = 0.
Proof. reflexivity. Qed.

Lemma customIndex_dynamic :
  Z.land (bitfield 24 INSTANCE_CUSTOM_INDEX_FLAG_DYNAMIC) INSTANCE_CUSTOM_INDEX_FLAG_DYNAMIC
  = 1.
Proof. reflexivity. Qed.

Lemma recordOffset_opaque : bitfield 24 SBT_INDEX_HITGROUP_FULLY_OPAQUE = 0.
Proof. reflexivity. Qed.

Lemma recordOffset_alpha : bitfield 24 SBT_INDEX_HITGROUP_ALPHA_TESTED = 1.
Proof. reflexivity. Qed.

Lemma flags_opaque_force :
  Z.land (bitfield 8 (Z.lor VK_GEOMETRY_INSTANCE_FORCE_OPAQUE_BIT_KHR
                            VK_GEOMETRY_INSTANCE_TRIANGLE_FACING_CULL_DISABLE_BIT_KHR))
    VK_GEOMETRY_INSTANCE_FORCE_OPAQUE_BIT_KHR = 4.
Proof. reflexivity. Qed.

Lemma flags_opaque_no_force :
  Z.land (bitfield 8 (Z.lor VK_GEOMETRY_INSTANCE_FORCE_OPAQUE_BIT_KHR
                            VK_GEOMETRY_INSTANCE_TRIANGLE_FACING_CULL_DISABLE_BIT_KHR))
    VK_GEOMETRY_INSTANCE_FORCE_NO_OPAQUE_BIT_KHR = 0.
Proof. reflexivity. Qed.

Lemma flags_other_force :
  Z.land (bitfield 8 (Z.lor VK_GEOMETRY_INSTANCE_FORCE_NO_OPAQUE_BIT_KHR
                            VK_GEOMETRY_INSTANCE_TRIANGLE_FACING_CULL_DISABLE_BIT_KHR))
    VK_GEOMETRY_INSTANCE_FORCE_OPAQUE_BIT_KHR = 0.
Proof. reflexivity. Qed.

Lemma flags_other_no_force :
  Z.land (bitfield 8 (Z.lor VK_GEOMETRY_INSTANCE_FORCE_NO_OPAQUE_BIT_KHR
                            VK_GEOMETRY_INSTANCE_TRIANGLE_FACING_CULL_DISABLE_BIT_KHR))
    VK_GEOMETRY_INSTANCE_FORCE_NO_OPAQUE_BIT_KHR = 8.
Proof. reflexivity. Qed.

(** ** Classification of a top-level instance *)

Section InstanceClassification.

Context `{FT : FilterTypeDecls} `{PF : Platform}.

Lemma SetupTLASInstance_null (a : AccelerationStructure) slot :
  as_ a = VK_NULL_HANDLE → SetupTLASInstance a slot = None.
Proof. intros Ha. unfold SetupTLASInstance. by rewrite Ha. Qed.

Lemma SetupTLASInstance_is_Some (a : AccelerationStructure) slot :
  is_Some (SetupTLASInstance a slot) ↔ as_ a ≠ VK_NULL_HANDLE.
Proof.
  unfold SetupTLASInstance.
  destruct (Z.eqb_spec (as_ a) VK_NULL_HANDLE) as [Heq|Hne].
  - split; [intros [? [=]] | done].
  - split; [done | eauto].
Qed.

(** C7.  An instance set up from a structure with a valid handle and a filter
    tag [cf | pt]: its custom index has the dynamic flag exactly when [cf] is
    the dynamic class; its mask leaves out the shadow bit exactly when [pt] is
    blend-additive or blend-under; its record offset is the hit group of
    [pt]; and its flags force opaque exactly when [pt] is the opaque class
    (and force non-opaque otherwise). *)
Theorem SetupTLASInstance_classification
    (a : AccelerationStructure) (slot : VkAccelerationStructureInstanceKHR)
    (cf pt : Z) :
  as_ a ≠ VK_NULL_HANDLE →
  cf ∈ VertexCollectorFilterGroup_ChangeFrequency →
  pt ∈ VertexCollectorFilterGroup_PassThrough →
  filter a = Z.lor cf pt →
  ∃ inst, SetupTLASInstance a slot = Some inst
    ∧ accelerationStructureReference inst = GetASAddress (as_ a)
    ∧ (Z.land (instanceCustomIndex inst) INSTANCE_CUSTOM_INDEX_FLAG_DYNAMIC
         = INSTANCE_CUSTOM_INDEX_FLAG_DYNAMIC ↔ cf = CF_DYNAMIC)
    ∧ (Z.land (mask inst) INSTANCE_MASK_HAS_SHADOWS = 0
         ↔ pt = PT_BLEND_ADDITIVE ∨ pt = PT_BLEND_UNDER)
    ∧ (pt = PT_OPAQUE →
         instanceShaderBindingTableRecordOffset inst = SBT_INDEX_HITGROUP_FULLY_OPAQUE)
    ∧ (pt = PT_ALPHA_TESTED →
         instanceShaderBindingTableRecordOffset inst = SBT_INDEX_HITGROUP_ALPHA_TESTED)
    ∧ (pt = PT_BLEND_ADDITIVE →
         instanceShaderBindingTableRecordOffset inst = SBT_INDEX_HITGROUP_BLEND_ADDITIVE)
    ∧ (pt = PT_BLEND_UNDER →
         instanceShaderBindingTableRecordOffset inst = SBT_INDEX_HITGROUP_BLEND_UNDER)
    ∧ (Z.land (flags inst) VK_GEOMETRY_INSTANCE_FORCE_OPAQUE_BIT_KHR ≠ 0
         ↔ pt = PT_OPAQUE)
    ∧ (Z.land (flags inst) VK_GEOMETRY_INSTANCE_FORCE_NO_OPAQUE_BIT_KHR ≠ 0
         ↔ pt ≠ PT_OPAQUE).
Proof.
  intros Hlive Hcf Hpt Hf.
  pose proof (group_disjoint cf pt Hcf Hpt) as Hcfpt.
  pose proof (changeFrequency_flagBit cf Hcf) as Hcfb.
  pose proof (passThrough_flagBit pt Hpt) as Hptb.
  destruct flagBit_member as (M1 & M2 & M3 & M4 & M5 & M6 & M7).
  unfold SetupTLASInstance.
  destruct (Z.eqb_spec (as_ a) VK_NULL_HANDLE) as [?|_]; [done|].
  eexists. split; [reflexivity|]. simpl. rewrite Hf.
  rewrite hasAny_lor_r, !hasAny_tag by done.
  split; [done|].
  flag_bits_distinct.
  pose proof HAS_SHADOWS_range as Hsh.
  pose proof SBT_ADDITIVE_range as Hadd.
  pose proof SBT_UNDER_range as Hund.
  unfold VertexCollectorFilterGroup_ChangeFrequency in Hcf.
  unfold VertexCollectorFilterGroup_PassThrough in Hpt.
  rewrite !elem_of_cons, elem_of_nil in Hcf.
  rewrite !elem_of_cons, elem_of_nil in Hpt.
  destruct Hcf as [->|[->|[->|[]]]]; destruct Hpt as [->|[->|[->|[->|[]]]]];
    settle_bool_decide; simpl;
    rewrite ?bitfield_lnot_disjoint, ?(bitfield_small 8 INSTANCE_MASK_HAS_SHADOWS),
      ?(bitfield_small 24 SBT_INDEX_HITGROUP_BLEND_ADDITIVE),
      ?(bitfield_small 24 SBT_INDEX_HITGROUP_BLEND_UNDER), ?Z.land_diag,
      ?customIndex_static, ?customIndex_dynamic, ?recordOffset_opaque,
      ?recordOffset_alpha, ?flags_opaque_force, ?flags_opaque_no_force,
      ?flags_other_force, ?flags_other_no_force by (clear -Hsh Hadd Hund; lia);
    repeat split; intros; try congruence; try done; try (by left); try (by right);
    try match goal with
        | H : INSTANCE_MASK_HAS_SHADOWS = 0 |- _ => exfalso; clear -H Hsh; lia
        | H : _ ∨ _ |- _ => destruct H; congruence
        end.
Qed.

End InstanceClassification.

(** The classification on the example configuration: a live dynamic
    blend-additive structure. *)
Lemma SetupTLASInstance_classification_witness :
  as_ (liveAS 7 (Z.lor 4 32)) ≠ VK_NULL_HANDLE
  ∧ ∃ inst,
      @SetupTLASInstance exampleDecls examplePlatform (liveAS 7 (Z.lor 4 32)) zeroInstance
        = Some inst
      ∧ Z.land (instanceCustomIndex inst) INSTANCE_CUSTOM_INDEX_FLAG_DYNAMIC
          = INSTANCE_CUSTOM_INDEX_FLAG_DYNAMIC
      ∧ Z.land (mask inst) 1 = 0
      ∧ instanceShaderBindingTableRecordOffset inst = 2.
Proof.
  split; [discriminate|].
  destruct (@SetupTLASInstance_classification exampleDecls examplePlatform
              (liveAS 7 (Z.lor 4 32)) zeroInstance 4 32)
    as (inst & Hinst & _ & Hdyn & Hmask & _ & _ & Hadd & _).
  - discriminate.
  - apply (bool_decide_unpack _). vm_compute. exact I.
  - apply (bool_decide_unpack _). vm_compute. exact I.
  - reflexivity.
  - exists inst. split; [exact Hinst|]. split; [|split].
    + apply Hdyn. reflexivity.
    + apply Hmask. left. reflexivity.
    + apply Hadd. reflexivity.
Defined.

(** ** The assembly loops *)

Section AssemblyLemmas.

Context `{FT : FilterTypeDecls} `{PF : Platform}.

Lemma forM__app {S A} (l1 l2 : list A) (body : A → M S unit) (s : S) :
  forM_ (l1 ++ l2) body s = (forM_ l1 body ≫= λ _, forM_ l2 body) s.
Proof.
  revert s. induction l1 as [|x l1 IH]; intros s; [done|].
  simpl. unfold mbind, M_bind. destruct (body x s) as [[] s'|s']; [|done].
  apply IH.
Qed.

Lemma SetupTLASInstance_live (a : AccelerationStructure) slot :
  isLive a = true → is_Some (SetupTLASInstance a slot).
Proof.
  unfold isLive. intros Hl. apply SetupTLASInstance_is_Some.
  by destruct (Z.eqb_spec (as_ a) VK_NULL_HANDLE).
Qed.

Lemma SetupTLASInstance_dead (a : AccelerationStructure) slot :
  isLive a = false → SetupTLASInstance a slot = None.
Proof.
  unfold isLive. intros Hl. apply SetupTLASInstance_null.
  by destruct (Z.eqb_spec (as_ a) VK_NULL_HANDLE).
Qed.

(** One iteration, with its two assertions spelled out. *)
Lemma addInstance_unfold ndebug static (a : AccelerationStructure) (fr : TlasFrame) :
  addInstance ndebug static a fr =
    if ndebug || tagOK static a then
      if isLive a then
        if ndebug || bool_decide (S (instanceCount fr) < MAX_TOP_LEVEL_INSTANCE_COUNT)%nat
        then Ok tt (pushInstance a fr)
        else AssertionFailed (pushInstance a fr)
      else Ok tt fr
    else AssertionFailed fr.
Proof.
  unfold addInstance, pushInstance, tagOK, assert, mbind, M_bind, get, modify, mret, M_ret.
  destruct (ndebug || (if static then _ else _)) eqn:Htag; [|done].
  destruct (isLive a) eqn:Hlive.
  - destruct (SetupTLASInstance_live a
                (default zeroInstance (instances fr !! instanceCount fr)) Hlive)
      as [inst Hinst].
    rewrite Hinst. simpl. done.
  - by rewrite (SetupTLASInstance_dead a _ Hlive).
Qed.

Lemma pushInstance_dead (a : AccelerationStructure) fr :
  isLive a = false → pushInstance a fr = fr.
Proof. intros Hl. unfold pushInstance. by rewrite SetupTLASInstance_dead. Qed.

Lemma pushInstance_live (a : AccelerationStructure) fr :
  isLive a = true →
  ∃ inst,
    SetupTLASInstance a (default zeroInstance (instances fr !! instanceCount fr)) = Some inst
    ∧ pushInstance a fr =
        incrementCount
          (storeOffset (instanceCount fr * 4) (geomInfoBaseOffset (filter a))
             (storeInstance (instanceCount fr) inst fr)).
Proof.
  intros Hl. unfold pushInstance.
  destruct (SetupTLASInstance_live a
              (default zeroInstance (instances fr !! instanceCount fr)) Hl) as [inst Hi].
  exists inst. by rewrite Hi.
Qed.

Lemma storeInstance_fields i x fr :
  instanceCount (storeInstance i x fr) = instanceCount fr
  ∧ instanceGeomInfoOffset (storeInstance i x fr) = instanceGeomInfoOffset fr
  ∧ length (instances (storeInstance i x fr)) = length (instances fr)
  ∧ overrun (storeInstance i x fr) =
      overrun fr ++ (if decide (i < length (instances fr))%nat then []
                     else [StorePastEnd ArrInstances i]).
Proof.
  unfold storeInstance. case_decide; simpl.
  - rewrite length_insert, app_nil_r. done.
  - done.
Qed.

Lemma storeOffset_fields i x fr :
  instanceCount (storeOffset i x fr) = instanceCount fr
  ∧ instances (storeOffset i x fr) = instances fr
  ∧ length (instanceGeomInfoOffset (storeOffset i x fr)) = length (instanceGeomInfoOffset fr)
  ∧ overrun (storeOffset i x fr) =
      overrun fr ++ (if decide (i < length (instanceGeomInfoOffset fr))%nat then []
                     else [StorePastEnd ArrInstanceGeomInfoOffset i]).
Proof.
  unfold storeOffset. case_decide; simpl.
  - rewrite length_insert, app_nil_r. done.
  - done.
Qed.

(** What one iteration does to the count, the array sizes and the overrun
    log. *)
Lemma pushInstance_fields (a : AccelerationStructure) fr :
  isLive a = true →
  instanceCount (pushInstance a fr) = S (instanceCount fr)
  ∧ length (instances (pushInstance a fr)) = length (instances fr)
  ∧ length (instanceGeomInfoOffset (pushInstance a fr)) = length (instanceGeomInfoOffset fr)
  ∧ overrun (pushInstance a fr) =
      overrun fr ++ overrunsOfSlot (length (instances fr))
                      (length (instanceGeomInfoOffset fr)) (instanceCount fr).
Proof.
  intros Hl. destruct (pushInstance_live a fr Hl) as (inst & _ & ->).
  unfold incrementCount; simpl.
  destruct (storeOffset_fields (instanceCount fr * 4) (geomInfoBaseOffset (filter a))
              (storeInstance (instanceCount fr) inst fr)) as (Hc & Hi & Hlo & Ho).
  destruct (storeInstance_fields (instanceCount fr) inst fr) as (Hc' & Ho' & Hli & Hov).
  rewrite Hc, Hc', Hi, Hli, Hlo, Ho, Ho', Hov. unfold overrunsOfSlot.
  rewrite <- app_assoc. done.
Qed.

Lemma pushAll_cons (a : AccelerationStructure) l fr :
  pushAll (a :: l) fr = pushAll l (pushInstance a fr).
Proof. done. Qed.

Lemma liveBlas_cons (a : AccelerationStructure) l :
  liveBlas (a :: l) = if isLive a then a :: liveBlas l else liveBlas l.
Proof. done. Qed.

(** The count, the array sizes and the overrun log after a whole loop. *)
Lemma pushAll_fields (l : list AccelerationStructure) fr :
  instanceCount (pushAll l fr) = (instanceCount fr + length (liveBlas l))%nat
  ∧ length (instances (pushAll l fr)) = length (instances fr)
  ∧ length (instanceGeomInfoOffset (pushAll l fr)) = length (instanceGeomInfoOffset fr)
  ∧ overrun (pushAll l fr) =
      overrun fr ++
        concat (overrunsOfSlot (length (instances fr)) (length (instanceGeomInfoOffset fr))
                  <$> seq (instanceCount fr) (length (liveBlas l))).
Proof.
  revert fr. induction l as [|a l IH]; intros fr.
  - simpl. rewrite Nat.add_0_r, app_nil_r. done.
  - rewrite pushAll_cons, liveBlas_cons. destruct (isLive a) eqn:Hl.
    + destruct (pushInstance_fields a fr Hl) as (Hc & Hi & Ho & Hov).
      destruct (IH (pushInstance a fr)) as (IHc & IHi & IHo & IHov).
      rewrite IHc, IHi, IHo, IHov, Hc, Hi, Ho, Hov. simpl.
      rewrite <- app_assoc. repeat split; try done; lia.
    + rewrite (pushInstance_dead a fr Hl). apply IH.
Qed.

End AssemblyLemmas.

Section AssemblyRuns.

Context `{FT : FilterTypeDecls} `{PF : Platform}.

Lemma pushAll_app (l1 l2 : list AccelerationStructure) fr :
  pushAll (l1 ++ l2) fr = pushAll l2 (pushAll l1 fr).
Proof. unfold pushAll. apply foldl_app. Qed.

Lemma liveBlas_app (l1 l2 : list AccelerationStructure) :
  liveBlas (l1 ++ l2) = liveBlas l1 ++ liveBlas l2.
Proof. unfold liveBlas. apply List.filter_app. Qed.

(** A loop whose assertions hold, or are compiled out, makes the stores of
    [pushAll] and returns. *)
Lemma forM_addInstance_ok ndebug static (l : list AccelerationStructure) fr :
  ndebug = true
  ∨ (Forall (λ a, tagOK static a = true) l
     ∧ (instanceCount fr + length (liveBlas l) < MAX_TOP_LEVEL_INSTANCE_COUNT)%nat) →
  forM_ l (addInstance ndebug static) fr = Ok tt (pushAll l fr).
Proof.
  revert fr. induction l as [|a l IH]; intros fr Hpre; [done|].
  simpl forM_. unfold mbind, M_bind. rewrite addInstance_unfold, pushAll_cons.
  rewrite liveBlas_cons in Hpre.
  destruct (isLive a) eqn:Hl.
  - destruct (pushInstance_fields a fr Hl) as (Hc & _).
    destruct Hpre as [->|[Htag Hn]].
    + simpl. apply IH. by left.
    + apply Forall_cons in Htag as [Ha Htag]. rewrite Ha, orb_true_r.
      simpl in Hn. rewrite bool_decide_eq_true_2, orb_true_r by lia.
      apply IH. right. split; [done|]. rewrite Hc. lia.
  - rewrite (pushInstance_dead a fr Hl).
    destruct Hpre as [->|[Htag Hn]].
    + simpl. apply IH. by left.
    + apply Forall_cons in Htag as [Ha Htag]. rewrite Ha, orb_true_r.
      apply IH. by right.
Qed.

(** With assertions compiled in, a loop that reaches the maximum count stops
    there, after the stores for the instance that reached it. *)
Lemma forM_addInstance_abort static (l : list AccelerationStructure) fr :
  Forall (λ a, tagOK static a = true) l →
  (instanceCount fr < MAX_TOP_LEVEL_INSTANCE_COUNT)%nat →
  (MAX_TOP_LEVEL_INSTANCE_COUNT ≤ instanceCount fr + length (liveBlas l))%nat →
  ∃ l1 l2, l = l1 ++ l2
    ∧ forM_ l (addInstance false static) fr = AssertionFailed (pushAll l1 fr)
    ∧ instanceCount (pushAll l1 fr) = MAX_TOP_LEVEL_INSTANCE_COUNT.
Proof.
  revert fr. induction l as [|a l IH]; intros fr Htag Hlt Hge.
  - simpl in Hge. lia.
  - apply Forall_cons in Htag as [Ha Htag].
    simpl forM_. unfold mbind, M_bind. rewrite addInstance_unfold, Ha.
    rewrite liveBlas_cons in Hge. simpl orb.
    destruct (isLive a) eqn:Hl.
    + destruct (pushInstance_fields a fr Hl) as (Hc & _).
      case_bool_decide as Hs.
      * destruct (IH (pushInstance a fr) Htag) as (l1 & l2 & -> & Hrun & Hcount).
        { rewrite Hc. lia. }
        { rewrite Hc. simpl in Hge. lia. }
        exists (a :: l1), l2. by rewrite pushAll_cons.
      * exists [a], l. rewrite pushAll_cons. simpl pushAll.
        split; [done|]. split; [done|]. rewrite Hc. lia.
    + destruct (IH fr Htag Hlt Hge) as (l1 & l2 & -> & Hrun & Hcount).
      exists (a :: l1), l2. by rewrite pushAll_cons, (pushInstance_dead a fr Hl).
Qed.

Lemma assembleInstances_ok ndebug (staticBlas dynamicBlas : list AccelerationStructure) fr :
  ndebug = true
  ∨ (Forall (λ a, tagOK true a = true) staticBlas
     ∧ Forall (λ a, tagOK false a = true) dynamicBlas
     ∧ (instanceCount fr + length (liveBlas (staticBlas ++ dynamicBlas))
        < MAX_TOP_LEVEL_INSTANCE_COUNT)%nat) →
  assembleInstances ndebug staticBlas dynamicBlas fr
  = Ok tt (pushAll (staticBlas ++ dynamicBlas) fr).
Proof.
  intros Hpre. unfold assembleInstances, mbind, M_bind.
  rewrite liveBlas_app, length_app in Hpre.
  rewrite pushAll_app, (forM_addInstance_ok ndebug true staticBlas fr).
  - apply forM_addInstance_ok. destruct Hpre as [?|(Hs & Hd & Hn)]; [by left|].
    right. split; [done|]. destruct (pushAll_fields staticBlas fr) as (-> & _). lia.
  - destruct Hpre as [?|(Hs & Hd & Hn)]; [by left|]. right. split; [done|]. lia.
Qed.

Lemma assembleInstances_abort (staticBlas dynamicBlas : list AccelerationStructure) fr :
  Forall (λ a, tagOK true a = true) staticBlas →
  Forall (λ a, tagOK false a = true) dynamicBlas →
  (instanceCount fr < MAX_TOP_LEVEL_INSTANCE_COUNT)%nat →
  (MAX_TOP_LEVEL_INSTANCE_COUNT
   ≤ instanceCount fr + length (liveBlas (staticBlas ++ dynamicBlas)))%nat →
  ∃ l1 l2, staticBlas ++ dynamicBlas = l1 ++ l2
    ∧ assembleInstances false staticBlas dynamicBlas fr = AssertionFailed (pushAll l1 fr)
    ∧ instanceCount (pushAll l1 fr) = MAX_TOP_LEVEL_INSTANCE_COUNT.
Proof.
  intros Hs Hd Hlt Hge. unfold assembleInstances, mbind, M_bind.
  rewrite liveBlas_app, length_app in Hge.
  destruct (decide (MAX_TOP_LEVEL_INSTANCE_COUNT
                    ≤ instanceCount fr + length (liveBlas staticBlas))%nat) as [Hst|Hst].
  - destruct (forM_addInstance_abort true staticBlas fr Hs Hlt Hst)
      as (l1 & l2 & -> & -> & Hc).
    exists l1, (l2 ++ dynamicBlas). by rewrite app_assoc.
  - rewrite (forM_addInstance_ok false true staticBlas fr).
    2:{ right. split; [done|]. lia. }
    destruct (pushAll_fields staticBlas fr) as (Hc & _).
    destruct (forM_addInstance_abort false dynamicBlas (pushAll staticBlas fr) Hd)
      as (l1 & l2 & -> & -> & Hc'); [lia | lia |].
    exists (staticBlas ++ l1), l2. by rewrite app_assoc, pushAll_app.
Qed.

End AssemblyRuns.

(** ** The manager's steps in closed form *)

Section ManagerSteps.

Context `{FT : FilterTypeDecls} `{PF : Platform}.

Lemma emitAll_nil (m : ASManager) : emitAll [] m = m.
Proof. destruct m. unfold emitAll, set_trace. simpl. by rewrite app_nil_r. Qed.

Lemma emitAll_app (es1 es2 : list Event) (m : ASManager) :
  emitAll es2 (emitAll es1 m) = emitAll (es1 ++ es2) m.
Proof. unfold emitAll, set_trace. simpl. by rewrite app_assoc. Qed.

Lemma emit_run (e : Event) (m : ASManager) : emit e m = Ok tt (emitAll [e] m).
Proof. done. Qed.

Lemma mapM_cons {S A B} (f : A → M S B) (a : A) (l : list A) (s : S) :
  mapM f (a :: l) s =
    match f a s with
    | Ok y s' =>
        match mapM f l s' with
        | Ok k s'' => Ok (y :: k) s''
        | AssertionFailed s'' => AssertionFailed s''
        end
    | AssertionFailed s' => AssertionFailed s'
    end.
Proof. reflexivity. Qed.

(** A loop body that always returns lets the loop return. *)
Lemma mapM_ok {S A B} (f : A → M S B) (g : A → S → B) (h : A → S → S)
    (l : list A) (s : S) :
  (∀ a s, a ∈ l → f a s = Ok (g a s) (h a s)) →
  ∃ l' s', mapM f l s = Ok l' s'
    ∧ length l' = length l
    ∧ s' = foldl (λ s a, h a s) s l.
Proof.
  revert s. induction l as [|a l IH]; intros s Hf.
  - exists [], s. done.
  - destruct (IH (h a s)) as (l' & s' & Hrun & Hlen & Hs).
    { intros a' s0 Ha'. apply Hf. by right. }
    exists (g a s :: l'), s'. rewrite mapM_cons, Hf by left.
    rewrite Hrun. simpl. by rewrite Hlen.
Qed.

(** A loop body that leaves the state alone, over a list. *)
Lemma mapM_pure {S A B} (f : A → M S B) (g : A → B) (l : list A) (s : S) :
  (∀ a s, a ∈ l → f a s = Ok (g a) s) → mapM f l s = Ok (g <$> l) s.
Proof.
  revert s. induction l as [|a l IH]; intros s Hf; [done|].
  rewrite mapM_cons, Hf by left.
  rewrite IH by (intros; apply Hf; by right). done.
Qed.

Lemma DestroyAS_run (a : AccelerationStructure) (m : ASManager) :
  DestroyAS a m = Ok (nullAS (filter a)) (emitAll (destroyEvents a) m).
Proof.
  unfold DestroyAS, destroyEvents, mbind, M_bind, mret, M_ret.
  destruct (buffer a) as [b|]; destruct (as_ a =? VK_NULL_HANDLE);
    rewrite ?emit_run, ?emitAll_app, ?emitAll_nil; simpl; rewrite ?emitAll_nil; done.
Qed.

Lemma DestroyAS_null (f : Z) (m : ASManager) :
  DestroyAS (nullAS f) m = Ok (nullAS f) m.
Proof. rewrite DestroyAS_run. unfold destroyEvents. simpl. by rewrite emitAll_nil. Qed.

End ManagerSteps.

(** ** The instance-count bound *)

Lemma overrunsOfSlot_within (ni no c : nat) :
  (c < ni)%nat → (c * 4 < no)%nat → overrunsOfSlot ni no c = [].
Proof. intros. unfold overrunsOfSlot. by rewrite !decide_True. Qed.

Lemma overruns_within (ni no c n : nat) :
  (c + n ≤ ni)%nat → ((c + n) * 4 ≤ no)%nat →
  concat (overrunsOfSlot ni no <$> seq c n) = [].
Proof.
  revert c. induction n as [|n IH]; intros c Hi Ho; [done|].
  simpl. rewrite overrunsOfSlot_within, IH by lia. done.
Qed.

Lemma overruns_offsets_within (ni no c n i : nat) :
  ((c + n) * 4 ≤ no)%nat →
  StorePastEnd ArrInstanceGeomInfoOffset i ∉ concat (overrunsOfSlot ni no <$> seq c n).
Proof.
  revert c. induction n as [|n IH]; intros c Ho; simpl.
  - apply not_elem_of_nil.
  - rewrite elem_of_app. intros [Hin|Hin].
    + unfold overrunsOfSlot in Hin. rewrite (decide_True (P := (c * 4 < no)%nat)) in Hin by lia.
      rewrite app_nil_r in Hin. case_decide; [by apply elem_of_nil in Hin|].
      apply list_elem_of_singleton in Hin. discriminate.
    + revert Hin. apply IH. lia.
Qed.

Section InstanceBound.

Context `{FT : FilterTypeDecls} `{PF : Platform}.

Lemma pushAll_initial (stack : list Z) (l : list AccelerationStructure) :
  length stack = instanceGeomInfoOffset_length →
  instanceCount (pushAll l (initialFrame stack)) = length (liveBlas l)
  ∧ overrun (pushAll l (initialFrame stack)) =
      concat (overrunsOfSlot instances_length instanceGeomInfoOffset_length
                <$> seq 0 (length (liveBlas l))).
Proof.
  intros Hstack.
  destruct (pushAll_fields l (initialFrame stack)) as (Hc & _ & _ & Hov).
  split; [exact Hc|]. rewrite Hov. unfold initialFrame.
  cbn [instanceCount instances instanceGeomInfoOffset overrun].
  by rewrite length_replicate, Hstack.
Qed.

(** The two loops on structure lists with the tags the loops expect, [n] of
    them live. *)
Lemma assembleInstances_bound_lists (ndebug : bool) (stack : list Z)
    (staticBlas dynamicBlas : list AccelerationStructure) :
  length stack = instanceGeomInfoOffset_length →
  Forall (λ a, tagOK true a = true) staticBlas →
  Forall (λ a, tagOK false a = true) dynamicBlas →
  let n := length (liveBlas (staticBlas ++ dynamicBlas)) in
  let r := assembleInstances ndebug staticBlas dynamicBlas (initialFrame stack) in
  returned r = ndebug || bool_decide (n < MAX_TOP_LEVEL_INSTANCE_COUNT)%nat
  ∧ instanceCount (finalState r) = (if returned r then n else MAX_TOP_LEVEL_INSTANCE_COUNT)
  ∧ (returned r = true →
       finalState r = pushAll (staticBlas ++ dynamicBlas) (initialFrame stack))
  ∧ (ndebug = false →
       ∀ i, StorePastEnd ArrInstanceGeomInfoOffset i ∉ overrun (finalState r))
  ∧ ((n ≤ instances_length)%nat → overrun (finalState r) = []).
Proof.
  intros Hstack Hs Hd n r.
  destruct (pushAll_initial stack (staticBlas ++ dynamicBlas) Hstack) as (Hc & Hov).
  fold n in Hc, Hov.
  destruct (decide (ndebug = true ∨ (n < MAX_TOP_LEVEL_INSTANCE_COUNT)%nat)) as [Hok|Hstop].
  - assert (Hr : r = Ok tt (pushAll (staticBlas ++ dynamicBlas) (initialFrame stack))).
    { apply assembleInstances_ok. destruct Hok as [?|?]; [by left|]. right. done. }
    rewrite Hr. simpl.
    assert (Hret : ndebug || bool_decide (n < MAX_TOP_LEVEL_INSTANCE_COUNT)%nat = true).
    { destruct Hok as [->|?]; [done|]. rewrite bool_decide_eq_true_2 by done.
      apply orb_true_r. }
    rewrite Hret. split; [done|]. split; [done|]. split; [done|]. split.
    + intros -> i. destruct Hok as [?|Hn]; [done|]. rewrite Hov.
      apply overruns_offsets_within. unfold instanceGeomInfoOffset_length. lia.
    + intros Hn. rewrite Hov. apply overruns_within.
      * done.
      * unfold instanceGeomInfoOffset_length, instances_length,
          MAX_TOP_LEVEL_INSTANCE_COUNT in *. lia.
  - assert (ndebug = false) as -> by (destruct ndebug; [contradict Hstop; by left|done]).
    assert (MAX_TOP_LEVEL_INSTANCE_COUNT ≤ n)%nat as Hge by (apply Nat.nlt_ge; tauto).
    destruct (assembleInstances_abort staticBlas dynamicBlas (initialFrame stack) Hs Hd)
      as (l1 & l2 & Hsplit & Hr & Hcount).
    { simpl. unfold MAX_TOP_LEVEL_INSTANCE_COUNT. lia. }
    { done. }
    fold r in Hr. rewrite Hr. simpl.
    rewrite bool_decide_eq_false_2 by lia.
    split; [done|]. split; [done|]. split; [done|]. split.
    + intros _ i.
      destruct (pushAll_initial stack l1 Hstack) as (Hc1 & Hov1). rewrite Hov1.
      apply overruns_offsets_within. rewrite <- Hc1, Hcount. done.
    + unfold instances_length, MAX_TOP_LEVEL_INSTANCE_COUNT in *. lia.
Qed.

Lemma TryBuildTLAS_result ndebug stack frameIndex uniform (m : ASManager) res m' :
  TryBuildTLAS ndebug stack frameIndex uniform m = Ok res m' →
  ∃ fr,
    assembleInstances ndebug (allStaticBlas m) (dynamicBlasOf m frameIndex)
      (initialFrame stack) = Ok tt fr
    ∧ built res = negb (bool_decide (instanceCount fr = 0%nat))
    ∧ locals res = (if bool_decide (instanceCount fr = 0%nat) then fr else readLocals fr)
    ∧ uniform_instanceGeomInfoOffset res =
        (if bool_decide (instanceCount fr = 0%nat) then uniform
         else memcpy uniform (instanceGeomInfoOffset fr) (instanceCount fr * 4)).
Proof.
  unfold TryBuildTLAS.
  destruct (assembleInstances ndebug (allStaticBlas m) (dynamicBlasOf m frameIndex)
              (initialFrame stack)) as [[] fr|fr]; [|done].
  intros Hrun. exists fr. split; [done|].
  destruct (bool_decide (instanceCount fr = 0%nat)) eqn:Hz.
  - injection Hrun as <- <-. done.
  - revert Hrun. unfold mbind, M_bind, modify, gets.
    destruct (GetSize (buffer (tlasOf m frameIndex))
              <? GetTopBuildSizes (instanceCount fr) false).
    + rewrite DestroyAS_run.
      unfold CreateASBuffer, CreateAccelerationStructure, freshHandle, AddTLAS,
        BuildTopLevel, emit, assert, mbind, M_bind, modify, gets, mret, M_ret.
      simpl.
      match goal with |- context [if ?c then _ else _] => destruct c end; [|done].
      intros [= <- <-]. done.
    + unfold AddTLAS, BuildTopLevel, emit, assert, mbind, M_bind, modify, gets,
        mret, M_ret.
      simpl.
      match goal with |- context [if ?c then _ else _] => destruct c end; [|done].
      intros [= <- <-]. done.
Qed.


End InstanceBound.

(** ** The scratch list and the maximum instance count *)

Section ScratchList.

Context `{FT : FilterTypeDecls} `{PF : Platform}.

(** C9.  The instance list local to [TryBuildTLAS] has 32 entries, fewer than
    [MAX_TOP_LEVEL_INSTANCE_COUNT = 45], which is the bound of the assertion
    in the loops (the assertion after a store holds exactly when the new
    count is below it), the number of instances each instance buffer is
    created for, and, times four, the size of the offset array. *)
Theorem instances_scratch_smaller_than_maximum :
  (∀ stack, length (instances (initialFrame stack)) = 32%nat)
  ∧ instances_length = 32%nat
  ∧ MAX_TOP_LEVEL_INSTANCE_COUNT = 45%nat
  ∧ (instances_length < MAX_TOP_LEVEL_INSTANCE_COUNT)%nat
  ∧ (∀ static a fr,
       addInstance false static a fr =
         if tagOK static a then
           if isLive a then
             if bool_decide (S (instanceCount fr) < MAX_TOP_LEVEL_INSTANCE_COUNT)%nat
             then Ok tt (pushInstance a fr)
             else AssertionFailed (pushInstance a fr)
           else Ok tt fr
         else AssertionFailed fr)
  ∧ Forall (λ b, length b = MAX_TOP_LEVEL_INSTANCE_COUNT) (instanceBuffers ASManager_new)
  ∧ instanceGeomInfoOffset_length = (MAX_TOP_LEVEL_INSTANCE_COUNT * 4)%nat.
Proof.
  split; [intros stack; apply length_replicate|].
  split; [done|]. split; [done|].
  split; [unfold instances_length, MAX_TOP_LEVEL_INSTANCE_COUNT; lia|].
  split; [intros static a fr; apply (addInstance_unfold false)|].
  split; [|done].
  unfold ASManager_new. cbn [instanceBuffers].
  apply Forall_replicate. apply length_replicate.
Qed.

End ScratchList.

(** ** [SetupBLAS] *)

Section SetupBLASProperties.

Context `{FT : FilterTypeDecls} `{PF : Platform}.

Lemma hasGeometry_false (c : VertexCollector) (a : AccelerationStructure) :
  hasGeometry c a = false → bool_decide (length (GetASGeometries c (filter a)) = 0%nat) = true.
Proof. unfold hasGeometry. by destruct (bool_decide _). Qed.

Lemma hasGeometry_true (c : VertexCollector) (a : AccelerationStructure) :
  hasGeometry c a = true → bool_decide (length (GetASGeometries c (filter a)) = 0%nat) = false.
Proof. unfold hasGeometry. by destruct (bool_decide _). Qed.

Lemma SetupBLAS_empty (a : AccelerationStructure) (c : VertexCollector) (m : ASManager) :
  hasGeometry c a = false → SetupBLAS a c m = Ok a m.
Proof. intros Hg. unfold SetupBLAS. by rewrite (hasGeometry_false c a Hg). Qed.

Lemma SetupBLAS_keep (a : AccelerationStructure) (c : VertexCollector) (m : ASManager) :
  hasGeometry c a = true → needsNewBuffer c a = false →
  ∃ m', SetupBLAS a c m = Ok a m'
    ∧ sameStructures m m'
    ∧ nextHandle m' = nextHandle m
    ∧ trace m' = trace m
    ∧ bottomQueue (asBuilder m') = bottomQueue (asBuilder m) ++ [buildRequest false c a]
    ∧ topQueue (asBuilder m') = topQueue (asBuilder m).
Proof.
  intros Hg Hn. unfold SetupBLAS. rewrite (hasGeometry_true c a Hg).
  unfold needsNewBuffer, requiredSize in Hn. rewrite Hn.
  eexists. split; [reflexivity|]. unfold sameStructures. simpl. done.
Qed.

Lemma SetupBLAS_replace (a : AccelerationStructure) (c : VertexCollector) (m : ASManager) :
  hasGeometry c a = true → needsNewBuffer c a = true →
  ∃ m', SetupBLAS a c m = Ok (rebuiltAS c a m) m'
    ∧ sameStructures m m'
    ∧ nextHandle m' = nextHandle m + 2
    ∧ trace m' = trace m ++ destroyEvents a
        ++ [EvBufferInit (nextHandle m) (requiredSize c a);
            EvCreateAccelerationStructure (nextHandle m + 1) (nextHandle m)
              (requiredSize c a) false]
    ∧ bottomQueue (asBuilder m') =
        bottomQueue (asBuilder m) ++ [buildRequest false c (rebuiltAS c a m)]
    ∧ topQueue (asBuilder m') = topQueue (asBuilder m).
Proof.
  intros Hg Hn. unfold SetupBLAS. rewrite (hasGeometry_true c a Hg).
  unfold needsNewBuffer, requiredSize in Hn. rewrite Hn.
  unfold mbind, M_bind. rewrite DestroyAS_run.
  eexists. split; [reflexivity|]. unfold sameStructures. simpl.
  rewrite <- !app_assoc. repeat split; try done. lia.
Qed.

(** C6.  For a structure whose filter group holds geometry, [SetupBLAS]
    returns a structure whose buffer is initialised and at least as large as
    the size the driver requires, and enqueues a full build of it.  If the
    buffer it was given was not initialised or was smaller than that size,
    the old buffer and structure were destroyed and a buffer of exactly the
    required size and a structure on it were created, in this order, and the
    request enqueued is for the new structure; otherwise nothing was
    destroyed or created. *)
Theorem SetupBLAS_buffer_size (a : AccelerationStructure) (c : VertexCollector)
    (m : ASManager) :
  GetASGeometries c (filter a) ≠ [] →
  ∃ a' m', SetupBLAS a c m = Ok a' m'
    ∧ filter a' = filter a
    ∧ IsInitted (buffer a') = true
    ∧ requiredSize c a ≤ GetSize (buffer a')
    ∧ bottomQueue (asBuilder m') = bottomQueue (asBuilder m) ++ [buildRequest false c a']
    ∧ (if needsNewBuffer c a
       then a' = rebuiltAS c a m
            ∧ GetSize (buffer a') = requiredSize c a
            ∧ trace m' = trace m ++ destroyEvents a
                ++ [EvBufferInit (GetBuffer (buffer a')) (requiredSize c a);
                    EvCreateAccelerationStructure (as_ a') (GetBuffer (buffer a'))
                      (requiredSize c a) false]
       else a' = a ∧ trace m' = trace m).
Proof.
  intros Hgeoms.
  assert (Hg : hasGeometry c a = true).
  { unfold hasGeometry. rewrite bool_decide_eq_false_2; [done|].
    destruct (GetASGeometries c (filter a)); [done | simpl; lia]. }
  destruct (needsNewBuffer c a) eqn:Hn.
  - destruct (SetupBLAS_replace a c m Hg Hn) as (m' & Hrun & _ & _ & Htr & Hq & _).
    exists (rebuiltAS c a m), m'. split; [done|]. simpl.
    repeat split; try done; lia.
  - destruct (SetupBLAS_keep a c m Hg Hn) as (m' & Hrun & _ & _ & Htr & Hq & _).
    exists a, m'. split; [done|].
    unfold needsNewBuffer in Hn. apply orb_false_elim in Hn as [Hi Hs].
    apply negb_false_iff in Hi. apply Z.ltb_ge in Hs. done.
Qed.

End SetupBLASProperties.

(** On the example configuration: a structure without a buffer whose group
    holds one triangle gets a buffer of the 192 bytes the example device
    requires. *)
Lemma SetupBLAS_buffer_size_witness :
  @GetASGeometries examplePlatform oneOpaqueCollector (Z.lor 1 8) ≠ []
  ∧ ∃ a' m',
      @SetupBLAS exampleDecls examplePlatform (nullAS (Z.lor 1 8)) oneOpaqueCollector
        (@ASManager_new exampleDecls examplePlatform) = Ok a' m'
      ∧ IsInitted (buffer a') = true
      ∧ 192 ≤ GetSize (buffer a').
Proof.
  split; [vm_compute; discriminate|].
  destruct (@SetupBLAS_buffer_size exampleDecls examplePlatform (nullAS (Z.lor 1 8))
              oneOpaqueCollector (@ASManager_new exampleDecls examplePlatform))
    as (a' & m' & Hrun & _ & Hinit & Hsize & _).
  - vm_compute. discriminate.
  - exists a', m'. split; [exact Hrun|]. split; [exact Hinit|]. exact Hsize.
Defined.

(** ** [SubmitStaticGeometry] without data *)

Section SubmitStaticProperties.

Context `{FT : FilterTypeDecls} `{PF : Platform}.

Lemma set_collectorStatic_id (m : ASManager) :
  set_collectorStatic (collectorStatic m) m = m.
Proof. by destruct m. Qed.

Lemma set_allStaticBlas_id (m : ASManager) :
  set_allStaticBlas (allStaticBlas m) m = m.
Proof. by destruct m. Qed.

Lemma assert_pass {S} (ndebug b : bool) (s : S) :
  ndebug || b = true → assert ndebug b s = Ok tt s.
Proof. intros H. unfold assert. by rewrite H. Qed.

(** The first loop of [SubmitStaticGeometry]. *)
Lemma destroyLoop_run ndebug (l : list AccelerationStructure) (m : ASManager) :
  ndebug = true ∨ Forall (λ a, tagOK true a = true) l →
  mapM (λ staticBlas,
          assert ndebug (negb (hasAny (filter staticBlas) CF_DYNAMIC)) ≫= λ _,
          if hasAny (filter staticBlas) staticFlags
          then DestroyAS staticBlas
          else mret staticBlas) l m
  = Ok (afterDestroy <$> l) (emitAll (destroyEventsOf l) m).
Proof.
  revert m. induction l as [|a l IH]; intros m Hpre.
  - change (destroyEventsOf []) with (@nil Event). by rewrite emitAll_nil.
  - assert (Ha : ndebug || negb (hasAny (filter a) CF_DYNAMIC) = true).
    { destruct Hpre as [->|Hall]; [done|].
      apply Forall_cons in Hall as [Ha _]. unfold tagOK in Ha. rewrite Ha.
      apply orb_true_r. }
    assert (Hl : ndebug = true ∨ Forall (λ a, tagOK true a = true) l).
    { destruct Hpre as [?|Hall]; [by left|]. right.
      by apply Forall_cons in Hall as [_ ?]. }
    rewrite mapM_cons. unfold mbind at 1, M_bind at 1.
    rewrite (assert_pass _ _ _ Ha). unfold destroyEventsOf, afterDestroy.
    destruct (hasAny (filter a) staticFlags) eqn:Hst.
    + rewrite DestroyAS_run, IH by done. simpl.
      rewrite Hst, emitAll_app. done.
    + unfold mret at 1, M_ret at 1. rewrite IH by done. simpl.
      rewrite Hst. done.
Qed.

Lemma afterDestroy_filter (a : AccelerationStructure) :
  filter (afterDestroy a) = filter a.
Proof. unfold afterDestroy. by destruct (hasAny (filter a) staticFlags). Qed.

Lemma afterDestroy_idemp (a : AccelerationStructure) :
  afterDestroy (afterDestroy a) = afterDestroy a.
Proof.
  unfold afterDestroy at 1. rewrite afterDestroy_filter.
  unfold afterDestroy. by destruct (hasAny (filter a) staticFlags) eqn:Hst.
Qed.

Lemma afterDestroy_no_events (l : list AccelerationStructure) :
  destroyEventsOf (afterDestroy <$> l) = [].
Proof.
  induction l as [|a l IH]; [done|].
  change (destroyEventsOf (afterDestroy <$> a :: l))
    with ((if hasAny (filter (afterDestroy a)) staticFlags
           then destroyEvents (afterDestroy a) else [])
          ++ destroyEventsOf (afterDestroy <$> l)).
  rewrite IH, app_nil_r, afterDestroy_filter.
  unfold afterDestroy. by destruct (hasAny (filter a) staticFlags).
Qed.

(** The skip path: the structures with a static bit are destroyed, nothing
    is copied, built or submitted. *)
Lemma SubmitStaticGeometry_skip ndebug (m : ASManager) :
  AreGeometriesEmpty (collectorStatic m) staticFlags = true →
  ndebug = true
  ∨ (Forall (λ a, tagOK true a = true) (allStaticBlas m) ∧ IsEmpty (asBuilder m) = true) →
  SubmitStaticGeometry ndebug m
  = Ok tt (set_allStaticBlas (afterDestroy <$> allStaticBlas m)
             (emitAll (destroyEventsOf (allStaticBlas m)) m)).
Proof.
  intros Hempty Hpre. unfold SubmitStaticGeometry, EndCollecting.
  unfold mbind at 1, M_bind at 1, modify at 1. rewrite set_collectorStatic_id.
  unfold mbind at 1, M_bind at 1, gets at 1.
  unfold mbind at 1, M_bind at 1.
  rewrite destroyLoop_run by (destruct Hpre as [?|[? _]]; [by left | by right]).
  unfold mbind at 1, M_bind at 1, modify at 1.
  unfold mbind at 1, M_bind at 1, gets at 1.
  change (asBuilder (set_allStaticBlas (afterDestroy <$> allStaticBlas m)
            (emitAll (destroyEventsOf (allStaticBlas m)) m)))
    with (asBuilder m).
  unfold mbind at 1, M_bind at 1.
  rewrite assert_pass.
  2:{ destruct Hpre as [->|[_ ->]]; [done | apply orb_true_r]. }
  unfold mbind at 1, M_bind at 1, gets at 1.
  change (collectorStatic (set_allStaticBlas (afterDestroy <$> allStaticBlas m)
            (emitAll (destroyEventsOf (allStaticBlas m)) m)))
    with (collectorStatic m).
  rewrite Hempty. done.
Qed.

(** C4, as the code has it.  With no static geometry in the collector,
    [SubmitStaticGeometry] takes the skip path: nothing is copied, enqueued,
    built or submitted, and no handle is created.  Before the emptiness
    check it destroys every structure with a static bit, so the structures
    that existed before the call are gone after it.  A second call right
    after it leaves the manager exactly as the first call left it. *)
Theorem SubmitStaticGeometry_twice_without_data ndebug (m : ASManager) :
  AreGeometriesEmpty (collectorStatic m) staticFlags = true →
  ndebug = true
  ∨ (Forall (λ a, tagOK true a = true) (allStaticBlas m) ∧ IsEmpty (asBuilder m) = true) →
  ∃ m1,
    SubmitStaticGeometry ndebug m = Ok tt m1
    ∧ SubmitStaticGeometry ndebug m1 = Ok tt m1
    ∧ asBuilder m1 = asBuilder m
    ∧ nextHandle m1 = nextHandle m
    ∧ trace m1 = trace m ++ destroyEventsOf (allStaticBlas m)
    ∧ allStaticBlas m1 = afterDestroy <$> allStaticBlas m.
Proof.
  intros Hempty Hpre. eexists. split; [by apply SubmitStaticGeometry_skip|].
  split; [|done].
  rewrite SubmitStaticGeometry_skip.
  - simpl allStaticBlas. rewrite afterDestroy_no_events, emitAll_nil.
    rewrite <- list_fmap_compose.
    rewrite (list_fmap_ext (afterDestroy ∘ afterDestroy) afterDestroy)
      by (intros; apply afterDestroy_idemp).
    done.
  - done.
  - destruct Hpre as [?|[Htags Hq]]; [by left|]. right. split; [|done].
    simpl allStaticBlas. apply Forall_fmap. eapply Forall_impl; [exact Htags|].
    intros a Ha. simpl. unfold tagOK. by rewrite afterDestroy_filter.
Qed.

End SubmitStaticProperties.

(** On the example configuration, in a debug build: with two live static
    structures and a freshly reset collector, the first call destroys both
    structures and the second call changes nothing. *)
Lemma SubmitStaticGeometry_twice_without_data_witness :
  @AreGeometriesEmpty examplePlatform (collectorStatic twoStaticGroupsReset)
    (@staticFlags exampleDecls) = true
  ∧ length (liveBlas (allStaticBlas twoStaticGroupsReset)) = 2%nat
  ∧ ∃ m1,
      @SubmitStaticGeometry exampleDecls examplePlatform false twoStaticGroupsReset = Ok tt m1
      ∧ @SubmitStaticGeometry exampleDecls examplePlatform false m1 = Ok tt m1
      ∧ liveBlas (allStaticBlas m1) = [].
Proof.
  split; [reflexivity|]. split; [reflexivity|].
  destruct (@SubmitStaticGeometry_twice_without_data exampleDecls examplePlatform false
              twoStaticGroupsReset)
    as (m1 & Hfirst & Hsecond & _ & _ & _ & Hblas).
  - reflexivity.
  - right. split; [|reflexivity].
    apply (bool_decide_unpack _). vm_compute. exact I.
  - exists m1. split; [exact Hfirst|]. split; [exact Hsecond|].
    rewrite Hblas. reflexivity.
Defined.

(** ** [ResubmitStaticMovable] *)

Section ResubmitProperties.

Context `{FT : FilterTypeDecls} `{PF : Platform}.

Lemma enqueueAll_nil (m : ASManager) : enqueueAll [] m = m.
Proof.
  destruct m as [? ? ? ? ? ? [bq tq] ? ?]. unfold enqueueAll, set_asBuilder. simpl.
  by rewrite app_nil_r.
Qed.

Lemma enqueueAll_app (rs1 rs2 : list BuildRequest) (m : ASManager) :
  enqueueAll rs2 (enqueueAll rs1 m) = enqueueAll (rs1 ++ rs2) m.
Proof. unfold enqueueAll, set_asBuilder. simpl. by rewrite app_assoc. Qed.

Lemma UpdateBLAS_empty ndebug (a : AccelerationStructure) (c : VertexCollector)
    (m : ASManager) :
  hasGeometry c a = false → UpdateBLAS ndebug a c m = Ok a m.
Proof. intros Hg. unfold UpdateBLAS. by rewrite (hasGeometry_false c a Hg). Qed.

Lemma UpdateBLAS_run ndebug (a : AccelerationStructure) (c : VertexCollector)
    (m : ASManager) :
  hasGeometry c a = true → ndebug || updatable c a = true →
  UpdateBLAS ndebug a c m = Ok a (enqueueAll [buildRequest true c a] m).
Proof.
  intros Hg Hu. unfold UpdateBLAS. rewrite (hasGeometry_true c a Hg).
  unfold mbind at 1, M_bind at 1. unfold updatable, requiredSize in Hu.
  rewrite (assert_pass _ _ _ Hu). done.
Qed.

Lemma updateLoop_run ndebug (c : VertexCollector) (l : list AccelerationStructure)
    (m : ASManager) :
  ndebug = true ∨ Forall (λ a, resubmitReady c a = true) l →
  mapM (λ blas,
          assert ndebug (negb (hasAny (filter blas) CF_DYNAMIC)) ≫= λ _,
          if hasAny (filter blas) CF_STATIC_MOVABLE
          then UpdateBLAS ndebug blas c
          else mret blas) l m
  = Ok l (enqueueAll (buildRequest true c <$> movableToUpdate c l) m).
Proof.
  revert m. induction l as [|a l IH]; intros m Hpre.
  - change (movableToUpdate c []) with (@nil AccelerationStructure).
    simpl fmap. by rewrite enqueueAll_nil.
  - assert (Ha : ndebug || negb (hasAny (filter a) CF_DYNAMIC) = true).
    { destruct Hpre as [->|Hall]; [done|].
      apply Forall_cons in Hall as [Ha _]. unfold resubmitReady, tagOK in Ha.
      apply andb_true_iff in Ha as [-> _]. apply orb_true_r. }
    assert (Hu : hasAny (filter a) CF_STATIC_MOVABLE = true → hasGeometry c a = true →
                 ndebug || updatable c a = true).
    { intros Hm Hg. destruct Hpre as [->|Hall]; [done|].
      apply Forall_cons in Hall as [Hr _]. unfold resubmitReady in Hr.
      apply andb_true_iff in Hr as [_ Hr]. rewrite Hm, Hg in Hr. simpl in Hr.
      rewrite Hr. apply orb_true_r. }
    assert (Hl : ndebug = true ∨ Forall (λ a, resubmitReady c a = true) l).
    { destruct Hpre as [?|Hall]; [by left|]. right.
      by apply Forall_cons in Hall as [_ ?]. }
    rewrite mapM_cons. unfold mbind at 1, M_bind at 1.
    rewrite (assert_pass _ _ _ Ha).
    change (movableToUpdate c (a :: l))
      with (if hasAny (filter a) CF_STATIC_MOVABLE && hasGeometry c a
            then a :: movableToUpdate c l else movableToUpdate c l).
    destruct (hasAny (filter a) CF_STATIC_MOVABLE) eqn:Hm.
    + destruct (hasGeometry c a) eqn:Hg.
      * rewrite UpdateBLAS_run, IH by auto. simpl. by rewrite enqueueAll_app.
      * rewrite UpdateBLAS_empty, IH by auto. done.
    + unfold mret at 1, M_ret at 1. rewrite IH by done. done.
Qed.

End ResubmitProperties.

Section MovableUpdate.

Context `{FT : FilterTypeDecls} `{PF : Platform}.

Lemma forallb_alter {A} (p : A → bool) (f : A → A) (i : nat) (l : list A) :
  (∀ x, p (f x) = p x) → forallb p (alter f i l) = forallb p l.
Proof.
  intros Hp. revert i. induction l as [|x l IH]; intros [|i]; simpl; try done.
  - by rewrite Hp.
  - f_equal. apply IH.
Qed.

Lemma filter_alter_fmap {A B} (p : A → bool) (g : A → B) (f : A → A) (i : nat)
    (l : list A) :
  (∀ x, p (f x) = p x) → (∀ x, g (f x) = g x) →
  g <$> List.filter p (alter f i l) = g <$> List.filter p l.
Proof.
  intros Hp Hg. revert i. induction l as [|x l IH]; intros [|i]; simpl; try done.
  - rewrite Hp. destruct (p x); simpl; by rewrite ?Hg.
  - destruct (p x); simpl; [f_equal|]; apply IH.
Qed.

(** Updating a transform changes no group's membership and no primitive
    count, hence no required size. *)
Lemma UpdateTransform_empty (i : Z) (t : RgTransform) (c : VertexCollector) (flags : Z) :
  AreGeometriesEmpty (UpdateTransform i t c) flags = AreGeometriesEmpty c flags.
Proof. unfold AreGeometriesEmpty, UpdateTransform. simpl. by apply forallb_alter. Qed.

Lemma UpdateTransform_primitiveCounts (i : Z) (t : RgTransform) (c : VertexCollector)
    (f : Z) :
  GetPrimitiveCounts (UpdateTransform i t c) f = GetPrimitiveCounts c f.
Proof.
  unfold GetPrimitiveCounts, GetASGeometries, UpdateTransform. simpl.
  by apply filter_alter_fmap.
Qed.

Lemma UpdateTransform_length (i : Z) (t : RgTransform) (c : VertexCollector) (f : Z) :
  length (GetASGeometries (UpdateTransform i t c) f) = length (GetASGeometries c f).
Proof.
  rewrite <- (length_fmap g_primitiveCount (GetASGeometries (UpdateTransform i t c) f)).
  rewrite <- (length_fmap g_primitiveCount (GetASGeometries c f)).
  f_equal. apply UpdateTransform_primitiveCounts.
Qed.

Lemma UpdateTransform_ready (i : Z) (t : RgTransform) (c : VertexCollector)
    (a : AccelerationStructure) :
  resubmitReady (UpdateTransform i t c) a = resubmitReady c a.
Proof.
  unfold resubmitReady, updatable, hasGeometry, requiredSize.
  by rewrite UpdateTransform_length, UpdateTransform_primitiveCounts.
Qed.

Lemma UpdateTransform_movable (i : Z) (t : RgTransform) (c : VertexCollector)
    (l : list AccelerationStructure) :
  movableToUpdate (UpdateTransform i t c) l = movableToUpdate c l.
Proof.
  unfold movableToUpdate, hasGeometry. induction l as [|a l IH]; [done|].
  simpl. by rewrite UpdateTransform_length, IH.
Qed.

(** C5.  [UpdateStaticMovableTransform] followed by [ResubmitStaticMovable],
    on a manager whose movable structures were built for the geometry now
    in the collector (or with assertions compiled out): the calls return;
    the record with the given index has the new transform and no other
    record field changed; no structure list, handle or buffer changes and no
    handle is allocated; if the collector holds no movable geometry nothing
    is enqueued, built or recorded; otherwise the only device work is one
    batch followed by a memory barrier, the batch holding, after what the
    queue held, one request in update mode per movable structure whose group
    holds geometry, for the same handle, over the group's geometry with the
    new transform. *)
Theorem ResubmitStaticMovable_updates_in_place ndebug (m : ASManager)
    (geomIndex : Z) (t : RgTransform) :
  ndebug = true
  ∨ (Forall (λ a, resubmitReady (collectorStatic m) a = true) (allStaticBlas m)
     ∧ IsEmpty (asBuilder m) = true) →
  let c' := UpdateTransform geomIndex t (collectorStatic m) in
  let requests := buildRequest true c' <$> movableToUpdate (collectorStatic m) (allStaticBlas m) in
  ∃ m',
    (UpdateStaticMovableTransform geomIndex t ≫= λ _, ResubmitStaticMovable ndebug) m
      = Ok tt m'
    ∧ collectorStatic m' = c'
    ∧ geometries c'
        = alter (withTransform t) (Z.to_nat geomIndex) (geometries (collectorStatic m))
    ∧ allStaticBlas m' = allStaticBlas m
    ∧ allDynamicBlas m' = allDynamicBlas m
    ∧ tlas m' = tlas m
    ∧ nextHandle m' = nextHandle m
    ∧ Forall (λ r, br_update r = true) requests
    ∧ (br_as <$> requests) = (as_ <$> movableToUpdate (collectorStatic m) (allStaticBlas m))
    ∧ (if AreGeometriesEmpty (collectorStatic m) CF_STATIC_MOVABLE
       then trace m' = trace m ∧ asBuilder m' = asBuilder m
       else trace m' = trace m
              ++ [EvBuildBottomLevel (bottomQueue (asBuilder m) ++ requests);
                  EvASBuildMemoryBarrier]
            ∧ bottomQueue (asBuilder m') = []).
Proof.
  intros Hpre c' requests.
  assert (Hreq : Forall (λ r, br_update r = true) requests
                 ∧ br_as <$> requests
                   = as_ <$> movableToUpdate (collectorStatic m) (allStaticBlas m)).
  { unfold requests. split.
    - apply Forall_fmap, Forall_true. done.
    - rewrite <- list_fmap_compose. done. }
  destruct Hreq as [Hreq1 Hreq2].
  unfold UpdateStaticMovableTransform, ResubmitStaticMovable.
  unfold mbind at 1, M_bind at 1, modify at 1.
  fold c'. set (m0 := set_collectorStatic c' m).
  unfold mbind at 1, M_bind at 1, gets at 1.
  change (collectorStatic m0) with c'.
  rewrite (UpdateTransform_empty geomIndex t (collectorStatic m) CF_STATIC_MOVABLE
           : AreGeometriesEmpty c' CF_STATIC_MOVABLE = _).
  destruct (AreGeometriesEmpty (collectorStatic m) CF_STATIC_MOVABLE) eqn:Hempty.
  - eexists. split; [reflexivity|]. simpl. done.
  - unfold mbind at 1, M_bind at 1, gets at 1.
    change (asBuilder m0) with (asBuilder m).
    unfold mbind at 1, M_bind at 1.
    rewrite assert_pass.
    2:{ destruct Hpre as [->|[_ ->]]; [done | apply orb_true_r]. }
    unfold mbind at 1, M_bind at 1, gets at 1.
    change (allStaticBlas m0) with (allStaticBlas m).
    unfold mbind at 1, M_bind at 1.
    rewrite updateLoop_run.
    2:{ destruct Hpre as [?|[Hready _]]; [by left|]. right.
        eapply Forall_impl; [exact Hready|]. intros a Ha. simpl.
        unfold c'. by rewrite UpdateTransform_ready. }
    rewrite (UpdateTransform_movable geomIndex t (collectorStatic m) (allStaticBlas m)
             : movableToUpdate c' (allStaticBlas m) = _).
    fold requests.
    eexists. split; [reflexivity|]. simpl. rewrite <- app_assoc. done.
Qed.

End MovableUpdate.

Section MovableUpdateOnExample.

Local Existing Instance exampleDecls.
Local Existing Instance examplePlatform.

(** On the example configuration, in a debug build: one static-movable
    geometry was submitted; its transform is set to 7 and the movable
    structures are resubmitted.  The structure keeps its handle and buffer,
    and one update of it is built. *)
Lemma ResubmitStaticMovable_updates_in_place_witness :
  (Forall (λ a, @resubmitReady exampleDecls examplePlatform (collectorStatic oneMovable) a
                = true) (allStaticBlas oneMovable)
   ∧ IsEmpty (asBuilder oneMovable) = true)
  ∧ ∃ m',
      (@UpdateStaticMovableTransform examplePlatform 0 7 ≫= λ _,
       @ResubmitStaticMovable exampleDecls examplePlatform false) oneMovable = Ok tt m'
      ∧ allStaticBlas m' = allStaticBlas oneMovable
      ∧ g_transform <$> geometries (collectorStatic m') = [7]
      ∧ length (liveBlas (allStaticBlas m')) = 1%nat.
Proof.
  assert (Hready :
    Forall (λ a, @resubmitReady exampleDecls examplePlatform (collectorStatic oneMovable) a
                 = true) (allStaticBlas oneMovable)
    ∧ IsEmpty (asBuilder oneMovable) = true).
  { split; [|reflexivity]. apply (bool_decide_unpack _). vm_compute. exact I. }
  split; [exact Hready|].
  pose proof (@ResubmitStaticMovable_updates_in_place exampleDecls examplePlatform false
                oneMovable 0 7 (or_intror Hready)) as Hrun.
  cbv zeta in Hrun.
  destruct Hrun as (m' & Hrun & Hcol & _ & Hblas & _).
  exists m'. split; [exact Hrun|]. split; [exact Hblas|]. split.
  - rewrite Hcol. reflexivity.
  - rewrite Hblas. reflexivity.
Defined.

End MovableUpdateOnExample.

(** ** Geometry of the wrong type *)

Section WrongType.

Context `{FT : FilterTypeDecls} `{PF : Platform}.

(** C10.  [AddStaticGeometry] given an upload record that is neither static
    nor static-movable, and [AddDynamicGeometry] given one that is not
    dynamic: when assertions are compiled out they return [UINT32_MAX] and
    leave the manager, with all its collectors, as it was; when assertions
    are compiled in they stop at [assert(0)], the manager as it was. *)
Theorem AddGeometry_wrong_type (info : RgGeometryUploadInfo) (frameIndex : nat)
    (m : ASManager) :
  (geomType info ≠ RG_GEOMETRY_TYPE_STATIC
   ∧ geomType info ≠ RG_GEOMETRY_TYPE_STATIC_MOVABLE →
     AddStaticGeometry true info m = Ok UINT32_MAX m
     ∧ AddStaticGeometry false info m = AssertionFailed m)
  ∧ (geomType info ≠ RG_GEOMETRY_TYPE_DYNAMIC →
     AddDynamicGeometry true info frameIndex m = Ok UINT32_MAX m
     ∧ AddDynamicGeometry false info frameIndex m = AssertionFailed m).
Proof.
  split.
  - intros [Hs Hm]. unfold AddStaticGeometry.
    rewrite !bool_decide_eq_false_2 by done. done.
  - intros Hd. unfold AddDynamicGeometry.
    rewrite !bool_decide_eq_false_2 by done. done.
Qed.

End WrongType.

(** On the example configuration: a dynamic geometry given to
    [AddStaticGeometry] and a static one given to [AddDynamicGeometry]. *)
Lemma AddGeometry_wrong_type_witness :
  @AddStaticGeometry exampleDecls examplePlatform true
    (exampleInfo RG_GEOMETRY_TYPE_DYNAMIC RG_GEOMETRY_PASS_THROUGH_TYPE_OPAQUE)
    twoStaticGroups = Ok UINT32_MAX twoStaticGroups
  ∧ @AddDynamicGeometry exampleDecls examplePlatform true
      (exampleInfo RG_GEOMETRY_TYPE_STATIC RG_GEOMETRY_PASS_THROUGH_TYPE_OPAQUE) 0
      twoStaticGroups = Ok UINT32_MAX twoStaticGroups.
Proof.
  split.
  - apply (proj1 (@AddGeometry_wrong_type exampleDecls examplePlatform
             (exampleInfo RG_GEOMETRY_TYPE_DYNAMIC RG_GEOMETRY_PASS_THROUGH_TYPE_OPAQUE)
             0%nat twoStaticGroups)).
    split; discriminate.
  - apply (proj2 (@AddGeometry_wrong_type exampleDecls examplePlatform
             (exampleInfo RG_GEOMETRY_TYPE_STATIC RG_GEOMETRY_PASS_THROUGH_TYPE_OPAQUE)
             0%nat twoStaticGroups)).
    discriminate.
Defined.

(** ** Instances of empty filter groups *)

(** C3 at two uses of frame slot 0.  The dynamic structures of a frame slot
    are not destroyed when the slot is used again: [SubmitDynamicGeometry]
    returns early when the frame has no dynamic geometry, and [SetupBLAS]
    returns early for an empty group, both leaving the handle of the previous
    use in place, and [SetupTLASInstance] looks at the handle only.
    - After a frame with one dynamic opaque geometry and a frame with no
      geometry, [TryBuildTLAS] assembles one instance, for the opaque
      structure of the earlier frame, although the frame's collector is
      empty.
    - After a frame with a dynamic opaque and a dynamic alpha-tested geometry
      and a frame with a dynamic opaque geometry only, [TryBuildTLAS]
      assembles two instances; the second is for the alpha-tested structure
      of the earlier frame, whose group is empty in the frame's collector. *)
Theorem TryBuildTLAS_instance_of_empty_group :
  (@AreGeometriesEmpty examplePlatform
     (@collectorDynamicOf examplePlatform emptySecondFrame 0) (@CF_DYNAMIC exampleDecls) = true
   ∧ ∃ res m',
       @TryBuildTLAS exampleDecls examplePlatform false (replicate 180 0) 0
         (replicate 48 0) emptySecondFrame = Ok res m'
       ∧ built res = true
       ∧ instanceCount (locals res) = 1%nat
       ∧ filter <$> liveBlas (@dynamicBlasOf examplePlatform emptySecondFrame 0)
           = [Z.lor 4 8])
  ∧ (@GetASGeometries examplePlatform
       (@collectorDynamicOf examplePlatform shrunkSecondFrame 0) (Z.lor 4 16) = []
     ∧ ∃ res m',
         @TryBuildTLAS exampleDecls examplePlatform false (replicate 180 0) 0
           (replicate 48 0) shrunkSecondFrame = Ok res m'
         ∧ built res = true
         ∧ instanceCount (locals res) = 2%nat
         ∧ filter <$> liveBlas (@dynamicBlasOf examplePlatform shrunkSecondFrame 0)
             = [Z.lor 4 8; Z.lor 4 16]
         ∧ instances (locals res) !! 1%nat
             = @SetupTLASInstance exampleDecls examplePlatform
                 (liveAS 4 (Z.lor 4 16)) zeroInstance).
Proof.
  split.
  - split; [reflexivity|]. eexists _, _. split; [vm_compute; reflexivity|].
    repeat split; vm_compute; reflexivity.
  - split; [reflexivity|]. eexists _, _. split; [vm_compute; reflexivity|].
    repeat split; vm_compute; reflexivity.
Qed.

(** ** Missing previous-frame data in the shader *)

Section PreviousFrameData.

Context `{SM : ShaderMath}.

Import VertexData.

Lemma noPrevData_dynamic (inst : ShGeometryInstance) (ci : Z) :
  noPrevData inst ci → isDynamicIndex ci = true →
  negb (prevBaseVertexIndex inst =? UINT32_MAX) = false.
Proof.
  intros [->|[Hd _]] Hdyn; [done | congruence].
Qed.

Lemma noPrevData_static (inst : ShGeometryInstance) (ci : Z) :
  noPrevData inst ci →
  negb (Z.land (flags inst) GEOM_INST_FLAG_IS_MOVABLE =? 0)
  && negb (prevBaseVertexIndex inst =? UINT32_MAX) = false.
Proof.
  intros [->|[_ ->]]; [apply andb_false_r | done].
Qed.

(** The lookups that do not touch previous-frame data. *)
Lemma withPrevData_getGeometryIndex pm pbi pp pi (b : Bindings) (i l : Z) :
  getGeometryIndex (withPrevData pm pbi pp pi b) i l = getGeometryIndex b i l.
Proof. done. Qed.

(** C8, as the code has it.  For a fetch whose geometry record has no usable
    previous-frame data (the previous base vertex index is [UINT32_MAX], or
    the geometry is static and not movable): [getTriangle] returns the
    current positions as previous positions, [getTriangle_PositionAndNormal]
    returns the current position and normal as the previous ones,
    [getOnlyPrevPositions] returns what [getOnlyCurPositions] returns, and
    none of the three results depends on the previous model matrix, the
    previous index offset or the previous-frame buffers.  When the
    prev-to-cur map holds the no-match sentinel,
    [getCurrentGeometryIndexByPrev] returns [false] and
    [unpackPrevVisibilityBuffer] returns [false] without a previous
    position.  All these functions are total: there is no error path. *)
Theorem previous_frame_fallback (b : Bindings)
    (instanceID instanceCustomIndex localGeometryIndex primitiveId : Z) (bary : vec2) :
  let g := getGeometryIndex b instanceID localGeometryIndex in
  noPrevData (geometryInstances b g) instanceCustomIndex →
  prevPositions (getTriangle b instanceID instanceCustomIndex localGeometryIndex primitiveId)
    = positions (getTriangle b instanceID instanceCustomIndex localGeometryIndex primitiveId)
  ∧ (let r := getTriangle_PositionAndNormal b instanceID instanceCustomIndex
                localGeometryIndex primitiveId bary in
     r.1.1.2 = r.1.1.1 ∧ r.2 = r.1.2)
  ∧ getOnlyPrevPositions b g instanceCustomIndex primitiveId
      = getOnlyCurPositions b g instanceCustomIndex primitiveId
  ∧ (∀ pm pbi pp pi,
       getTriangle (withPrevData pm pbi pp pi b) instanceID instanceCustomIndex
           localGeometryIndex primitiveId
         = getTriangle b instanceID instanceCustomIndex localGeometryIndex primitiveId
       ∧ getTriangle_PositionAndNormal (withPrevData pm pbi pp pi b) instanceID
           instanceCustomIndex localGeometryIndex primitiveId bary
         = getTriangle_PositionAndNormal b instanceID instanceCustomIndex
             localGeometryIndex primitiveId bary
       ∧ getOnlyPrevPositions (withPrevData pm pbi pp pi b) g instanceCustomIndex primitiveId
         = getOnlyPrevPositions b g instanceCustomIndex primitiveId)
  ∧ (∀ prevInstanceID prevLocalGeometryIndex instCustomIndex primIndex,
       to_uint32 (getCurrentGeometryIndexByPrev b prevInstanceID prevLocalGeometryIndex).2
         = UINT32_MAX →
       (getCurrentGeometryIndexByPrev b prevInstanceID prevLocalGeometryIndex).1 = false
       ∧ unpackPrevVisibilityBuffer b prevInstanceID instCustomIndex
           prevLocalGeometryIndex primIndex bary = None).
Proof.
  intros g Hno.
  pose proof (noPrevData_static _ _ Hno) as Hst.
  split; [|split; [|split; [|split]]].
  - unfold getTriangle. fold g.
    destruct (isDynamicIndex instanceCustomIndex) eqn:Hdyn; simpl.
    + by rewrite (noPrevData_dynamic _ _ Hno Hdyn).
    + by rewrite Hst.
  - unfold getTriangle_PositionAndNormal. fold g.
    destruct (isDynamicIndex instanceCustomIndex) eqn:Hdyn; simpl.
    + by rewrite (noPrevData_dynamic _ _ Hno Hdyn).
    + by rewrite Hst.
  - unfold getOnlyPrevPositions, getOnlyCurPositions.
    destruct (isDynamicIndex instanceCustomIndex) eqn:Hdyn; simpl.
    + by rewrite (noPrevData_dynamic _ _ Hno Hdyn).
    + by rewrite Hst.
  - intros pm pbi pp pi.
    unfold getTriangle, getTriangle_PositionAndNormal, getOnlyPrevPositions.
    rewrite !withPrevData_getGeometryIndex. fold g.
    destruct (isDynamicIndex instanceCustomIndex) eqn:Hdyn; simpl.
    + by rewrite !(noPrevData_dynamic _ _ Hno Hdyn).
    + by rewrite !Hst.
  - intros prevInstanceID prevLocalGeometryIndex instCustomIndex primIndex Hsent.
    unfold unpackPrevVisibilityBuffer.
    unfold getCurrentGeometryIndexByPrev in *. simpl in *.
    rewrite Hsent. done.
Qed.

End PreviousFrameData.

(** On the example bindings every geometry record has the sentinel as its
    previous base vertex index. *)
Lemma previous_frame_fallback_witness :
  let b := exampleBindings (replicate 48 0) in
  @VertexData.noPrevData exampleMath
    (VertexData.geometryInstances b (VertexData.getGeometryIndex b 0 0)) 1
  ∧ VertexData.prevPositions (VertexData.getTriangle b 0 1 0 2)
    = VertexData.positions (VertexData.getTriangle b 0 1 0 2)
  ∧ VertexData.getOnlyPrevPositions b 0 1 2 = VertexData.getOnlyCurPositions b 0 1 2.
Proof.
  cbv zeta.
  assert (Hno : @VertexData.noPrevData exampleMath
            (VertexData.geometryInstances (exampleBindings (replicate 48 0))
               (VertexData.getGeometryIndex (exampleBindings (replicate 48 0)) 0 0)) 1).
  { left. reflexivity. }
  split; [exact Hno|].
  pose proof (@previous_frame_fallback exampleMath (exampleBindings (replicate 48 0))
                0 1 0 2 (0, 0) Hno) as (Hprev & _ & Honly & _).
  split; [exact Hprev | exact Honly].
Defined.

(** C8, as stated, fails for the prev-to-cur map.  On bindings whose map has
    no match for any geometry (every entry is the sentinel, -1 as an [int]),
    [getCurrentGeometryIndexByPrev] returns [false] and
    [unpackPrevVisibilityBuffer] returns [false]: no previous position is
    produced, the current frame's own position is not used in its place. *)
Lemma previous_frame_fallback_counterexample :
  let b := exampleBindings (replicate 48 0) in
  to_uint32 (VertexData.geomIndexPrevToCur b 0) = UINT32_MAX
  ∧ @VertexData.getCurrentGeometryIndexByPrev exampleMath b 0 0 = (false, -1)
  ∧ @VertexData.unpackPrevVisibilityBuffer exampleMath b 0 0 0 0 (0, 0) = None
  ∧ ¬ ∃ prevPos,
        @VertexData.unpackPrevVisibilityBuffer exampleMath b 0 0 0 0 (0, 0) = Some prevPos.
Proof.
  cbv zeta. split; [reflexivity|]. split; [reflexivity|]. split; [reflexivity|].
  intros [prevPos Hsome]. vm_compute in Hsome. discriminate.
Qed.

(** ** The offset table and the shader's lookup *)

Section OffsetTable.

Context `{FT : FilterTypeDecls} `{PF : Platform}.





(** Loops that return have made the stores of [pushAll]. *)
Lemma forM_addInstance_returns ndebug static (l : list AccelerationStructure) fr fr' :
  forM_ l (addInstance ndebug static) fr = Ok tt fr' → fr' = pushAll l fr.
Proof.
  revert fr. induction l as [|a l IH]; intros fr.
  - by intros [= <-].
  - simpl forM_. unfold mbind, M_bind. rewrite addInstance_unfold, pushAll_cons.
    destruct (ndebug || tagOK static a); [|done].
    destruct (isLive a) eqn:Hl.
    + destruct (ndebug || bool_decide _); [apply IH | done].
    + rewrite (pushInstance_dead a fr Hl). apply IH.
Qed.

Lemma assembleInstances_returns ndebug (staticBlas dynamicBlas : list AccelerationStructure)
    fr fr' :
  assembleInstances ndebug staticBlas dynamicBlas fr = Ok tt fr' →
  fr' = pushAll (staticBlas ++ dynamicBlas) fr.
Proof.
  unfold assembleInstances, mbind, M_bind.
  destruct (forM_ staticBlas (addInstance ndebug true) fr) as [[] fr1|] eqn:H1; [|done].
  intros H2. rewrite pushAll_app.
  apply forM_addInstance_returns in H1 as ->.
  by apply forM_addInstance_returns in H2.
Qed.

Lemma memcpy_lookup {A} (dst src : list A) (n k : nat) :
  (k < n)%nat → (n ≤ length src)%nat → memcpy dst src n !! k = src !! k.
Proof.
  intros Hk Hn. unfold memcpy.
  rewrite lookup_app_l by (rewrite length_take; lia).
  by rewrite lookup_take_lt.
Qed.


Lemma storeInstance_lookup (i k : nat) (x : VkAccelerationStructureInstanceKHR)
    (fr : TlasFrame) :
  instances (storeInstance i x fr) !! k =
    if decide (i = k ∧ (i < length (instances fr))%nat)
    then Some x else instances fr !! k.
Proof.
  unfold storeInstance. destruct (decide (i < length (instances fr))%nat); simpl.
  - destruct (decide (i = k)) as [->|Hne].
    + rewrite list_lookup_insert_eq by done. by rewrite decide_True.
    + rewrite list_lookup_insert_ne by done. rewrite decide_False; [done|tauto].
  - rewrite decide_False; [done|tauto].
Qed.

Lemma pushInstance_instances (a : AccelerationStructure) (fr : TlasFrame) (k : nat) :
  isLive a = true →
  instances (pushInstance a fr) !! k =
    if decide (instanceCount fr = k ∧ (instanceCount fr < length (instances fr))%nat)
    then SetupTLASInstance a (default zeroInstance (instances fr !! instanceCount fr))
    else instances fr !! k.
Proof.
  intros Hl. destruct (pushInstance_live a fr Hl) as (inst & Hinst & ->).
  unfold incrementCount. cbn [instances].
  destruct (storeOffset_fields (instanceCount fr * 4) (geomInfoBaseOffset (filter a))
              (storeInstance (instanceCount fr) inst fr)) as (_ & -> & _).
  rewrite storeInstance_lookup. by rewrite Hinst.
Qed.

(** After the loops: slot [i] holds the instance of the [i]-th live
    structure, set up from the slot as it was, and no other slot was stored
    to. *)
Lemma pushAll_instances (l : list AccelerationStructure) (fr : TlasFrame) :
  (∀ i a, liveBlas l !! i = Some a →
     (instanceCount fr + i < length (instances fr))%nat →
     instances (pushAll l fr) !! (instanceCount fr + i)%nat
       = SetupTLASInstance a
           (default zeroInstance (instances fr !! (instanceCount fr + i)%nat)))
  ∧ (∀ k, (k < instanceCount fr ∨ instanceCount fr + length (liveBlas l) ≤ k)%nat →
       instances (pushAll l fr) !! k = instances fr !! k).
Proof.
  revert fr. induction l as [|a l IH]; intros fr.
  - split; [intros i a [=] | done].
  - rewrite pushAll_cons, liveBlas_cons. destruct (isLive a) eqn:Hl.
    + destruct (pushInstance_fields a fr Hl) as (Hc & Hli & _ & _).
      destruct (IH (pushInstance a fr)) as [IHa IHb].
      rewrite Hc, Hli in IHa. rewrite Hc in IHb.
      split.
      * intros [|i] a' Hi Hlen.
        -- injection Hi as <-. rewrite Nat.add_0_r in *.
           rewrite IHb by lia.
           rewrite pushInstance_instances by done. by rewrite decide_True.
        -- replace (instanceCount fr + S i)%nat with (S (instanceCount fr) + i)%nat in * by lia.
           rewrite (IHa i a' Hi Hlen).
           rewrite pushInstance_instances by done. rewrite decide_False; [done|lia].
      * intros k Hk. rewrite IHb by (simpl in Hk; lia).
        rewrite pushInstance_instances by done. rewrite decide_False; [done|].
        simpl in Hk. lia.
    + rewrite (pushInstance_dead a fr Hl). apply IH.
Qed.


End OffsetTable.


(** ** The structure lists of a new manager *)

Section NewManager.

Context `{FT : FilterTypeDecls} `{PF : Platform}.

(** The constructor creates eight static structures and four dynamic
    structures per frame slot, none of them live. *)
Lemma ASManager_new_structures :
  filter <$> allStaticBlas ASManager_new
    = [Z.lor CF_STATIC_NON_MOVABLE PT_OPAQUE; Z.lor CF_STATIC_NON_MOVABLE PT_ALPHA_TESTED;
       Z.lor CF_STATIC_NON_MOVABLE PT_BLEND_ADDITIVE; Z.lor CF_STATIC_NON_MOVABLE PT_BLEND_UNDER;
       Z.lor CF_STATIC_MOVABLE PT_OPAQUE; Z.lor CF_STATIC_MOVABLE PT_ALPHA_TESTED;
       Z.lor CF_STATIC_MOVABLE PT_BLEND_ADDITIVE; Z.lor CF_STATIC_MOVABLE PT_BLEND_UNDER]
  ∧ (∀ frameIndex, (frameIndex < MAX_FRAMES_IN_FLIGHT)%nat →
       filter <$> dynamicBlasOf ASManager_new frameIndex
         = [Z.lor CF_DYNAMIC PT_OPAQUE; Z.lor CF_DYNAMIC PT_ALPHA_TESTED;
            Z.lor CF_DYNAMIC PT_BLEND_ADDITIVE; Z.lor CF_DYNAMIC PT_BLEND_UNDER])
  ∧ (∀ frameIndex,
       liveBlas (allStaticBlas ASManager_new ++ dynamicBlasOf ASManager_new frameIndex) = []).
Proof.
  destruct flagBit_member as (M1 & M2 & M3 & M4 & M5 & M6 & M7).
  flag_bits_distinct.
  assert (Hst : List.filter (λ f, negb (hasAny f CF_DYNAMIC)) allFilters
                = [Z.lor CF_STATIC_NON_MOVABLE PT_OPAQUE; Z.lor CF_STATIC_NON_MOVABLE PT_ALPHA_TESTED;
                   Z.lor CF_STATIC_NON_MOVABLE PT_BLEND_ADDITIVE; Z.lor CF_STATIC_NON_MOVABLE PT_BLEND_UNDER;
                   Z.lor CF_STATIC_MOVABLE PT_OPAQUE; Z.lor CF_STATIC_MOVABLE PT_ALPHA_TESTED;
                   Z.lor CF_STATIC_MOVABLE PT_BLEND_ADDITIVE; Z.lor CF_STATIC_MOVABLE PT_BLEND_UNDER]).
  { unfold allFilters, VertexCollectorFilterGroup_ChangeFrequency,
      VertexCollectorFilterGroup_PassThrough.
    cbn [mbind list_bind app List.filter].
    rewrite !hasAny_tag by done. settle_bool_decide. done. }
  assert (Hdy : List.filter (λ f, hasAny f CF_DYNAMIC) allFilters
                = [Z.lor CF_DYNAMIC PT_OPAQUE; Z.lor CF_DYNAMIC PT_ALPHA_TESTED;
                   Z.lor CF_DYNAMIC PT_BLEND_ADDITIVE; Z.lor CF_DYNAMIC PT_BLEND_UNDER]).
  { unfold allFilters, VertexCollectorFilterGroup_ChangeFrequency,
      VertexCollectorFilterGroup_PassThrough.
    cbn [mbind list_bind app List.filter].
    rewrite !hasAny_tag by done. settle_bool_decide. done. }
  unfold ASManager_new, dynamicBlasOf. cbn [allStaticBlas allDynamicBlas].
  rewrite Hst, Hdy. split; [done|]. split.
  - intros [|[|?]] Hf; [done | done |]. unfold MAX_FRAMES_IN_FLIGHT in Hf. lia.
  - intros [|[|?]]; done.
Qed.

End NewManager.

(** ** The states the public interface leads to *)

Section ReachableStates.

Context `{FT : FilterTypeDecls} `{PF : Platform}.

Lemma bind_Ok {S A B} (c : M S A) (k : A → M S B) (s s' : S) (b : B) :
  (c ≫= k) s = Ok b s' → ∃ a s1, c s = Ok a s1 ∧ k a s1 = Ok b s'.
Proof.
  unfold mbind, M_bind. destruct (c s) as [a s1|]; [|done]. eauto.
Qed.

Lemma assert_Ok {S} ndebug (b : bool) (s s' : S) (u : unit) :
  assert ndebug b s = Ok u s' → s' = s.
Proof. unfold assert. destruct (ndebug || b); [by intros [= _ <-] | done]. Qed.

(** A loop returns what its body returns, element by element. *)
Lemma mapM_inv {S A B} (f : A → M S B) (P : S → S → Prop) (Q : A → B → Prop)
    (l : list A) (l' : list B) (s s' : S) :
  (∀ s, P s s) → (∀ s1 s2 s3, P s1 s2 → P s2 s3 → P s1 s3) →
  (∀ a b s s', f a s = Ok b s' → Q a b ∧ P s s') →
  mapM f l s = Ok l' s' → Forall2 Q l l' ∧ P s s'.
Proof.
  intros Hrefl Htrans Hf. revert l' s. induction l as [|a l IH]; intros l' s.
  - intros [= <- <-]. split; [constructor | apply Hrefl].
  - rewrite mapM_cons. destruct (f a s) as [b s1|] eqn:Ha; [|done].
    destruct (mapM f l s1) as [k s2|] eqn:Hl; [|done].
    intros [= <- <-]. destruct (Hf _ _ _ _ Ha) as [HQ HP].
    destruct (IH _ _ Hl) as [HQs HPs]. split; [by constructor | eauto].
Qed.

Lemma keepsLists_refl (m : ASManager) : keepsLists m m.
Proof. done. Qed.

Lemma keepsLists_trans (m1 m2 m3 : ASManager) :
  keepsLists m1 m2 → keepsLists m2 m3 → keepsLists m1 m3.
Proof. unfold keepsLists. intros [-> ->] [-> ->]. done. Qed.


Lemma SetupBLAS_inv (a a' : AccelerationStructure) (c : VertexCollector)
    (m m' : ASManager) :
  SetupBLAS a c m = Ok a' m' → filter a' = filter a ∧ keepsLists m m'.
Proof.
  destruct (hasGeometry c a) eqn:Hg.
  - destruct (needsNewBuffer c a) eqn:Hn.
    + destruct (SetupBLAS_replace a c m Hg Hn) as (m1 & -> & Hsame & _).
      intros [= <- <-]. destruct Hsame as (? & ? & _). done.
    + destruct (SetupBLAS_keep a c m Hg Hn) as (m1 & -> & Hsame & _).
      intros [= <- <-]. destruct Hsame as (? & ? & _). done.
  - rewrite (SetupBLAS_empty a c m Hg). by intros [= <- <-].
Qed.



















Lemma inv_set_allStaticBlas (l : list AccelerationStructure) (m : ASManager) :
  map filter l = map filter (allStaticBlas m) → structuresAsNew m →
  structuresAsNew (set_allStaticBlas l m).
Proof.
  unfold structuresAsNew, structureFilters.
  cbn [set_allStaticBlas allStaticBlas allDynamicBlas].
  by intros ->.
Qed.

Lemma inv_set_allDynamicBlas (i : nat) (l : list AccelerationStructure) (m : ASManager) :
  map filter l = map filter (dynamicBlasOf m i) → structuresAsNew m →
  structuresAsNew (set_allDynamicBlas (<[i := l]> (allDynamicBlas m)) m).
Proof.
  unfold structuresAsNew, structureFilters, dynamicBlasOf.
  cbn [set_allDynamicBlas allStaticBlas allDynamicBlas].
  intros Hl <-. f_equal.
  change (map (map filter) ?x) with (map filter <$> x).
  rewrite list_fmap_insert.
  destruct (allDynamicBlas m !! i) as [d|] eqn:Hd.
  - cbn [default] in Hl. rewrite Hl. apply list_insert_id.
    by rewrite list_lookup_fmap, Hd.
  - apply lookup_ge_None in Hd. apply list_insert_ge. by rewrite length_fmap.
Qed.

Lemma inv_allStaticBlas (m : ASManager) :
  structuresAsNew m →
  map filter (allStaticBlas m) = map filter (allStaticBlas ASManager_new).
Proof. unfold structuresAsNew, structureFilters. by intros [= -> _]. Qed.

Lemma filters_dynamicBlasOf (m1 m2 : ASManager) (i : nat) :
  map (map filter) (allDynamicBlas m1) = map (map filter) (allDynamicBlas m2) →
  map filter (dynamicBlasOf m1 i) = map filter (dynamicBlasOf m2 i).
Proof.
  unfold dynamicBlasOf. intros H.
  change (map (map filter) ?x) with (map filter <$> x) in H.
  apply (f_equal (λ l, l !! i)) in H. rewrite !list_lookup_fmap in H.
  destruct (allDynamicBlas m1 !! i), (allDynamicBlas m2 !! i);
    cbn in H; cbn [default]; by simplify_eq.
Qed.

Lemma inv_dynamicBlasOf (m : ASManager) (i : nat) :
  structuresAsNew m →
  map filter (dynamicBlasOf m i) = map filter (dynamicBlasOf ASManager_new i).
Proof.
  unfold structuresAsNew, structureFilters. intros [= _ H]. by apply filters_dynamicBlasOf.
Qed.

















Lemma dynamicBlasOf_new (frameIndex : nat) :
  dynamicBlasOf ASManager_new frameIndex = []
  ∨ filter <$> dynamicBlasOf ASManager_new frameIndex
    = [Z.lor CF_DYNAMIC PT_OPAQUE; Z.lor CF_DYNAMIC PT_ALPHA_TESTED;
       Z.lor CF_DYNAMIC PT_BLEND_ADDITIVE; Z.lor CF_DYNAMIC PT_BLEND_UNDER].
Proof.
  destruct (decide (frameIndex < MAX_FRAMES_IN_FLIGHT)%nat) as [Hlt|Hge].
  - right. by apply ASManager_new_structures.
  - left. unfold dynamicBlasOf, ASManager_new. cbn [allDynamicBlas].
    destruct (replicate _ _ !! frameIndex) eqn:E; [|done].
    apply lookup_replicate in E as [_ ?]. done.
Qed.



End ReachableStates.

(** ** The instance count of [TryBuildTLAS] *)

Section InstanceCount.

Context `{FT : FilterTypeDecls} `{PF : Platform}.



End InstanceCount.

(** The example manager with two static groups is a state the public
    interface leads to. *)
Lemma twoStaticGroups_reachable :
  @reachable exampleDecls examplePlatform false twoStaticGroups.
Proof.
  pose (e := exampleDecls). pose (p := examplePlatform).
  pose (i1 := exampleInfo RG_GEOMETRY_TYPE_STATIC RG_GEOMETRY_PASS_THROUGH_TYPE_OPAQUE).
  pose (i2 := exampleInfo RG_GEOMETRY_TYPE_STATIC
                RG_GEOMETRY_PASS_THROUGH_TYPE_ALPHA_TESTED).
  pose (m1 := run (@perform e p false CallBeginStaticGeometry) (@ASManager_new e p)).
  pose (m2 := run (@perform e p false (CallAddStaticGeometry i1)) m1).
  pose (m3 := run (@perform e p false (CallAddStaticGeometry i2)) m2).
  assert (R1 : @reachable e p false m1).
  { apply (reachable_call false (@ASManager_new e p) m1 CallBeginStaticGeometry);
      [apply reachable_new | vm_compute; reflexivity]. }
  assert (R2 : @reachable e p false m2).
  { apply (reachable_call false m1 m2 (CallAddStaticGeometry i1));
      [exact R1 | vm_compute; reflexivity]. }
  assert (R3 : @reachable e p false m3).
  { apply (reachable_call false m2 m3 (CallAddStaticGeometry i2));
      [exact R2 | vm_compute; reflexivity]. }
  apply (reachable_call false m3 twoStaticGroups CallSubmitStaticGeometry);
    [exact R3 | vm_compute; reflexivity].
Qed.

(** The example manager after its static collector was reset is a state the
    public interface leads to. *)
Lemma twoStaticGroupsReset_reachable :
  @reachable exampleDecls examplePlatform false twoStaticGroupsReset.
Proof.
  apply (reachable_call false twoStaticGroups twoStaticGroupsReset CallBeginStaticGeometry);
    [exact twoStaticGroups_reachable | vm_compute; reflexivity].
Qed.

(** C4, as stated, fails.  After two static geometries were submitted and the
    collector was reset, a second [SubmitStaticGeometry], with no geometry
    added since the first and no static geometry in the collector, takes
    the skip path and destroys the two live static structures: their
    handles and buffers do not stay as they were. *)
Lemma SubmitStaticGeometry_second_call_counterexample :
  @reachable exampleDecls examplePlatform false twoStaticGroupsReset
  ∧ @AreGeometriesEmpty examplePlatform (collectorStatic twoStaticGroupsReset)
      (@staticFlags exampleDecls) = true
  ∧ as_ <$> allStaticBlas twoStaticGroupsReset = [2; 4; 0; 0; 0; 0; 0; 0]
  ∧ ∃ m1,
      @SubmitStaticGeometry exampleDecls examplePlatform false twoStaticGroupsReset
        = Ok tt m1
      ∧ as_ <$> allStaticBlas m1 = [0; 0; 0; 0; 0; 0; 0; 0]
      ∧ allStaticBlas m1 ≠ allStaticBlas twoStaticGroupsReset
      ∧ trace m1 = trace twoStaticGroupsReset
                   ++ [EvBufferDestroy 1; EvDestroyAccelerationStructure 2;
                       EvBufferDestroy 3; EvDestroyAccelerationStructure 4].
Proof.
  split; [exact twoStaticGroupsReset_reachable|].
  split; [vm_compute; reflexivity|]. split; [vm_compute; reflexivity|].
  eexists. split; [vm_compute; reflexivity|].
  split; [vm_compute; reflexivity|]. split; [vm_compute; discriminate|].
  vm_compute. reflexivity.
Qed.

(** ** Vertex writes and fetches *)

Section VertexWrites.

Context `{SM : ShaderMath}.

Import VertexData VertexDataWriteable.

Lemma u_add_small (a k : Z) : 0 ≤ a → 0 ≤ k → a + k < 2 ^ 32 → u_add a k = a + k.
Proof. intros. unfold u_add, to_uint32. apply Z.mod_small. lia. Qed.

Lemma u_mul_small (a k : Z) : 0 ≤ a → 0 ≤ k → a * k < 2 ^ 32 → u_mul a k = a * k.
Proof. intros. unfold u_mul, to_uint32. apply Z.mod_small. nia. Qed.

Lemma store_within (len : Z) (buf : Z → float) (addr : Z) (v : float) :
  0 ≤ addr < len →
  store len buf addr v = Some (λ k, if k =? addr then v else buf k).
Proof.
  intros [H0 H1]. unfold store.
  apply Z.leb_le in H0. apply Z.ltb_lt in H1. by rewrite H0, H1.
Qed.

(** A [vec3] store within the array: the three elements hold the value,
    every other element is as it was. *)
Lemma store3_within (len : Z) (buf : Z → float) (index stride : Z) (value : vec3) :
  len ≤ 2 ^ 32 → withinArray len stride 3 index →
  ∃ buf', store3 len buf index stride value = Some buf'
    ∧ buf' (index * stride) = value.1.1
    ∧ buf' (index * stride + 1) = value.1.2
    ∧ buf' (index * stride + 2) = value.2
    ∧ ∀ k, ¬ (index * stride ≤ k < index * stride + 3) → buf' k = buf k.
Proof.
  intros Hlen (Hi & Hs & Hw). unfold store3.
  rewrite u_mul_small by nia. rewrite !u_add_small by nia.
  rewrite store_within by nia. cbn [mbind option_bind].
  rewrite store_within by nia. cbn [mbind option_bind].
  rewrite store_within by nia.
  eexists. split; [reflexivity|]. cbv beta.
  rewrite Z.add_0_r.
  repeat split.
  - rewrite (proj2 (Z.eqb_neq _ _)) by lia. rewrite (proj2 (Z.eqb_neq _ _)) by lia.
    by rewrite Z.eqb_refl.
  - rewrite (proj2 (Z.eqb_neq _ _)) by lia. by rewrite Z.eqb_refl.
  - by rewrite Z.eqb_refl.
  - intros k Hk. rewrite !(proj2 (Z.eqb_neq _ _)) by lia. done.
Qed.

Lemma store2_within (len : Z) (buf : Z → float) (index stride : Z) (value : vec2) :
  len ≤ 2 ^ 32 → withinArray len stride 2 index →
  ∃ buf', store2 len buf index stride value = Some buf'
    ∧ buf' (index * stride) = value.1
    ∧ buf' (index * stride + 1) = value.2
    ∧ ∀ k, ¬ (index * stride ≤ k < index * stride + 2) → buf' k = buf k.
Proof.
  intros Hlen (Hi & Hs & Hw). unfold store2.
  rewrite u_mul_small by nia. rewrite !u_add_small by nia.
  rewrite store_within by nia. cbn [mbind option_bind].
  rewrite store_within by nia.
  eexists. split; [reflexivity|]. cbv beta.
  rewrite Z.add_0_r.
  repeat split.
  - rewrite (proj2 (Z.eqb_neq _ _)) by lia. by rewrite Z.eqb_refl.
  - by rewrite Z.eqb_refl.
  - intros k Hk. rewrite !(proj2 (Z.eqb_neq _ _)) by lia. done.
Qed.

Lemma fetch3_within (len : Z) (buf : Z → float) (index stride : Z) :
  len ≤ 2 ^ 32 → withinArray len stride 3 index →
  fetch3 buf index stride
  = (buf (index * stride), buf (index * stride + 1), buf (index * stride + 2)).
Proof.
  intros Hlen (Hi & Hs & Hw). unfold fetch3.
  rewrite u_mul_small by nia. rewrite !u_add_small by nia.
  by rewrite Z.add_0_r.
Qed.

Lemma fetch2_within (len : Z) (buf : Z → float) (index stride : Z) :
  len ≤ 2 ^ 32 → withinArray len stride 2 index →
  fetch2 buf index stride = (buf (index * stride), buf (index * stride + 1)).
Proof.
  intros Hlen (Hi & Hs & Hw). unfold fetch2.
  rewrite u_mul_small by nia. rewrite !u_add_small by nia.
  by rewrite Z.add_0_r.
Qed.

Lemma store3_fetch3 (len : Z) (buf : Z → float) (i j stride : Z) (value : vec3) :
  len ≤ 2 ^ 32 → withinArray len stride 3 i →
  ∃ buf', store3 len buf i stride value = Some buf'
    ∧ fetch3 buf' i stride = value
    ∧ (3 ≤ stride → i ≠ j → withinArray len stride 3 j →
       fetch3 buf' j stride = fetch3 buf j stride).
Proof.
  intros Hlen Hi.
  destruct (store3_within len buf i stride value Hlen Hi) as (buf' & -> & H0 & H1 & H2 & Ho).
  exists buf'. split; [done|]. split.
  - rewrite (fetch3_within len) by done. rewrite H0, H1, H2. by destruct value as [[] ?].
  - intros Hs Hne Hj. rewrite !(fetch3_within len) by done.
    destruct Hi as (? & ? & ?), Hj as (? & ? & ?).
    rewrite !Ho by nia. done.
Qed.

Lemma store2_fetch2 (len : Z) (buf : Z → float) (i j stride : Z) (value : vec2) :
  len ≤ 2 ^ 32 → withinArray len stride 2 i →
  ∃ buf', store2 len buf i stride value = Some buf'
    ∧ fetch2 buf' i stride = value
    ∧ (2 ≤ stride → i ≠ j → withinArray len stride 2 j →
       fetch2 buf' j stride = fetch2 buf j stride).
Proof.
  intros Hlen Hi.
  destruct (store2_within len buf i stride value Hlen Hi) as (buf' & -> & H0 & H1 & Ho).
  exists buf'. split; [done|]. split.
  - rewrite (fetch2_within len) by done. rewrite H0, H1. by destruct value.
  - intros Hs Hne Hj. rewrite !(fetch2_within len) by done.
    destruct Hi as (? & ? & ?), Hj as (? & ? & ?).
    rewrite !Ho by nia. done.
Qed.

Ltac array_length :=
  unfold ShVertexBufferStatic_positions_length, ShVertexBufferStatic_normals_length,
    ShVertexBufferStatic_texCoords_length, ShVertexBufferStatic_texCoordsLayer1_length,
    ShVertexBufferStatic_texCoordsLayer2_length, ShVertexBufferDynamic_positions_length,
    ShVertexBufferDynamic_normals_length, ShVertexBufferDynamic_texCoords_length; lia.

Ltac setter_step lemma j :=
  match goal with
  | |- context [?store ?len ?buf ?i ?stride ?value] =>
      let H := fresh in
      destruct (lemma len buf i j stride value) as (? & H & ? & ?);
      [array_length | done | rewrite H; cbn [mbind option_bind]]
  end.

(** X1.  Writing an attribute of a vertex whose elements lie within the array
    and reading it back at the same index gives the value written, whatever
    the stride. *)
Theorem set_then_get_vertex (b : Bindings) (t : TexCoords) (index : Z)
    (v3 : vec3) (v2 : vec2) :
  (withinArray ShVertexBufferStatic_positions_length (positionsStride b) 3 index →
     ∃ b', setStaticVerticesPositions index v3 b = Some b'
       ∧ getStaticVerticesPositions b' index = v3)
  ∧ (withinArray ShVertexBufferStatic_normals_length (normalsStride b) 3 index →
     ∃ b', setStaticVerticesNormals index v3 b = Some b'
       ∧ getStaticVerticesNormals b' index = v3)
  ∧ (withinArray ShVertexBufferDynamic_positions_length (positionsStride b) 3 index →
     ∃ b', setDynamicVerticesPositions index v3 b = Some b'
       ∧ getDynamicVerticesPositions b' index = v3)
  ∧ (withinArray ShVertexBufferDynamic_normals_length (normalsStride b) 3 index →
     ∃ b', setDynamicVerticesNormals index v3 b = Some b'
       ∧ getDynamicVerticesNormals b' index = v3)
  ∧ (withinArray ShVertexBufferStatic_texCoords_length (texCoordsStride t) 2 index →
     ∃ t', setStaticVerticesTexCoords index v2 t = Some t'
       ∧ getStaticVerticesTexCoords t' index = v2)
  ∧ (withinArray ShVertexBufferStatic_texCoordsLayer1_length (texCoordsStride t) 2 index →
     ∃ t', setStaticVerticesTexCoordsLayer1 index v2 t = Some t'
       ∧ getStaticVerticesTexCoordsLayer1 t' index = v2)
  ∧ (withinArray ShVertexBufferStatic_texCoordsLayer2_length (texCoordsStride t) 2 index →
     ∃ t', setStaticVerticesTexCoordsLayer2 index v2 t = Some t'
       ∧ getStaticVerticesTexCoordsLayer2 t' index = v2)
  ∧ (withinArray ShVertexBufferDynamic_texCoords_length (texCoordsStride t) 2 index →
     ∃ t', setDynamicVerticesTexCoords index v2 t = Some t'
       ∧ getDynamicVerticesTexCoords t' index = v2).
Proof.
  unfold setStaticVerticesPositions, setStaticVerticesNormals, setDynamicVerticesPositions,
    setDynamicVerticesNormals, setStaticVerticesTexCoords, setStaticVerticesTexCoordsLayer1,
    setStaticVerticesTexCoordsLayer2, setDynamicVerticesTexCoords.
  repeat split; intros Hw;
    first [ setter_step store3_fetch3 index | setter_step store2_fetch2 index ];
    eexists; (split; [reflexivity | assumption]).
Qed.

(** X2.  With a stride of at least the width of the attribute, writing an
    attribute of vertex [i] leaves the attribute of every other vertex [j] as
    it was, both vertices lying within the array. *)
Theorem set_vertex_leaves_other_vertices (b : Bindings) (t : TexCoords) (i j : Z)
    (v3 : vec3) (v2 : vec2) :
  i ≠ j →
  (3 ≤ positionsStride b →
   withinArray ShVertexBufferStatic_positions_length (positionsStride b) 3 i →
   withinArray ShVertexBufferStatic_positions_length (positionsStride b) 3 j →
     ∃ b', setStaticVerticesPositions i v3 b = Some b'
       ∧ getStaticVerticesPositions b' j = getStaticVerticesPositions b j)
  ∧ (3 ≤ normalsStride b →
     withinArray ShVertexBufferStatic_normals_length (normalsStride b) 3 i →
     withinArray ShVertexBufferStatic_normals_length (normalsStride b) 3 j →
     ∃ b', setStaticVerticesNormals i v3 b = Some b'
       ∧ getStaticVerticesNormals b' j = getStaticVerticesNormals b j)
  ∧ (3 ≤ positionsStride b →
     withinArray ShVertexBufferDynamic_positions_length (positionsStride b) 3 i →
     withinArray ShVertexBufferDynamic_positions_length (positionsStride b) 3 j →
     ∃ b', setDynamicVerticesPositions i v3 b = Some b'
       ∧ getDynamicVerticesPositions b' j = getDynamicVerticesPositions b j)
  ∧ (3 ≤ normalsStride b →
     withinArray ShVertexBufferDynamic_normals_length (normalsStride b) 3 i →
     withinArray ShVertexBufferDynamic_normals_length (normalsStride b) 3 j →
     ∃ b', setDynamicVerticesNormals i v3 b = Some b'
       ∧ getDynamicVerticesNormals b' j = getDynamicVerticesNormals b j)
  ∧ (2 ≤ texCoordsStride t →
     withinArray ShVertexBufferStatic_texCoords_length (texCoordsStride t) 2 i →
     withinArray ShVertexBufferStatic_texCoords_length (texCoordsStride t) 2 j →
     ∃ t', setStaticVerticesTexCoords i v2 t = Some t'
       ∧ getStaticVerticesTexCoords t' j = getStaticVerticesTexCoords t j)
  ∧ (2 ≤ texCoordsStride t →
     withinArray ShVertexBufferStatic_texCoordsLayer1_length (texCoordsStride t) 2 i →
     withinArray ShVertexBufferStatic_texCoordsLayer1_length (texCoordsStride t) 2 j →
     ∃ t', setStaticVerticesTexCoordsLayer1 i v2 t = Some t'
       ∧ getStaticVerticesTexCoordsLayer1 t' j = getStaticVerticesTexCoordsLayer1 t j)
  ∧ (2 ≤ texCoordsStride t →
     withinArray ShVertexBufferStatic_texCoordsLayer2_length (texCoordsStride t) 2 i →
     withinArray ShVertexBufferStatic_texCoordsLayer2_length (texCoordsStride t) 2 j →
     ∃ t', setStaticVerticesTexCoordsLayer2 i v2 t = Some t'
       ∧ getStaticVerticesTexCoordsLayer2 t' j = getStaticVerticesTexCoordsLayer2 t j)
  ∧ (2 ≤ texCoordsStride t →
     withinArray ShVertexBufferDynamic_texCoords_length (texCoordsStride t) 2 i →
     withinArray ShVertexBufferDynamic_texCoords_length (texCoordsStride t) 2 j →
     ∃ t', setDynamicVerticesTexCoords i v2 t = Some t'
       ∧ getDynamicVerticesTexCoords t' j = getDynamicVerticesTexCoords t j).
Proof.
  intros Hne.
  unfold setStaticVerticesPositions, setStaticVerticesNormals, setDynamicVerticesPositions,
    setDynamicVerticesNormals, setStaticVerticesTexCoords, setStaticVerticesTexCoordsLayer1,
    setStaticVerticesTexCoordsLayer2, setDynamicVerticesTexCoords.
  repeat split; intros Hs Hi Hj;
    first [ setter_step store3_fetch3 j | setter_step store2_fetch2 j ];
    eexists; (split; [reflexivity | auto]).
Qed.

Lemma fetch3_agree (len : Z) (f g : Z → float) (index stride : Z) :
  agreeWithin len f g → 0 ≤ index → 0 ≤ stride → index * stride + 3 ≤ len →
  len ≤ 2 ^ 32 →
  fetch3 f index stride = fetch3 g index stride.
Proof.
  intros Hag Hi Hs Hlen Hl. unfold fetch3.
  rewrite !u_mul_small by nia. rewrite !u_add_small by nia.
  rewrite !Hag by nia. done.
Qed.

(** X3.  With strides of at most three floats, the position and the normal of a
    vertex below the maximum vertex count are read from inside the arrays of
    the vertex buffers: the result is the same for any two buffers that
    agree on the elements of the arrays. *)
Theorem vertex_fetch_within_arrays (b b' : Bindings) (index : Z) :
  positionsStride b' = positionsStride b → normalsStride b' = normalsStride b →
  0 ≤ positionsStride b ≤ 3 → 0 ≤ normalsStride b ≤ 3 →
  (0 ≤ index < MAX_STATIC_VERTEX_COUNT →
     (agreeWithin ShVertexBufferStatic_positions_length
        (staticVertices_positions b) (staticVertices_positions b') →
      getStaticVerticesPositions b index = getStaticVerticesPositions b' index)
     ∧ (agreeWithin ShVertexBufferStatic_normals_length
          (staticVertices_normals b) (staticVertices_normals b') →
        getStaticVerticesNormals b index = getStaticVerticesNormals b' index))
  ∧ (0 ≤ index < MAX_DYNAMIC_VERTEX_COUNT →
     (agreeWithin ShVertexBufferDynamic_positions_length
        (dynamicVertices_positions b) (dynamicVertices_positions b') →
      getDynamicVerticesPositions b index = getDynamicVerticesPositions b' index)
     ∧ (agreeWithin ShVertexBufferDynamic_normals_length
          (dynamicVertices_normals b) (dynamicVertices_normals b') →
        getDynamicVerticesNormals b index = getDynamicVerticesNormals b' index)).
Proof.
  intros Hp Hn Hps Hns.
  unfold getStaticVerticesPositions, getStaticVerticesNormals,
    getDynamicVerticesPositions, getDynamicVerticesNormals.
  rewrite Hp, Hn.
  unfold MAX_STATIC_VERTEX_COUNT, MAX_DYNAMIC_VERTEX_COUNT,
    ShVertexBufferStatic_positions_length, ShVertexBufferStatic_normals_length,
    ShVertexBufferDynamic_positions_length, ShVertexBufferDynamic_normals_length.
  repeat split; intros Hag; eapply fetch3_agree; try exact Hag; nia.
Qed.

End VertexWrites.

Section TriangleFetches.

Context `{SM : ShaderMath}.

Import VertexData.

(** X4.  The positions [getTriangle] returns are those of [getOnlyCurPositions]
    and its previous positions those of [getOnlyPrevPositions], for the
    geometry [getGeometryIndex] finds. *)
Theorem getTriangle_positions_agree (b : Bindings)
    (instanceID instanceCustomIndex localGeometryIndex primitiveId : Z) :
  let tr := getTriangle b instanceID instanceCustomIndex localGeometryIndex primitiveId in
  let g := getGeometryIndex b instanceID localGeometryIndex in
  positions tr = getOnlyCurPositions b g instanceCustomIndex primitiveId
  ∧ prevPositions tr = getOnlyPrevPositions b g instanceCustomIndex primitiveId.
Proof.
  cbv zeta. unfold getTriangle, getOnlyCurPositions, getOnlyPrevPositions.
  cbv zeta.
  destruct (isDynamicIndex instanceCustomIndex); cbn [positions prevPositions fst snd].
  - split; [done|]. by destruct (negb (_ =? _)).
  - split; [done|]. by destruct (_ && _).
Qed.

(** X5.  Without an index buffer the three vertices of a primitive are the
    consecutive vertices [base + 3 * primitiveId ..], read from no index
    buffer, and two different primitives share no vertex. *)
Theorem vertIndices_without_index_buffer (indices indices' : Z → Z)
    (baseVertexIndex p q : Z) :
  0 ≤ baseVertexIndex → 0 ≤ p → p < q → baseVertexIndex + 3 * q + 2 < 2 ^ 32 →
  let vp := vertIndices indices baseVertexIndex UINT32_MAX p in
  let vq := vertIndices indices baseVertexIndex UINT32_MAX q in
  vp = (baseVertexIndex + 3 * p, baseVertexIndex + 3 * p + 1, baseVertexIndex + 3 * p + 2)
  ∧ vertIndices indices' baseVertexIndex UINT32_MAX p = vp
  ∧ vp.2 < vq.1.1.
Proof.
  intros Hb Hp Hq Hlim. cbv zeta. unfold vertIndices.
  rewrite Z.eqb_refl. cbn [negb fst snd].
  rewrite !u_mul_small by lia.
  rewrite !(u_add_small baseVertexIndex) by lia. rewrite !u_add_small by lia.
  split; [f_equal; [f_equal|]; lia|]. split; [done|]. lia.
Qed.

End TriangleFetches.

(** ** The objects the manager owns *)

Section TripleRules.

Context {S : Type}.

Lemma triple_bind {A B} t (P : S → Prop) (c : M S A) (k : A → M S B) Q R :
  triple t P c Q → (∀ a, triple t (Q a) (k a) R) → triple t P (c ≫= k) R.
Proof.
  intros Hc Hk s HP. specialize (Hc s HP). unfold mbind, M_bind.
  destruct (c s) as [a s1|]; [|done]. exact (Hk a s1 Hc).
Qed.

Lemma triple_ret {A} t (P : S → Prop) (a : A) (Q : A → S → Prop) :
  (∀ s, P s → Q a s) → triple t P (mret a) Q.
Proof. intros H s HP. apply H, HP. Qed.

Lemma triple_get t (P : S → Prop) (Q : S → S → Prop) :
  (∀ s, P s → Q s s) → triple t P get Q.
Proof. intros H s HP. apply H, HP. Qed.

Lemma triple_gets {A} t (P : S → Prop) (f : S → A) (Q : A → S → Prop) :
  (∀ s, P s → Q (f s) s) → triple t P (gets f) Q.
Proof. intros H s HP. apply H, HP. Qed.

Lemma triple_modify t (P : S → Prop) (f : S → S) (Q : unit → S → Prop) :
  (∀ s, P s → Q tt (f s)) → triple t P (modify f) Q.
Proof. intros H s HP. apply H, HP. Qed.

(** An assertion: it has to hold for the run to return whatever the build,
    and it holds afterwards in a build with assertions. *)
Lemma triple_assert t (P : S → Prop) ndebug (b : bool) (Q : unit → S → Prop) :
  (t = true → ∀ s, P s → ndebug || b = true) →
  (∀ s, P s → ndebug || b = true → Q tt s) →
  triple t P (assert ndebug b) Q.
Proof.
  intros Hb HQ s HP. unfold assert.
  destruct (ndebug || b) eqn:E.
  - by apply HQ.
  - destruct t; [|reflexivity]. specialize (Hb eq_refl s HP). congruence.
Qed.

Lemma triple_conseq {A} t (P P' : S → Prop) (c : M S A) (Q Q' : A → S → Prop) :
  triple t P' c Q' → (∀ s, P s → P' s) → (∀ a s, Q' a s → Q a s) → triple t P c Q.
Proof.
  intros Hc HP HQ s Hs. specialize (Hc s (HP s Hs)).
  destruct (c s); [by apply HQ | done].
Qed.

Lemma triple_partial {A} t (P : S → Prop) (c : M S A) (Q : A → S → Prop) :
  triple t P c Q → triple false P c Q.
Proof. intros Hc s Hs. specialize (Hc s Hs). by destruct (c s). Qed.

Lemma triple_run {A} t (P : S → Prop) (c : M S A) (Q : A → S → Prop) s a s' :
  triple t P c Q → P s → c s = Ok a s' → Q a s'.
Proof. intros Hc Hs Hrun. specialize (Hc s Hs). by rewrite Hrun in Hc. Qed.

(** A loop that collects results: [I todo done] holds before the element
    at the head of [todo] is visited, [done] being the results so far. *)
Lemma triple_mapM {A B} t (I : list A → list B → S → Prop) (f : A → M S B) (l : list A) :
  (∀ a todo done, triple t (I (a :: todo) done) (f a) (λ b s, I todo (done ++ [b]) s)) →
  triple t (I l []) (mapM f l) (λ l' s, I [] l' s).
Proof.
  intros Hf.
  assert (H : ∀ todo done,
            triple t (I todo done) (mapM f todo) (λ l' s, I [] (done ++ l') s)).
  { induction todo as [|a todo IH]; intros done s Hs.
    - cbn. by rewrite app_nil_r.
    - rewrite mapM_cons. specialize (Hf a todo done s Hs).
      destruct (f a s) as [b s1|]; [|done].
      specialize (IH (done ++ [b]) s1 Hf).
      destruct (mapM f todo s1) as [k s2|]; [|done].
      by rewrite <- app_assoc in IH. }
  exact (H l []).
Qed.

End TripleRules.

Section ResourceLemmas.

Context `{FT : FilterTypeDecls} `{PF : Platform}.

Lemma created_app (es1 es2 : list Event) :
  created (es1 ++ es2) = created es1 ⊎ created es2.
Proof. unfold created. by rewrite bind_app, list_to_set_disj_app. Qed.

Lemma destroyed_app (es1 es2 : list Event) :
  destroyed (es1 ++ es2) = destroyed es1 ⊎ destroyed es2.
Proof. unfold destroyed. by rewrite bind_app, list_to_set_disj_app. Qed.

Lemma heldBy_app (l1 l2 : list AccelerationStructure) :
  heldBy (l1 ++ l2) = heldBy l1 ⊎ heldBy l2.
Proof. unfold heldBy. by rewrite bind_app, list_to_set_disj_app. Qed.

Lemma heldBy_cons (a : AccelerationStructure) (l : list AccelerationStructure) :
  heldBy (a :: l) = heldBy [a] ⊎ heldBy l.
Proof. apply (heldBy_app [a] l). Qed.

Lemma heldBy_nil : heldBy [] = ∅.
Proof. done. Qed.

Lemma held_null (f : Z) : held (nullAS f) = [].
Proof. done. Qed.

Lemma heldBy_null (f : Z) : heldBy [nullAS f] = ∅.
Proof. done. Qed.

Lemma created_destroyEvents (a : AccelerationStructure) : created (destroyEvents a) = ∅.
Proof.
  unfold created, destroyEvents.
  destruct (buffer a), (as_ a =? VK_NULL_HANDLE); reflexivity.
Qed.

Lemma destroyed_destroyEvents (a : AccelerationStructure) :
  destroyed (destroyEvents a) = heldBy [a].
Proof.
  unfold destroyed, heldBy, destroyEvents. cbn [mbind list_bind]. rewrite app_nil_r.
  unfold held.
  destruct (buffer a), (as_ a =? VK_NULL_HANDLE); reflexivity.
Qed.

End ResourceLemmas.

Section ElementSteps.

Context `{FT : FilterTypeDecls} `{PF : Platform}.

Lemma handlesFresh_step (m m' : ASManager) (rs : gmultiset Resource) :
  created (trace m') = created (trace m) ⊎ rs →
  nextHandle m ≤ nextHandle m' →
  (∀ r, (multiplicity r rs ≤ 1)%nat ∧ (r ∈ rs → nextHandle m ≤ handleOf r < nextHandle m')) →
  handlesFresh m → handlesFresh m'.
Proof.
  intros Hc Hn Hrs [Hpos Hf]. split; [lia|]. intros r.
  destruct (Hf r) as [Hm Hr]. destruct (Hrs r) as [Hm' Hr'].
  rewrite Hc, multiplicity_disj_union. split.
  - destruct (decide (r ∈ rs)) as [Hin|Hout].
    + assert (r ∉ created (trace m)) as Hnot.
      { intros Hin'. specialize (Hr Hin'). specialize (Hr' Hin). lia. }
      apply not_elem_of_multiplicity in Hnot. lia.
    + apply not_elem_of_multiplicity in Hout. lia.
  - intros [Hin|Hin]%gmultiset_elem_of_disj_union.
    + specialize (Hr Hin). lia.
    + specialize (Hr' Hin). lia.
Qed.

Lemma handlesFresh_same (m m' : ASManager) :
  created (trace m') = created (trace m) → nextHandle m ≤ nextHandle m' →
  handlesFresh m → handlesFresh m'.
Proof.
  intros Hc Hn. apply (handlesFresh_step m m' ∅); [rewrite Hc; multiset_solver | done |].
  intros r. rewrite multiplicity_empty. split; [lia|]. intros H.
  by apply gmultiset_not_elem_of_empty in H.
Qed.

Lemma working_weaken (q : bool) (m0 : ASManager) (X : gmultiset Resource) (m : ASManager) :
  working q m0 X m → working false m0 X m.
Proof.
  intros (Hs & Ht & Hq & Hf & Hb).
  split; [exact Hs|]. split; [exact Ht|]. split; [done|]. split; [exact Hf | exact Hb].
Qed.

(** [DestroyAS] gives up what the structure held and nothing else. *)
Lemma DestroyAS_working (t q : bool) (m0 : ASManager) (Z0 : gmultiset Resource)
    (a : AccelerationStructure) :
  triple t (working q m0 (heldBy [a] ⊎ Z0)) (DestroyAS a)
    (λ a' m, a' = nullAS (filter a) ∧ working q m0 Z0 m).
Proof.
  intros m (Hs & Ht & Hq & Hf & Hb). rewrite DestroyAS_run. split; [done|].
  unfold working, balanced in *. cbn [emitAll set_trace trace asBuilder nextHandle].
  split; [exact Hs|]. split; [exact Ht|]. split; [exact Hq|]. split.
  - eapply (handlesFresh_same m); [|done|done].
    cbn [trace emitAll set_trace]. rewrite created_app, created_destroyEvents. multiset_solver.
  - rewrite created_app, destroyed_app, created_destroyEvents, destroyed_destroyEvents, Hb.
    multiset_solver.
Qed.

Lemma created_pair (h size h' b size' : Z) (top : bool) :
  created [EvBufferInit h size; EvCreateAccelerationStructure h' b size' top]
  = {[+ inl h +]} ⊎ {[+ inr h' +]}.
Proof.
  unfold created. cbn [mbind list_bind createdBy app].
  rewrite !list_to_set_disj_cons, list_to_set_disj_nil. multiset_solver.
Qed.

Lemma destroyed_pair (h size h' b size' : Z) (top : bool) :
  destroyed [EvBufferInit h size; EvCreateAccelerationStructure h' b size' top] = ∅.
Proof. reflexivity. Qed.

Lemma multiplicity_pair (r : Resource) (h : Z) :
  (multiplicity r ({[+ inl h +]} ⊎ {[+ inr (h + 1)%Z +]} : gmultiset Resource) ≤ 1)%nat.
Proof.
  rewrite multiplicity_disj_union, !multiplicity_singleton.
  repeat case_decide; simplify_eq; lia.
Qed.

Lemma elem_of_pair (r : Resource) (h : Z) :
  r ∈ ({[+ inl h +]} ⊎ {[+ inr (h + 1) +]} : gmultiset Resource) → h ≤ handleOf r < h + 2.
Proof.
  intros [Hr|Hr]%gmultiset_elem_of_disj_union;
    apply gmultiset_elem_of_singleton in Hr; subst; simpl; lia.
Qed.

Lemma heldBy_created (h size : Z) (f : Z) :
  0 < h →
  heldBy [{| as_ := h + 1; buffer := Some {| buf_handle := h; buf_size := size |};
             filter := f |}]
  = {[+ inl h +]} ⊎ {[+ inr (h + 1) +]}.
Proof.
  intros Hh. unfold heldBy, held. cbn [mbind list_bind buffer as_ buf_handle].
  destruct (Z.eqb_spec (h + 1) VK_NULL_HANDLE) as [Heq|_].
  { unfold VK_NULL_HANDLE in Heq. lia. }
  cbn [app]. rewrite !list_to_set_disj_cons, list_to_set_disj_nil. multiset_solver.
Qed.

(** [SetupBLAS] either leaves the structure and the device as they are, or
    gives up what the structure held and makes it hold a new buffer and a
    new structure. *)
Lemma SetupBLAS_working (t q : bool) (m0 : ASManager) (Z0 : gmultiset Resource)
    (a : AccelerationStructure) (c : VertexCollector) :
  triple t (λ m, working q m0 (heldBy [a] ⊎ Z0) m ∧ wellFormed a) (SetupBLAS a c)
    (λ a' m, working false m0 (heldBy [a'] ⊎ Z0) m
             ∧ filter a' = filter a ∧ wellFormed a').
Proof.
  intros m ((Hs & Ht & Hq & Hf & Hb) & Hw).
  destruct (hasGeometry c a) eqn:Hg.
  - destruct (needsNewBuffer c a) eqn:Hn.
    + destruct (SetupBLAS_replace a c m Hg Hn) as (m' & -> & Hsame & Hh & Htr & Hbq & Htq).
      destruct Hf as [Hpos Hfr].
      assert (Hheld : heldBy [rebuiltAS c a m]
                      = {[+ inl (nextHandle m) +]} ⊎ {[+ inr (nextHandle m + 1) +]}).
      { by apply heldBy_created. }
      assert (Hc : created (trace m')
                   = created (trace m)
                     ⊎ ({[+ inl (nextHandle m) +]} ⊎ {[+ inr (nextHandle m + 1) +]})).
      { rewrite Htr, !created_app, created_destroyEvents, created_pair.
        clear. multiset_solver. }
      assert (Hd : destroyed (trace m') = destroyed (trace m) ⊎ heldBy [a]).
      { rewrite Htr, !destroyed_app, destroyed_destroyEvents, destroyed_pair.
        clear. multiset_solver. }
      split; [|split; [done|]].
      * unfold working, balanced in *.
        split.
        { unfold sameStructures in *. destruct_and!. repeat split; congruence. }
        split; [congruence|]. split; [done|]. split.
        -- apply (handlesFresh_step m m' _ Hc); [lia| |by split].
           intros r. split; [apply multiplicity_pair|].
           intros Hr%elem_of_pair. lia.
        -- rewrite Hc, Hd, Hheld, Hb. clear. multiset_solver.
      * unfold wellFormed, isLive, rebuiltAS. cbn [as_ buffer IsInitted].
        destruct (Z.eqb_spec (nextHandle m + 1) VK_NULL_HANDLE) as [Heq|_]; [|done].
        unfold VK_NULL_HANDLE in Heq. lia.
    + destruct (SetupBLAS_keep a c m Hg Hn) as (m' & -> & Hsame & Hh & Htr & Hbq & Htq).
      split; [|done].
      unfold working, balanced in *.
      split.
      { unfold sameStructures in *. destruct_and!. repeat split; congruence. }
      split; [congruence|]. split; [done|]. split.
      * apply (handlesFresh_same m); [by rewrite Htr | lia | done].
      * by rewrite Htr.
  - rewrite (SetupBLAS_empty a c m Hg). split; [|done].
    by apply (working_weaken q).
Qed.

(** [UpdateBLAS] creates and destroys nothing. *)
Lemma UpdateBLAS_working (q : bool) (m0 : ASManager) (X : gmultiset Resource) ndebug
    (a : AccelerationStructure) (c : VertexCollector) :
  triple false (working q m0 X) (UpdateBLAS ndebug a c)
    (λ a' m, a' = a ∧ working false m0 X m).
Proof.
  intros m (Hs & Ht & Hq & Hf & Hb).
  destruct (hasGeometry c a) eqn:Hg.
  - unfold UpdateBLAS. rewrite (hasGeometry_true c a Hg).
    unfold mbind at 1, M_bind at 1, assert.
    destruct (ndebug || _); [|done].
    cbn. split; [done|]. split; [exact Hs|]. split; [exact Ht|]. split; [done|].
    split; [exact Hf | exact Hb].
  - rewrite (UpdateBLAS_empty ndebug a c m Hg). split; [done|].
    by apply (working_weaken q).
Qed.

End ElementSteps.

Section Loops.

Context `{FT : FilterTypeDecls} `{PF : Platform}.

Lemma triple_fix {S A} t (P : S → Prop) (c : M S A) (Q : A → S → Prop) :
  (∀ s0, P s0 → triple t (λ s, s = s0) c Q) → triple t P c Q.
Proof. intros H s Hs. by apply (H s Hs s). Qed.

Lemma triple_pre_pure {S A} t (P : S → Prop) (c : M S A) (Q : A → S → Prop) (φ : Prop) :
  (∀ s, P s → φ) → (φ → triple t P c Q) → triple t P c Q.
Proof. intros Hφ H s Hs. exact (H (Hφ s Hs) s Hs). Qed.

Lemma working_proper (q : bool) (m0 : ASManager) (X Y : gmultiset Resource) (m : ASManager) :
  X = Y → working q m0 X m → working q m0 Y m.
Proof. by intros ->. Qed.

(** A loop over structure records whose body treats each record as
    [DestroyAS] or [SetupBLAS] do. *)
Lemma mapM_working (t q : bool) (m0 : ASManager) (R : gmultiset Resource)
    (good : AccelerationStructure → Prop)
    (f : AccelerationStructure → M ASManager AccelerationStructure)
    (l : list AccelerationStructure) :
  (∀ a Z0, good a →
     triple t (λ m, working q m0 (heldBy [a] ⊎ Z0) m ∧ wellFormed a) (f a)
       (λ a' m, working q m0 (heldBy [a'] ⊎ Z0) m ∧ filter a' = filter a ∧ wellFormed a')) →
  triple t (λ m, working q m0 (heldBy l ⊎ R) m ∧ Forall wellFormed l ∧ Forall good l)
    (mapM f l)
    (λ l' m, working q m0 (heldBy l' ⊎ R) m ∧ Forall wellFormed l'
             ∧ map filter l' = map filter l).
Proof.
  intros Hf.
  pose (I := λ (todo done : list AccelerationStructure) (m : ASManager),
          working q m0 (heldBy done ⊎ heldBy todo ⊎ R) m
          ∧ Forall wellFormed done ∧ Forall wellFormed todo ∧ Forall good todo
          ∧ map filter done ++ map filter todo = map filter l).
  eapply triple_conseq; [apply (triple_mapM t I f l)| |].
  - intros a todo done.
    apply (triple_pre_pure _ _ _ _
             (good a ∧ Forall wellFormed done ∧ Forall wellFormed todo ∧ Forall good todo
              ∧ map filter done ++ map filter (a :: todo) = map filter l)).
    { intros m (_ & Hd & Ht & Hg & Hfl).
      apply Forall_cons in Hg as [Ha Hg]. apply Forall_cons in Ht as [_ Ht]. done. }
    intros (Ha & Hd & Ht & Hg & Hfl).
    eapply triple_conseq;
      [apply (Hf a (heldBy done ⊎ heldBy todo ⊎ R) Ha) | |].
    + intros m (Hw & _ & Hwt & _). split.
      * eapply working_proper; [|exact Hw]. rewrite (heldBy_cons a todo).
        clear. multiset_solver.
      * by apply Forall_cons in Hwt as [? _].
    + intros a' m (Hw & Hfa & Hwa). unfold I.
      split; [eapply working_proper; [|exact Hw]; rewrite heldBy_app; clear; multiset_solver|].
      split; [apply Forall_app; split; [done | by constructor]|].
      split; [done|]. split; [done|].
      rewrite map_app, <- app_assoc. cbn [map app]. by rewrite Hfa.
  - intros m (Hw & Hwf & Hg). unfold I.
    split; [eapply working_proper; [|exact Hw]; rewrite heldBy_nil; clear; multiset_solver|].
    split; [constructor|]. done.
  - intros l' m (Hw & Hwf & _ & _ & Hfl). rewrite app_nil_r in Hfl.
    split; [eapply working_proper; [|exact Hw]; rewrite heldBy_nil; clear; multiset_solver|].
    done.
Qed.

Lemma heldBy_concat_insert (ll : list (list AccelerationStructure)) (i : nat)
    (li l' : list AccelerationStructure) :
  ll !! i = Some li →
  heldBy (concat (<[i := l']> ll)) ⊎ heldBy li = heldBy (concat ll) ⊎ heldBy l'.
Proof.
  revert i. induction ll as [|x ll IH]; intros [|i] Hi; simplify_eq/=.
  - rewrite !heldBy_app. clear. multiset_solver.
  - rewrite !heldBy_app. specialize (IH i Hi). clear -IH. multiset_solver.
Qed.

Lemma heldBy_insert (l : list AccelerationStructure) (i : nat)
    (a a' : AccelerationStructure) :
  l !! i = Some a →
  heldBy (<[i := a']> l) ⊎ heldBy [a] = heldBy l ⊎ heldBy [a'].
Proof.
  revert i. induction l as [|x l IH]; intros [|i] Hi; simplify_eq/=.
  - rewrite (heldBy_cons a' l), (heldBy_cons a l). clear. multiset_solver.
  - rewrite (heldBy_cons x (<[i:=a']> l)), (heldBy_cons x l).
    specialize (IH i Hi). clear -IH. multiset_solver.
Qed.

Lemma staged_working (q : bool) (m : ASManager) :
  staged q m → working q m (heldBy (allStructures m)) m.
Proof.
  intros (_ & _ & Ht & Hq & Hb & Hf & _).
  split; [by repeat split|]. split; [exact Ht|]. split; [exact Hq|].
  split; [exact Hf | exact Hb].
Qed.

Lemma sameStructures_asNew (m0 m : ASManager) :
  sameStructures m0 m → structuresAsNew m0 → structuresAsNew m.
Proof.
  unfold sameStructures, structuresAsNew, structureFilters.
  intros (-> & -> & _). done.
Qed.

Lemma sameStructures_all (m0 m : ASManager) :
  sameStructures m0 m → allStructures m = allStructures m0.
Proof. unfold sameStructures, allStructures. intros (-> & -> & -> & _). done. Qed.

(** The static list is replaced by the records a loop returned for it. *)
Lemma working_staged_static (q0 q : bool) (m0 m : ASManager) (R : gmultiset Resource)
    (l' : list AccelerationStructure) :
  staged q0 m0 →
  heldBy (allStructures m0) = heldBy (allStaticBlas m0) ⊎ R →
  working q m0 (heldBy l' ⊎ R) m → Forall wellFormed l' →
  map filter l' = map filter (allStaticBlas m0) →
  staged q (set_allStaticBlas l' m).
Proof.
  intros (HT & HL & _ & _ & _ & _ & Hwf) HR (Hs & Ht & Hq & Hf & Hb) Hwl Hfl.
  pose proof Hs as (Hst & Hdy & Htl & _).
  split.
  { apply inv_set_allStaticBlas; [by rewrite Hst | by apply (sameStructures_asNew m0)]. }
  split; [cbn; congruence|]. split; [exact Ht|]. split; [exact Hq|].
  assert (Hall : heldBy (allStructures (set_allStaticBlas l' m)) = heldBy l' ⊎ R).
  { unfold allStructures in *. cbn [set_allStaticBlas allStaticBlas allDynamicBlas tlas].
    rewrite Hdy, Htl. rewrite heldBy_app in HR |- *. clear -HR. multiset_solver. }
  split; [unfold balanced in *; cbn [trace set_allStaticBlas]; by rewrite Hall|].
  split; [exact Hf|].
  unfold allStructures in *. cbn [set_allStaticBlas allStaticBlas allDynamicBlas tlas].
  rewrite Hdy, Htl. apply Forall_app in Hwf as [_ Hwf]. apply Forall_app. done.
Qed.

(** The dynamic list of a frame is replaced by the records a loop returned
    for it. *)
Lemma working_staged_dynamic (q0 q : bool) (m0 m : ASManager) (R : gmultiset Resource)
    (i : nat) (l' : list AccelerationStructure) :
  staged q0 m0 →
  heldBy (allStructures m0) = heldBy (dynamicBlasOf m0 i) ⊎ R →
  working q m0 (heldBy l' ⊎ R) m → Forall wellFormed l' →
  map filter l' = map filter (dynamicBlasOf m0 i) →
  staged q (set_allDynamicBlas (<[i := l']> (allDynamicBlas m)) m).
Proof.
  intros (HT & HL & _ & _ & _ & _ & Hwf) HR (Hs & Ht & Hq & Hf & Hb) Hwl Hfl.
  pose proof Hs as (Hst & Hdy & Htl & _).
  assert (HTm : structuresAsNew m) by (by apply (sameStructures_asNew m0)).
  assert (Hdo : dynamicBlasOf m i = dynamicBlasOf m0 i).
  { unfold dynamicBlasOf. by rewrite Hdy. }
  split.
  { apply inv_set_allDynamicBlas; [by rewrite Hdo | done]. }
  split; [cbn; congruence|]. split; [exact Ht|]. split; [exact Hq|].
  unfold dynamicBlasOf in HR, Hfl.
  destruct (allDynamicBlas m0 !! i) as [li|] eqn:Hi; cbn [default] in HR, Hfl.
  - pose proof (heldBy_concat_insert _ i li l' Hi) as Hins.
    assert (Hall : heldBy (allStructures (set_allDynamicBlas (<[i:=l']> (allDynamicBlas m)) m))
                   = heldBy l' ⊎ R).
    { unfold allStructures in *. cbn [set_allDynamicBlas allStaticBlas allDynamicBlas tlas].
      rewrite Hst, Hdy, Htl. rewrite !heldBy_app in HR |- *. clear -HR Hins. multiset_solver. }
    split; [unfold balanced in *; cbn [trace set_allDynamicBlas]; by rewrite Hall|].
    split; [exact Hf|].
    unfold allStructures in *. cbn [set_allDynamicBlas allStaticBlas allDynamicBlas tlas].
    rewrite Hst, Hdy, Htl. rewrite !Forall_app in Hwf |- *.
    destruct Hwf as (Hw1 & Hw2 & Hw3). split; [done|]. split; [|done].
    rewrite Forall_concat in Hw2 |- *. by apply Forall_insert.
  - apply lookup_ge_None in Hi. rewrite Hdy, list_insert_ge by done.
    destruct l'; [|done]. rewrite heldBy_nil in Hb.
    assert (Hall : heldBy (allStructures (set_allDynamicBlas (allDynamicBlas m0) m)) = ∅ ⊎ R).
    { unfold allStructures in *. cbn [set_allDynamicBlas allStaticBlas allDynamicBlas tlas].
      rewrite Hst, Htl. rewrite HR, heldBy_nil. done. }
    split; [unfold balanced in *; cbn [trace set_allDynamicBlas]; by rewrite Hall|].
    split; [exact Hf|].
    unfold allStructures in *. cbn [set_allDynamicBlas allStaticBlas allDynamicBlas tlas].
    by rewrite Hst, Htl.
Qed.

(** The top-level record of a frame in flight is replaced. *)
Lemma working_staged_tlas (q0 q : bool) (m0 m : ASManager) (R : gmultiset Resource)
    (i : nat) (a' : AccelerationStructure) :
  staged q0 m0 → (i < MAX_FRAMES_IN_FLIGHT)%nat →
  heldBy (allStructures m0) = heldBy [tlasOf m0 i] ⊎ R →
  working q m0 (heldBy [a'] ⊎ R) m → wellFormed a' →
  staged q (set_tlas (<[i := a']> (tlas m)) m).
Proof.
  intros (HT & HL & _ & _ & _ & _ & Hwf) Hi HR (Hs & Ht & Hq & Hf & Hb) Hwa.
  pose proof Hs as (Hst & Hdy & Htl & _).
  split; [exact (sameStructures_asNew m0 m Hs HT)|].
  split; [cbn [tlas set_tlas]; by rewrite length_insert, Htl|].
  split; [exact Ht|]. split; [exact Hq|].
  rewrite <- HL in Hi. apply lookup_lt_is_Some_2 in Hi as [a Ha].
  unfold tlasOf in HR. rewrite Ha in HR. cbn [default] in HR.
  pose proof (heldBy_insert _ i a a' Ha) as Hins.
  assert (Hall : heldBy (allStructures (set_tlas (<[i:=a']> (tlas m)) m)) = heldBy [a'] ⊎ R).
  { unfold allStructures in *. cbn [set_tlas allStaticBlas allDynamicBlas tlas].
    rewrite Hst, Hdy, Htl. rewrite !heldBy_app in HR |- *. clear -HR Hins. multiset_solver. }
  split; [unfold balanced in *; cbn [trace set_tlas]; by rewrite Hall|].
  split; [exact Hf|].
  unfold allStructures in *. cbn [set_tlas allStaticBlas allDynamicBlas tlas].
  rewrite Hst, Hdy, Htl. rewrite !Forall_app in Hwf |- *.
  destruct Hwf as (Hw1 & Hw2 & Hw3). split; [done|]. split; [done|].
  by apply Forall_insert.
Qed.

(** What the records other than a given part hold. *)
Lemma held_split_static (m : ASManager) :
  ∃ R, heldBy (allStructures m) = heldBy (allStaticBlas m) ⊎ R.
Proof. eexists. unfold allStructures. by rewrite heldBy_app. Qed.

Lemma held_split_dynamic (m : ASManager) (i : nat) :
  ∃ R, heldBy (allStructures m) = heldBy (dynamicBlasOf m i) ⊎ R.
Proof.
  unfold dynamicBlasOf. destruct (allDynamicBlas m !! i) as [li|] eqn:Hi; cbn [default].
  - exists (heldBy (allStaticBlas m) ⊎ heldBy (concat (<[i := []]> (allDynamicBlas m)))
            ⊎ heldBy (tlas m)).
    pose proof (heldBy_concat_insert _ i li [] Hi) as Hins. rewrite heldBy_nil in Hins.
    unfold allStructures. rewrite !heldBy_app. clear -Hins. multiset_solver.
  - exists (heldBy (allStructures m)). rewrite heldBy_nil. clear. multiset_solver.
Qed.

Lemma held_split_tlas (m : ASManager) (i : nat) :
  ∃ R, heldBy (allStructures m) = heldBy [tlasOf m i] ⊎ R.
Proof.
  unfold tlasOf. destruct (tlas m !! i) as [a|] eqn:Hi; cbn [default].
  - exists (heldBy (allStaticBlas m) ⊎ heldBy (concat (allDynamicBlas m))
            ⊎ heldBy (<[i := nullAS 0]> (tlas m))).
    pose proof (heldBy_insert _ i a (nullAS 0) Hi) as Hins. rewrite heldBy_null in Hins.
    unfold allStructures. rewrite !heldBy_app. clear -Hins. multiset_solver.
  - exists (heldBy (allStructures m)). rewrite heldBy_null. clear. multiset_solver.
Qed.

End Loops.

Section EntryTriples.

Context `{FT : FilterTypeDecls} `{PF : Platform}.

(** The structure lists with the constructor's tags: eight static records
    without the dynamic bit, at most four dynamic records per frame with
    it. *)
Lemma asNew_structures (m : ASManager) (frameIndex : nat) :
  structuresAsNew m →
  length (allStaticBlas m) = 8%nat
  ∧ (length (dynamicBlasOf m frameIndex) ≤ 4)%nat
  ∧ Forall (λ a, tagOK true a = true) (allStaticBlas m)
  ∧ Forall (λ a, tagOK false a = true) (dynamicBlasOf m frameIndex).
Proof.
  intros Hm.
  pose proof (inv_allStaticBlas m Hm) as Hst.
  pose proof (inv_dynamicBlasOf m frameIndex Hm) as Hdy.
  destruct ASManager_new_structures as (Hnew & _ & _).
  change (map filter ?x) with (filter <$> x) in Hst, Hdy.
  rewrite Hnew in Hst. clear Hnew.
  destruct flagBit_member as (M1 & M2 & M3 & M4 & M5 & M6 & M7).
  flag_bits_distinct.
  assert (Hlen : ∀ (l : list AccelerationStructure) k,
            filter <$> l = k → length l = length k).
  { intros l k <-. by rewrite length_fmap. }
  assert (Htag : ∀ (P : Z → Prop) (l : list AccelerationStructure) k,
            filter <$> l = k → Forall P k → Forall (λ a, P (filter a)) l).
  { intros P l k <- HP. induction l as [|a l IH]; [constructor|].
    apply Forall_cons in HP as [Ha Hl]. constructor; [exact Ha | exact (IH Hl)]. }
  split; [exact (Hlen _ _ Hst)|]. split.
  { destruct (dynamicBlasOf_new frameIndex) as [Hn|Hn]; rewrite Hn in Hdy.
    - rewrite (Hlen _ _ Hdy). cbn. lia.
    - rewrite (Hlen _ _ Hdy). done. }
  split.
  - apply (Htag (λ f, negb (hasAny f CF_DYNAMIC) = true) _ _ Hst).
    repeat constructor; rewrite hasAny_tag by done; settle_bool_decide; done.
  - destruct (dynamicBlasOf_new frameIndex) as [Hn|Hn]; rewrite Hn in Hdy.
    + apply (Htag (λ f, hasAny f CF_DYNAMIC = true) _ _ Hdy). constructor.
    + apply (Htag (λ f, hasAny f CF_DYNAMIC = true) _ _ Hdy).
      repeat constructor; rewrite hasAny_tag by done; settle_bool_decide; done.
Qed.

Lemma staged_weaken (q : bool) (m : ASManager) : staged q m → staged false m.
Proof.
  intros (H1 & H2 & H3 & H4 & H5 & H6 & H7). by repeat (split; [done|]).
Qed.

Lemma staged_emit (q : bool) (e : Event) (m : ASManager) :
  createdBy e = [] → destroyedBy e = [] →
  staged q m → staged q (emitAll [e] m).
Proof.
  intros Hc Hd (H1 & H2 & H3 & H4 & H5 & H6 & H7).
  assert (Hcr : created (trace (emitAll [e] m)) = created (trace m)).
  { cbn [trace emitAll set_trace]. rewrite created_app. unfold created at 2.
    cbn [mbind list_bind]. rewrite Hc. cbn. clear. multiset_solver. }
  assert (Hde : destroyed (trace (emitAll [e] m)) = destroyed (trace m)).
  { cbn [trace emitAll set_trace]. rewrite destroyed_app. unfold destroyed at 2.
    cbn [mbind list_bind]. rewrite Hd. cbn. clear. multiset_solver. }
  split; [exact H1|]. split; [exact H2|]. split; [exact H3|]. split; [exact H4|].
  split; [|split; [|exact H7]].
  - unfold balanced in *. rewrite Hcr, Hde. exact H5.
  - by apply (handlesFresh_same m).
Qed.

Lemma triple_emit_staged (t q : bool) (e : Event) :
  createdBy e = [] → destroyedBy e = [] →
  triple t (staged q) (emit e) (λ _, staged q).
Proof. intros Hc Hd m Hm. rewrite emit_run. by apply staged_emit. Qed.

Lemma triple_BuildBottomLevel (t q : bool) :
  triple t (staged q) BuildBottomLevel (λ _, staged true).
Proof.
  intros m Hm. unfold BuildBottomLevel, mbind, M_bind, gets. rewrite emit_run.
  cbn [modify].
  pose proof (staged_emit q (EvBuildBottomLevel (bottomQueue (asBuilder m))) m
                eq_refl eq_refl Hm) as (H1 & H2 & H3 & H4 & H5 & H6 & H7).
  split; [exact H1|]. split; [exact H2|]. split; [exact H3|]. split; [done|].
  split; [exact H5|]. split; [exact H6 | exact H7].
Qed.

Lemma triple_AddTLAS_BuildTopLevel (t : bool) (r : TopBuildRequest) :
  triple t (staged true) (AddTLAS r ≫= λ _, BuildTopLevel) (λ _, staged true).
Proof.
  intros m Hm. unfold AddTLAS, BuildTopLevel, mbind, M_bind, gets, modify. rewrite emit_run.
  cbn [asBuilder set_asBuilder topQueue bottomQueue].
  match goal with
  | |- staged true (set_asBuilder _ (emitAll [?e] ?s)) =>
      pose proof (staged_emit true e m eq_refl eq_refl Hm) as (H1 & H2 & H3 & H4 & H5 & H6 & H7)
  end.
  destruct Hm as (_ & _ & _ & Hq & _).
  split; [exact H1|]. split; [exact H2|]. split; [done|]. split; [intros _; by apply Hq|].
  split; [exact H5|]. split; [exact H6 | exact H7].
Qed.

Lemma wellFormed_null (f : Z) : wellFormed (nullAS f).
Proof. done. Qed.

Lemma staged_IsEmpty (m : ASManager) : staged true m → IsEmpty (asBuilder m) = true.
Proof.
  intros (_ & _ & Ht & Hq & _). unfold IsEmpty. by rewrite Ht, Hq.
Qed.

(** A loop over the static records followed by the update of the list. *)
Lemma triple_staticLoop {A} (t q : bool)
    (f : AccelerationStructure → M ASManager AccelerationStructure)
    (k : M ASManager A) (R : A → ASManager → Prop) :
  (∀ a Z0 m0, tagOK true a = true →
     triple t (λ m, working q m0 (heldBy [a] ⊎ Z0) m ∧ wellFormed a) (f a)
       (λ a' m, working q m0 (heldBy [a'] ⊎ Z0) m ∧ filter a' = filter a ∧ wellFormed a')) →
  triple t (staged q) k R →
  triple t (staged q)
    (blas ← gets allStaticBlas;
     blas' ← mapM f blas;
     modify (set_allStaticBlas blas') ≫= λ _, k) R.
Proof.
  intros Hf Hk. apply triple_fix. intros m0 Hm0.
  destruct (held_split_static m0) as [R0 HR].
  destruct (asNew_structures m0 0 (proj1 Hm0)) as (_ & _ & Htag & _).
  eapply triple_bind.
  { apply (triple_gets _ _ _ (λ blas m, blas = allStaticBlas m0 ∧ m = m0)).
    intros m Hm. by subst m. }
  intros blas.
  apply (triple_pre_pure _ _ _ _ (blas = allStaticBlas m0)); [by intros ? [? _]|].
  intros ->.
  eapply triple_bind.
  { eapply triple_conseq;
      [apply (mapM_working t q m0 R0 (λ a, tagOK true a = true) f);
         intros; by apply Hf | | intros l' m H; exact H].
    intros m [_ Hm]. subst m. split; [rewrite <- HR; by apply staged_working|].
    split; [|exact Htag].
    destruct Hm0 as (_ & _ & _ & _ & _ & _ & Hwf). unfold allStructures in Hwf.
    by apply Forall_app in Hwf as [? _]. }
  intros blas'. apply (triple_bind _ _ _ _ (λ _, staged q)); [|intros []; exact Hk].
  apply triple_modify. intros m (Hw & Hwf & Hfl). by eapply working_staged_static.
Qed.

Lemma triple_SubmitStaticGeometry (t : bool) ndebug :
  triple t consistent (SubmitStaticGeometry ndebug) (λ _, consistent).
Proof.
  unfold SubmitStaticGeometry, consistent.
  eapply triple_bind; [apply (triple_modify _ _ _ (λ _, staged true)); by intros m Hm|].
  intros []. apply triple_staticLoop.
  { intros a Z0 m0 Htag.
    eapply triple_bind.
    { apply (triple_assert _ _ _ _
               (λ _ m, working true m0 (heldBy [a] ⊎ Z0) m ∧ wellFormed a)).
      - intros _ m _. unfold tagOK in Htag. rewrite Htag. apply orb_true_r.
      - by intros m Hm _. }
    intros []. destruct (hasAny (filter a) staticFlags).
    - eapply triple_conseq; [apply (DestroyAS_working t true m0 Z0 a) | by intros m [? _] |].
      intros a' m [-> Hw]. rewrite heldBy_null. split; [|done].
      eapply working_proper; [|exact Hw]. clear. multiset_solver.
    - apply triple_ret. by intros m [? ?]. }
  eapply triple_bind.
  { apply (triple_gets _ _ _ (λ b m, b = asBuilder m ∧ staged true m)). by intros m Hm. }
  intros b. eapply triple_bind.
  { apply (triple_assert _ _ _ _ (λ _, staged true)).
    - intros _ m [-> Hm]. rewrite (staged_IsEmpty m Hm). apply orb_true_r.
    - by intros m [_ Hm] _. }
  intros []. eapply triple_bind.
  { apply (triple_gets _ _ _ (λ _, staged true)). by intros m Hm. }
  intros c. destruct (AreGeometriesEmpty c staticFlags).
  { apply triple_ret. by intros m Hm. }
  eapply triple_bind; [by apply (triple_emit_staged t true)|].
  intros []. eapply triple_conseq;
    [| intros m Hm; exact (staged_weaken true m Hm) | intros a m H; exact H].
  apply triple_staticLoop.
  { intros a Z0 m0 Htag. destruct (hasAny (filter a) staticFlags).
    - apply SetupBLAS_working.
    - apply triple_ret. by intros m [? ?]. }
  eapply triple_bind; [apply triple_BuildBottomLevel|].
  intros []. by apply triple_emit_staged.
Qed.

Lemma Forall_dynamicBlasOf (P : AccelerationStructure → Prop) (m : ASManager) (i : nat) :
  Forall P (allStructures m) → Forall P (dynamicBlasOf m i).
Proof.
  unfold allStructures, dynamicBlasOf. rewrite !Forall_app, Forall_concat.
  intros (_ & Hd & _). destruct (allDynamicBlas m !! i) as [l|] eqn:Hi; [|constructor].
  cbn. by apply (Forall_lookup_1 _ _ _ _ Hd Hi).
Qed.

Lemma Forall_tlasOf (P : AccelerationStructure → Prop) (m : ASManager) (i : nat) :
  P (nullAS 0) → Forall P (allStructures m) → P (tlasOf m i).
Proof.
  unfold allStructures, tlasOf. rewrite !Forall_app.
  intros Hn (_ & _ & Ht). destruct (tlas m !! i) as [a|] eqn:Hi; [|done].
  cbn. by apply (Forall_lookup_1 _ _ _ _ Ht Hi).
Qed.

Lemma triple_SubmitDynamicGeometry (t : bool) ndebug (frameIndex : nat) :
  triple t consistent (SubmitDynamicGeometry ndebug frameIndex) (λ _, consistent).
Proof.
  unfold SubmitDynamicGeometry, consistent.
  eapply triple_bind; [apply (triple_modify _ _ _ (λ _, staged true)); by intros m Hm|].
  intros []. eapply triple_bind; [by apply (triple_emit_staged t true)|].
  intros []. eapply triple_bind.
  { apply (triple_gets _ _ _ (λ b m, b = asBuilder m ∧ staged true m)). by intros m Hm. }
  intros b. eapply triple_bind.
  { apply (triple_assert _ _ _ _ (λ _, staged true)).
    - intros _ m [-> Hm]. rewrite (staged_IsEmpty m Hm). apply orb_true_r.
    - by intros m [_ Hm] _. }
  intros []. eapply triple_bind.
  { apply (triple_get _ _ (λ m0 m, staged true m0 ∧ m = m0)). by intros m Hm. }
  intros m0. apply (triple_pre_pure _ _ _ _ (staged true m0)); [by intros ? [? _]|].
  intros Hm0. cbv zeta.
  destruct (AreGeometriesEmpty _ _).
  { apply triple_ret. intros m [_ Hm]. by subst m. }
  destruct (held_split_dynamic m0 frameIndex) as [R0 HR].
  destruct (asNew_structures m0 frameIndex (proj1 Hm0)) as (_ & _ & _ & Htag).
  eapply triple_bind.
  { eapply triple_conseq;
      [apply (mapM_working t false m0 R0 (λ a, tagOK false a = true)) | |
       intros l' m H; exact H].
    - intros a Z0 Ha. eapply triple_bind.
      { apply (triple_assert _ _ _ _
                 (λ _ m, working false m0 (heldBy [a] ⊎ Z0) m ∧ wellFormed a)).
        - intros _ m _. unfold tagOK in Ha. rewrite Ha. apply orb_true_r.
        - by intros m Hm _. }
      intros []. apply SetupBLAS_working.
    - intros m [_ Hm]. subst m.
      split; [rewrite <- HR; apply staged_working; by apply (staged_weaken true)|].
      split; [|exact Htag].
      apply Forall_dynamicBlasOf. by destruct Hm0 as (_ & _ & _ & _ & _ & _ & Hwf). }
  intros blas'. apply (triple_bind _ _ _ _ (λ _, staged false)).
  - apply triple_modify. intros m (Hw & Hwf & Hfl). by eapply working_staged_dynamic.
  - intros []. apply triple_BuildBottomLevel.
Qed.

(** Destroying a structure and creating a buffer of [size] and a structure
    on it, as [SetupBLAS] and [TryBuildTLAS] do. *)
Lemma recreate_working (t q : bool) (m0 : ASManager) (Z0 : gmultiset Resource)
    (a : AccelerationStructure) (size : Z) (top : bool) :
  triple t (working q m0 (heldBy [a] ⊎ Z0))
    (a1 ← DestroyAS a;
     a2 ← CreateASBuffer a1 size;
     CreateAccelerationStructure a2 size top)
    (λ a' m, working q m0 (heldBy [a'] ⊎ Z0) m ∧ filter a' = filter a ∧ wellFormed a'
             ∧ isLive a' = true ∧ GetSize (buffer a') = size).
Proof.
  intros m (Hs & Ht & Hq & Hf & Hb).
  unfold mbind at 1, M_bind at 1. rewrite DestroyAS_run.
  unfold CreateASBuffer, CreateAccelerationStructure, freshHandle, mbind, M_bind, gets,
    modify, mret, M_ret. rewrite !emit_run.
  cbn [nextHandle set_nextHandle emitAll set_trace trace as_ buffer filter nullAS GetBuffer
       buf_handle].
  set (h := nextHandle m).
  destruct Hf as [Hpos Hfr]. fold h in Hpos.
  match goal with |- (working q m0 (heldBy [?x] ⊎ Z0) ?s ∧ _) => set (a' := x); set (m' := s) end.
  assert (Hheld : heldBy [a'] = {[+ inl h +]} ⊎ {[+ inr (h + 1) +]}).
  { by apply heldBy_created. }
  assert (Htr : trace m' = trace m ++ destroyEvents a
                  ++ [EvBufferInit h size; EvCreateAccelerationStructure (h + 1) h size top]).
  { unfold m', emitAll, set_nextHandle, set_trace. cbn [trace GetBuffer buf_handle].
    by rewrite <- !app_assoc. }
  assert (Hc : created (trace m') = created (trace m)
                 ⊎ ({[+ inl h +]} ⊎ {[+ inr (h + 1) +]})).
  { rewrite Htr, !created_app, created_destroyEvents, created_pair. clear. multiset_solver. }
  assert (Hd : destroyed (trace m') = destroyed (trace m) ⊎ heldBy [a]).
  { rewrite Htr, !destroyed_app, destroyed_destroyEvents, destroyed_pair.
    clear. multiset_solver. }
  split; [|split; [done|split; [|split; [|done]]]].
  - split; [exact Hs|]. split; [exact Ht|]. split; [exact Hq|]. split.
    + apply (handlesFresh_step m m' _ Hc); [unfold m', h; cbn; lia| |by split].
      intros r. split; [apply multiplicity_pair|].
      intros Hr%elem_of_pair. unfold m', h in *. cbn. lia.
    + unfold balanced in *. rewrite Hc, Hd, Hheld, Hb. clear. multiset_solver.
  - unfold wellFormed, isLive, a'. cbn [as_ buffer IsInitted].
    destruct (Z.eqb_spec (h + 1) VK_NULL_HANDLE) as [Heq|_]; [|done].
    unfold VK_NULL_HANDLE in Heq. lia.
  - unfold isLive, a'. cbn [as_].
    destruct (Z.eqb_spec (h + 1) VK_NULL_HANDLE) as [Heq|_]; [|done].
    unfold VK_NULL_HANDLE in Heq. lia.
Qed.

Lemma triple_assoc {S A B C} t (P : S → Prop) (c : M S A) (f : A → M S B) (g : B → M S C)
    (R : C → S → Prop) :
  triple t P ((c ≫= f) ≫= g) R → triple t P (c ≫= λ a, f a ≫= g) R.
Proof.
  intros H s Hs. specialize (H s Hs). unfold mbind, M_bind in *.
  by destruct (c s).
Qed.

Lemma asNew_assembleInstances ndebug (stack : list Z) (m : ASManager) (frameIndex : nat) :
  structuresAsNew m → length stack = instanceGeomInfoOffset_length →
  returned (assembleInstances ndebug (allStaticBlas m) (dynamicBlasOf m frameIndex)
              (initialFrame stack)) = true.
Proof.
  intros Hm Hstack.
  destruct (asNew_structures m frameIndex Hm) as (Hs & Hd & Hts & Htd).
  destruct (assembleInstances_bound_lists ndebug stack _ _ Hstack Hts Htd)
    as (Hret & _).
  rewrite Hret. apply orb_true_iff. right. apply bool_decide_eq_true_2.
  unfold liveBlas. eapply Nat.le_lt_trans; [apply List.filter_length_le|].
  rewrite length_app. unfold MAX_TOP_LEVEL_INSTANCE_COUNT. lia.
Qed.

Lemma triple_TryBuildTLAS (t : bool) ndebug (stack : list Z) (frameIndex : nat)
    (uniform : list Z) :
  (frameIndex < MAX_FRAMES_IN_FLIGHT)%nat →
  (t = true → length stack = instanceGeomInfoOffset_length) →
  triple t consistent (TryBuildTLAS ndebug stack frameIndex uniform) (λ _, consistent).
Proof.
  intros Hfi Hstack m Hm. unfold TryBuildTLAS.
  destruct (assembleInstances _ _ _ _) as [[] fr|fr] eqn:Hasm.
  2:{ destruct t; [|done].
      pose proof (asNew_assembleInstances ndebug stack m frameIndex (proj1 Hm)
                    (Hstack eq_refl)) as Hret.
      by rewrite Hasm in Hret. }
  destruct (bool_decide _); [exact Hm|].
  cbv zeta.
  match goal with
  | |- match ?c m with _ => _ end =>
      assert (Hc : triple t (λ s, s = m) c (λ _, consistent)); [|exact (Hc m eq_refl)]
  end.
  set (m1 := set_instanceBuffers
               (<[frameIndex := memcpy (default [] (instanceBuffers m !! frameIndex))
                                  (instances fr) (instanceCount fr)]> (instanceBuffers m)) m).
  assert (Hm1 : staged true m1) by exact Hm.
  destruct (held_split_tlas m1 frameIndex) as [R0 HR].
  eapply triple_bind.
  { apply (triple_modify _ _ _ (λ _ s, s = m1)). intros s Hs. by subst s. }
  intros []. eapply triple_bind.
  { instantiate (1 := λ a' s, working true m1 (heldBy [a'] ⊎ R0) s ∧ wellFormed a').
    destruct (_ <? _).
    - eapply triple_conseq; [apply (recreate_working t true m1 R0) | |].
      + intros s Hs. subst s. change (tlasOf m frameIndex) with (tlasOf m1 frameIndex).
        rewrite <- HR. by apply staged_working.
      + intros a' s (Hw & _ & Hwf & _). done.
    - apply triple_ret. intros s Hs. subst s. split.
      + change (tlasOf m frameIndex) with (tlasOf m1 frameIndex).
        rewrite <- HR. by apply staged_working.
      + apply (Forall_tlasOf wellFormed m frameIndex); [done|].
        by destruct Hm as (_ & _ & _ & _ & _ & _ & Hwf). }
  intros curTlas'. apply (triple_bind _ _ _ _ (λ _, staged true)).
  { apply triple_modify. intros s [Hw Hwf]. by eapply (working_staged_tlas true). }
  intros []. eapply triple_bind.
  { apply (triple_gets _ _ _ (λ b m, b = asBuilder m ∧ staged true m)). by intros s Hs. }
  intros b. eapply triple_bind.
  { apply (triple_assert _ _ _ _ (λ _, staged true)).
    - intros _ s [-> Hs]. rewrite (staged_IsEmpty s Hs). apply orb_true_r.
    - by intros s [_ Hs] _. }
  intros []. apply triple_assoc.
  eapply triple_bind; [apply triple_AddTLAS_BuildTopLevel|].
  intros []. eapply triple_bind; [by apply (triple_emit_staged t true)|].
  intros []. eapply triple_bind; [by apply (triple_emit_staged t true)|].
  intros []. apply triple_ret. by intros s Hs.
Qed.

Lemma triple_ResubmitStaticMovable ndebug :
  triple false consistent (ResubmitStaticMovable ndebug) (λ _, consistent).
Proof.
  unfold ResubmitStaticMovable, consistent.
  eapply triple_bind.
  { apply (triple_gets _ _ _ (λ _, staged true)). by intros m Hm. }
  intros c. destruct (AreGeometriesEmpty c CF_STATIC_MOVABLE).
  { apply triple_ret. by intros m Hm. }
  eapply triple_bind.
  { apply (triple_gets _ _ _ (λ _, staged true)). by intros m Hm. }
  intros b. eapply triple_bind.
  { apply (triple_assert _ _ _ _ (λ _, staged true)); [done | by intros m Hm _]. }
  intros []. eapply triple_conseq;
    [| intros m Hm; exact (staged_weaken true m Hm) | intros a m H; exact H].
  apply triple_staticLoop.
  { intros a Z0 m0 Htag. eapply triple_bind.
    { apply (triple_assert _ _ _ _
               (λ _ m, working false m0 (heldBy [a] ⊎ Z0) m ∧ wellFormed a));
        [done | by intros m Hm _]. }
    intros []. destruct (hasAny (filter a) CF_STATIC_MOVABLE).
    - apply (triple_pre_pure _ _ _ _ (wellFormed a)); [by intros ? [_ ?]|]. intros Hwf.
      eapply triple_conseq; [apply (UpdateBLAS_working false m0 (heldBy [a] ⊎ Z0)) | |].
      + by intros m [Hw _].
      + intros a' m [-> Hw]. done.
    - apply triple_ret. by intros m [? ?]. }
  eapply triple_bind; [apply triple_BuildBottomLevel|].
  intros []. by apply triple_emit_staged.
Qed.

Lemma triple_perform ndebug (c : Call) :
  frameInRange c → triple false consistent (perform ndebug c) (λ _, consistent).
Proof.
  intros Hc. destruct c; cbn [perform].
  - apply triple_modify. by intros m Hm.
  - apply triple_modify. by intros m Hm.
  - eapply triple_bind; [|intros ?; apply triple_ret; intros m Hm; exact Hm].
    unfold AddStaticGeometry. destruct (_ || _).
    + eapply triple_bind.
      { apply (triple_gets _ _ _ (λ _, consistent)). by intros m Hm. }
      intros c. eapply triple_bind; [apply (triple_modify _ _ _ (λ _, consistent)); by intros m Hm|].
      intros []. apply triple_ret. by intros m Hm.
    + eapply triple_bind.
      { apply (triple_assert _ _ _ _ (λ _, consistent)); [done | by intros m Hm _]. }
      intros []. apply triple_ret. by intros m Hm.
  - apply triple_SubmitStaticGeometry.
  - apply triple_modify. by intros m Hm.
  - eapply triple_bind; [|intros ?; apply triple_ret; intros m Hm; exact Hm].
    unfold AddDynamicGeometry. destruct (bool_decide _).
    + eapply triple_bind.
      { apply (triple_get _ _ (λ _, consistent)). by intros m Hm. }
      intros c. eapply triple_bind; [apply (triple_modify _ _ _ (λ _, consistent)); by intros m Hm|].
      intros []. apply triple_ret. by intros m Hm.
    + eapply triple_bind.
      { apply (triple_assert _ _ _ _ (λ _, consistent)); [done | by intros m Hm _]. }
      intros []. apply triple_ret. by intros m Hm.
  - apply triple_SubmitDynamicGeometry.
  - apply triple_modify. by intros m Hm.
  - apply triple_ResubmitStaticMovable.
  - eapply triple_bind; [|intros ?; apply triple_ret; intros m Hm; exact Hm].
    by apply triple_TryBuildTLAS.
Qed.

Lemma heldBy_nulls (fs : list Z) : heldBy (nullAS <$> fs) = ∅.
Proof.
  induction fs as [|f fs IH]; [done|].
  rewrite fmap_cons, heldBy_cons, heldBy_null, IH. clear. multiset_solver.
Qed.

Lemma consistent_new : consistent ASManager_new.
Proof.
  split; [done|]. split; [done|]. split; [done|]. split; [done|].
  assert (Hheld : heldBy (allStructures ASManager_new) = ∅).
  { unfold allStructures, ASManager_new.
    cbn [allStaticBlas allDynamicBlas tlas MAX_FRAMES_IN_FLIGHT replicate concat].
    change [nullAS 0; nullAS 0] with (nullAS <$> [0; 0]).
    rewrite !heldBy_app, !heldBy_nulls, heldBy_nil.
    clear. multiset_solver. }
  split; [|split].
  - unfold balanced. rewrite Hheld. cbn. clear. multiset_solver.
  - split; [done|]. intros r. cbn. rewrite multiplicity_empty. split; [lia|].
    intros H. by apply gmultiset_not_elem_of_empty in H.
  - unfold allStructures, ASManager_new.
    cbn [allStaticBlas allDynamicBlas tlas MAX_FRAMES_IN_FLIGHT replicate concat].
    rewrite !Forall_app, !Forall_fmap.
    repeat split; repeat (apply Forall_cons; split); try apply Forall_nil;
      try apply Forall_true; try done; try apply wellFormed_null.
Qed.

(** Every state the public interface leads to with frame indices in range
    is consistent. *)
Lemma reachableInRange_consistent ndebug (m : ASManager) :
  reachableInRange ndebug m → consistent m.
Proof.
  induction 1 as [|m m' c _ IH Hc Hrun]; [apply consistent_new|].
  exact (triple_run _ _ _ _ _ _ _ (triple_perform ndebug c Hc) IH Hrun).
Qed.

End EntryTriples.

(** ** The build of a top-level structure *)

Section TlasBuild.

Context `{FT : FilterTypeDecls} `{PF : Platform}.

(** The manager after a [TryBuildTLAS] that built a top-level structure. *)
Lemma TryBuildTLAS_built ndebug (stack : list Z) (frameIndex : nat) (uniform : list Z)
    (m : ASManager) res m' :
  TryBuildTLAS ndebug stack frameIndex uniform m = Ok res m' → built res = true →
  ∃ fr, assembleInstances ndebug (allStaticBlas m) (dynamicBlasOf m frameIndex)
          (initialFrame stack) = Ok tt fr
    ∧ instanceCount fr ≠ 0%nat
    ∧ ndebug || IsEmpty (asBuilder m) = true
    ∧ allStaticBlas m' = allStaticBlas m
    ∧ allDynamicBlas m' = allDynamicBlas m
    ∧ collectorStatic m' = collectorStatic m
    ∧ collectorDynamic m' = collectorDynamic m
    ∧ tlas m' = <[frameIndex := tlasAfterBuild m frameIndex (instanceCount fr)]> (tlas m)
    ∧ instanceBuffers m' =
        <[frameIndex := memcpy (default [] (instanceBuffers m !! frameIndex))
                          (instances fr) (instanceCount fr)]> (instanceBuffers m)
    ∧ bottomQueue (asBuilder m') = bottomQueue (asBuilder m)
    ∧ topQueue (asBuilder m') = []
    ∧ trace m' = trace m ++ tlasBuildEvents m frameIndex (instanceCount fr).
Proof.
  unfold TryBuildTLAS.
  destruct (assembleInstances _ _ _ _) as [[] fr|] eqn:Hasm; [|done].
  case_bool_decide as Hz.
  { intros [= <- <-]. done. }
  cbv zeta. intros Hrun _. exists fr. split; [done|]. split; [done|].
  apply bind_Ok in Hrun as ([] & s1 & H1 & Hrun). injection H1 as <-.
  apply bind_Ok in Hrun as (a' & s2 & H2 & Hrun).
  apply bind_Ok in Hrun as ([] & s3 & H3 & Hrun). injection H3 as <-.
  apply bind_Ok in Hrun as (b & s4 & H4 & Hrun). injection H4 as <- <-.
  apply bind_Ok in Hrun as ([] & s5 & H5 & Hrun).
  unfold assert in H5.
  destruct (ndebug || IsEmpty _) eqn:Hempty; [|done]. injection H5 as <-.
  apply bind_Ok in Hrun as ([] & s6 & H6 & Hrun). injection H6 as <-.
  apply bind_Ok in Hrun as ([] & s7 & H7 & Hrun).
  apply bind_Ok in H7 as (b7 & s7' & H7 & H7').
  injection H7 as <- <-.
  apply bind_Ok in H7' as ([] & s8 & H8 & H8'). injection H8 as <-. injection H8' as <-.
  apply bind_Ok in Hrun as ([] & s9 & H9 & Hrun). injection H9 as <-.
  apply bind_Ok in Hrun as ([] & s10 & H10 & Hrun). injection H10 as <-.
  injection Hrun as <- <-.
  unfold tlasAfterBuild, tlasBuildEvents. cbv zeta.
  destruct (GetSize (buffer (tlasOf m frameIndex)) <? GetTopBuildSizes (instanceCount fr) false)
    eqn:Hsz; unfold tlasAfterBuild; cbv zeta; rewrite Hsz.
  - apply bind_Ok in H2 as (a1 & t1 & Hd & H2). rewrite DestroyAS_run in Hd.
    injection Hd as <- <-.
    apply bind_Ok in H2 as (a2 & t2 & Hb & H2).
    unfold CreateASBuffer in Hb.
    apply bind_Ok in Hb as (h & t3 & Hh & Hb). injection Hh as <- <-.
    apply bind_Ok in Hb as ([] & t4 & He & Hb). injection He as <-. injection Hb as <- <-.
    unfold CreateAccelerationStructure in H2.
    apply bind_Ok in H2 as (h & t5 & Hh & H2). injection Hh as <- <-.
    apply bind_Ok in H2 as ([] & t6 & He & H2). injection He as <-. injection H2 as <- <-.
    cbn [asBuilder emitAll set_trace set_nextHandle set_tlas set_instanceBuffers
         set_asBuilder nextHandle trace as_ buffer filter nullAS GetBuffer buf_handle
         topQueue bottomQueue allStaticBlas allDynamicBlas tlas instanceBuffers collectorStatic
         collectorDynamic] in *.
    rewrite Hempty. repeat (split; [reflexivity|]).
    rewrite <- !app_assoc. reflexivity.
  - injection H2 as <- <-.
    cbn [asBuilder emitAll set_trace set_nextHandle set_tlas set_instanceBuffers
         set_asBuilder nextHandle trace as_ buffer filter nullAS GetBuffer buf_handle
         topQueue bottomQueue allStaticBlas allDynamicBlas tlas instanceBuffers collectorStatic
         collectorDynamic] in *.
    rewrite Hempty. repeat (split; [reflexivity|]).
    rewrite <- !app_assoc. reflexivity.
Qed.

Lemma memcpy_lookup_ge {A} (dst src : list A) (n k : nat) :
  (n ≤ k)%nat → (n ≤ length src)%nat → memcpy dst src n !! k = dst !! k.
Proof.
  intros Hk Hn. unfold memcpy.
  rewrite lookup_app_r by (rewrite length_take; lia).
  rewrite length_take, lookup_drop. f_equal. lia.
Qed.

(** X8.  The instance buffer of the frame after a build of at most 32
    instances: instance [i] is the one [SetupTLASInstance] makes of the
    [i]-th live structure (the static ones first, then the dynamic ones of
    the frame) from a zeroed slot, and the rest of the buffer is as it
    was. *)
Theorem TryBuildTLAS_instance_buffer ndebug (stack : list Z) (frameIndex : nat)
    (uniform : list Z) (m : ASManager) res m'
    (old : list VkAccelerationStructureInstanceKHR) :
  TryBuildTLAS ndebug stack frameIndex uniform m = Ok res m' → built res = true →
  instanceBuffers m !! frameIndex = Some old →
  let blas := allStaticBlas m ++ dynamicBlasOf m frameIndex in
  (length (liveBlas blas) ≤ instances_length)%nat →
  ∃ new, instanceBuffers m' !! frameIndex = Some new
    ∧ (∀ i a, liveBlas blas !! i = Some a → new !! i = SetupTLASInstance a zeroInstance)
    ∧ (∀ i, (length (liveBlas blas) ≤ i)%nat → new !! i = old !! i)
    ∧ (∀ g, g ≠ frameIndex → instanceBuffers m' !! g = instanceBuffers m !! g).
Proof.
  intros Hrun Hbuilt Hold blas Hn.
  destruct (TryBuildTLAS_built _ _ _ _ _ _ _ Hrun Hbuilt)
    as (fr & Hasm & _ & _ & _ & _ & _ & _ & _ & Hib & _).
  apply assembleInstances_returns in Hasm. fold blas in Hasm.
  destruct (pushAll_fields blas (initialFrame stack)) as (Hc & Hli & _).
  destruct (pushAll_instances blas (initialFrame stack)) as [Ha Hb].
  rewrite <- Hasm in Hc, Hli, Ha, Hb.
  unfold initialFrame in Hc, Hli, Ha, Hb. cbn [instanceCount instances] in Hc, Hli, Ha, Hb.
  rewrite length_replicate in Hli, Ha. simpl in Hc.
  rewrite Hib, Hold. cbn [default]. eexists. split.
  { apply list_lookup_insert_eq. by eapply lookup_lt_Some. }
  split; [|split].
  - intros i a Hi.
    assert (i < length (liveBlas blas))%nat by (by eapply lookup_lt_Some).
    rewrite memcpy_lookup by lia.
    specialize (Ha i a Hi). cbn [Nat.add] in Ha. rewrite Ha by lia.
    rewrite lookup_replicate_2 by lia. done.
  - intros i Hi. rewrite memcpy_lookup_ge by lia. done.
  - intros g Hg. by rewrite list_lookup_insert_ne.
Qed.

End TlasBuild.

Section Ownership.

Context `{FT : FilterTypeDecls} `{PF : Platform}.

Lemma bind_run {S A B} (c : M S A) (k : A → M S B) (s s1 : S) (a : A) :
  c s = Ok a s1 → (c ≫= k) s = k a s1.
Proof. intros H. unfold mbind, M_bind. by rewrite H. Qed.

Lemma mapM_DestroyAS (l : list AccelerationStructure) (m : ASManager) :
  mapM DestroyAS l m
  = Ok ((λ a, nullAS (filter a)) <$> l) (emitAll (l ≫= destroyEvents) m).
Proof.
  revert m. induction l as [|a l IH]; intros m.
  - cbn. by rewrite emitAll_nil.
  - rewrite mapM_cons, DestroyAS_run, IH, emitAll_app. done.
Qed.

Lemma destroyed_bind_destroyEvents (l : list AccelerationStructure) :
  destroyed (l ≫= destroyEvents) = heldBy l.
Proof.
  induction l as [|a l IH]; [done|].
  cbn [mbind list_bind]. rewrite destroyed_app, destroyed_destroyEvents, IH.
  by rewrite (heldBy_cons a l).
Qed.

Lemma created_bind_destroyEvents (l : list AccelerationStructure) :
  created (l ≫= destroyEvents) = ∅.
Proof.
  induction l as [|a l IH]; [done|].
  cbn [mbind list_bind]. rewrite created_app, created_destroyEvents, IH.
  clear. multiset_solver.
Qed.

(** The objects of a consistent state: created at most once, destroyed at
    most once and only after they were created, and otherwise held by
    exactly one record. *)
Lemma consistent_ownership (m : ASManager) :
  consistent m →
  created (trace m) = destroyed (trace m) ⊎ heldBy (allStructures m)
  ∧ ∀ r, (multiplicity r (created (trace m)) ≤ 1)%nat
         ∧ (multiplicity r (destroyed (trace m)) ≤ 1)%nat
         ∧ (multiplicity r (heldBy (allStructures m)) ≤ 1)%nat
         ∧ (r ∈ heldBy (allStructures m) → r ∉ destroyed (trace m))
         ∧ (r ∈ destroyed (trace m) → r ∈ created (trace m))
         ∧ (r ∈ created (trace m) → 0 < handleOf r < nextHandle m).
Proof.
  intros (_ & _ & _ & _ & Hb & [Hpos Hf] & _). split; [exact Hb|].
  intros r. destruct (Hf r) as [Hm Hr]. unfold balanced in Hb.
  pose proof (f_equal (multiplicity r) Hb) as He.
  rewrite multiplicity_disj_union in He.
  split; [exact Hm|]. rewrite He in Hm.
  split; [|split; [|split; [|split; [|exact Hr]]]].
  - set (d := multiplicity r (destroyed (trace m))) in *.
    set (h := multiplicity r (heldBy (allStructures m))) in *.
    clearbody d h. clear -Hm. lia.
  - set (d := multiplicity r (destroyed (trace m))) in *.
    set (h := multiplicity r (heldBy (allStructures m))) in *.
    clearbody d h. clear -Hm. lia.
  - rewrite !elem_of_multiplicity.
    set (d := multiplicity r (destroyed (trace m))) in *.
    set (h := multiplicity r (heldBy (allStructures m))) in *.
    clearbody d h. clear -Hm. lia.
  - rewrite !elem_of_multiplicity, He.
    set (d := multiplicity r (destroyed (trace m))) in *.
    set (h := multiplicity r (heldBy (allStructures m))) in *.
    clearbody d h. clear. lia.
Qed.

(** X16.  Of the acceleration structures and the buffers that back them (the
    objects of [CreateASBuffer], [svkCreateAccelerationStructureKHR] and
    [DestroyAS]), in every state the public calls lead to with frame indices
    in range: the ones created and not destroyed are the ones the structure
    records hold; no handle was created twice, none destroyed twice, none
    destroyed that was not created; no record holds a destroyed object and
    no two records hold the same object. *)
Theorem device_objects_owned_once ndebug (m : ASManager) :
  reachableInRange ndebug m →
  created (trace m) = destroyed (trace m) ⊎ heldBy (allStructures m)
  ∧ ∀ r, (multiplicity r (created (trace m)) ≤ 1)%nat
         ∧ (multiplicity r (destroyed (trace m)) ≤ 1)%nat
         ∧ (multiplicity r (heldBy (allStructures m)) ≤ 1)%nat
         ∧ (r ∈ heldBy (allStructures m) → r ∉ destroyed (trace m))
         ∧ (r ∈ destroyed (trace m) → r ∈ created (trace m))
         ∧ (r ∈ created (trace m) → 0 < handleOf r < nextHandle m).
Proof. intros Hm%reachableInRange_consistent. by apply consistent_ownership. Qed.

(** X17.  In every state the public calls lead to with frame indices in range,
    a structure record with a valid handle has an initialised buffer, and
    the builder's queues are empty. *)
Theorem records_live_have_buffer ndebug (m : ASManager) :
  reachableInRange ndebug m →
  Forall (λ a, isLive a = true → IsInitted (buffer a) = true) (allStructures m)
  ∧ IsEmpty (asBuilder m) = true.
Proof.
  intros Hm%reachableInRange_consistent. split.
  - destruct Hm as (_ & _ & _ & _ & _ & _ & Hwf).
    eapply Forall_impl; [exact Hwf|]. intros a Ha Hl. unfold wellFormed in Ha. congruence.
  - by apply staged_IsEmpty.
Qed.

End Ownership.

(** ** What a call leaves alone *)

Section RelatesRules.

Context {S : Type} (R : S → S → Prop) `{!PreOrder R}.

Lemma relates_bind {A B} (c : M S A) (k : A → M S B) :
  relates R c → (∀ a, relates R (k a)) → relates R (c ≫= k).
Proof.
  intros Hc Hk s b s' (a & s1 & H1 & H2)%bind_Ok.
  transitivity s1; [exact (Hc _ _ _ H1) | exact (Hk _ _ _ _ H2)].
Qed.

Lemma relates_ret {A} (a : A) : relates R (mret a : M S A).
Proof. intros s b s' [= <- <-]. reflexivity. Qed.

Lemma relates_get : relates R (get : M S S).
Proof. intros s b s' [= <- <-]. reflexivity. Qed.

Lemma relates_gets {A} (f : S → A) : relates R (gets f).
Proof. intros s b s' [= <- <-]. reflexivity. Qed.

Lemma relates_modify (f : S → S) : (∀ s, R s (f s)) → relates R (modify f).
Proof. intros Hf s [] s' [= <-]. apply Hf. Qed.

Lemma relates_assert ndebug (b : bool) : relates R (assert ndebug b : M S unit).
Proof. intros s u s' ->%assert_Ok. reflexivity. Qed.

Lemma relates_mapM {A B} (f : A → M S B) (l : list A) :
  (∀ a, relates R (f a)) → relates R (mapM f l).
Proof.
  intros Hf s l' s' Hrun.
  apply (mapM_inv f R (λ _ _, True) l l' s s'); [reflexivity| |by split; [|eapply Hf]|done].
  intros s1 s2 s3 ? ?. by transitivity s2.
Qed.

End RelatesRules.

Lemma relates_weaken {S A} (R R' : S → S → Prop) (c : M S A) :
  (∀ s s', R s s' → R' s s') → relates R c → relates R' c.
Proof. intros HR Hc s a s' H. apply HR, (Hc _ _ _ H). Qed.

Section LocalityLemmas.

Context `{FT : FilterTypeDecls} `{PF : Platform}.

#[global] Instance sameStructures_preorder : PreOrder sameStructures.
Proof.
  split.
  - intros m. unfold sameStructures. done.
  - intros m1 m2 m3 (H1 & H2 & H3 & H4 & H5 & H6) (G1 & G2 & G3 & G4 & G5 & G6).
    unfold sameStructures. rewrite G1, G2, G3, G4, G5, G6. done.
Qed.

#[global] Instance deviceStep_preorder : PreOrder deviceStep.
Proof.
  split.
  - intros m. split; [reflexivity|]. exists []. by rewrite app_nil_r.
  - intros m1 m2 m3 [H1 [es1 E1]] [H2 [es2 E2]]. split; [by transitivity m2|].
    exists (es1 ++ es2). by rewrite E2, E1, app_assoc.
Qed.

#[global] Instance outsideFrame_preorder (f : nat) : PreOrder (outsideFrame f).
Proof.
  split.
  - intros m. unfold outsideFrame. done.
  - intros m1 m2 m3 (H1 & H2 & H3 & H4 & H5) (G1 & G2 & G3 & G4 & G5).
    unfold outsideFrame. rewrite G1, G2, G3, G4.
    split; [done|]. split; [done|]. split; [done|]. split; [done|].
    intros g Hg. destruct (H5 g Hg) as [<- <-]. exact (G5 g Hg).
Qed.

#[global] Instance outsideStatic_preorder : PreOrder outsideStatic.
Proof.
  split.
  - intros m. unfold outsideStatic. done.
  - intros m1 m2 m3 (H1 & H2 & H3 & H4) (G1 & G2 & G3 & G4).
    unfold outsideStatic. rewrite G1, G2, G3, G4. done.
Qed.

#[global] Instance tlasKept_preorder : PreOrder tlasKept.
Proof.
  split.
  - intros m. split; [done|]. exists []. by rewrite app_nil_r.
  - intros m1 m2 m3 [H1 [es1 E1]] [H2 [es2 E2]]. split; [congruence|].
    exists (es1 ++ es2). by rewrite E2, E1, app_assoc.
Qed.

Lemma deviceStep_outsideFrame (f : nat) (m m' : ASManager) :
  deviceStep m m' → outsideFrame f m m'.
Proof.
  intros [(H1 & H2 & H3 & H4 & H5 & H6) _]. unfold outsideFrame.
  rewrite H1, H2, H3, H4, H5, H6. done.
Qed.

Lemma deviceStep_outsideStatic (m m' : ASManager) :
  deviceStep m m' → outsideStatic m m'.
Proof.
  intros [(H1 & H2 & H3 & H4 & H5 & H6) _]. unfold outsideStatic.
  rewrite H2, H3, H4, H6. done.
Qed.

Lemma deviceStep_tlasKept (m m' : ASManager) : deviceStep m m' → tlasKept m m'.
Proof. intros [(H1 & H2 & H3 & _) Ht]. by split. Qed.

Lemma deviceStep_emitAll (es : list Event) (m : ASManager) : deviceStep m (emitAll es m).
Proof. split; [done|]. by exists es. Qed.

Lemma emit_deviceStep (e : Event) : relates deviceStep (emit e).
Proof. intros m [] m'. rewrite emit_run. intros [= <-]. apply deviceStep_emitAll. Qed.

Lemma DestroyAS_deviceStep (a : AccelerationStructure) : relates deviceStep (DestroyAS a).
Proof. intros m a' m'. rewrite DestroyAS_run. intros [= _ <-]. apply deviceStep_emitAll. Qed.

Lemma SetupBLAS_deviceStep (a : AccelerationStructure) (c : VertexCollector) :
  relates deviceStep (SetupBLAS a c).
Proof.
  intros m a' m'. destruct (hasGeometry c a) eqn:Hg.
  - destruct (needsNewBuffer c a) eqn:Hn.
    + destruct (SetupBLAS_replace a c m Hg Hn) as (m1 & -> & Hsame & _ & Ht & _).
      intros [= _ <-]. split; [done|]. eauto.
    + destruct (SetupBLAS_keep a c m Hg Hn) as (m1 & -> & Hsame & _ & Ht & _).
      intros [= _ <-]. split; [done|]. exists []. by rewrite app_nil_r.
  - rewrite (SetupBLAS_empty a c m Hg). intros [= _ <-]. reflexivity.
Qed.

Lemma UpdateBLAS_deviceStep ndebug (a : AccelerationStructure) (c : VertexCollector) :
  relates deviceStep (UpdateBLAS ndebug a c).
Proof.
  intros m a' m'. destruct (hasGeometry c a) eqn:Hg.
  - unfold UpdateBLAS. rewrite (hasGeometry_true c a Hg).
    unfold mbind, M_bind, assert.
    destruct (ndebug || _); [|done]. intros [= _ <-].
    split; [done|]. exists []. by rewrite app_nil_r.
  - rewrite (UpdateBLAS_empty ndebug a c m Hg). intros [= _ <-]. reflexivity.
Qed.

Lemma BuildBottomLevel_deviceStep : relates deviceStep BuildBottomLevel.
Proof.
  intros m [] m'. unfold BuildBottomLevel, mbind, M_bind, gets. rewrite emit_run.
  intros [= <-]. split; [done|]. by eexists.
Qed.

End LocalityLemmas.

Ltac relates_steps W :=
  repeat first
    [ apply relates_ret; tc_solve
    | apply relates_get; tc_solve
    | apply relates_gets; tc_solve
    | apply relates_assert; tc_solve
    | apply (relates_weaken _ _ _ W), emit_deviceStep
    | apply (relates_weaken _ _ _ W), DestroyAS_deviceStep
    | apply (relates_weaken _ _ _ W), SetupBLAS_deviceStep
    | apply (relates_weaken _ _ _ W), UpdateBLAS_deviceStep
    | apply (relates_weaken _ _ _ W), BuildBottomLevel_deviceStep
    | apply relates_mapM; [.. | intros ?]; try tc_solve
    | apply relates_bind; [.. | intros ?]; try tc_solve
    | match goal with |- relates _ (if ?b then _ else _) => destruct b end
    | progress cbv zeta ].

Section LocalityTheorems.

Context `{FT : FilterTypeDecls} `{PF : Platform}.

Lemma SubmitDynamicGeometry_outsideFrame ndebug (frameIndex : nat) :
  relates (outsideFrame frameIndex) (SubmitDynamicGeometry ndebug frameIndex).
Proof.
  unfold SubmitDynamicGeometry.
  relates_steps (deviceStep_outsideFrame frameIndex).
  - apply relates_modify; intros m. unfold outsideFrame. cbn.
    split; [done|]. split; [done|]. split; [done|]. split; [done|].
    intros g Hg. by rewrite list_lookup_insert_ne.
  - apply relates_modify; intros m. unfold outsideFrame. cbn.
    split; [done|]. split; [done|]. split; [done|]. split; [done|].
    intros g Hg. by rewrite list_lookup_insert_ne.
Qed.

Lemma SubmitStaticGeometry_outsideStatic ndebug :
  relates outsideStatic (SubmitStaticGeometry ndebug).
Proof.
  unfold SubmitStaticGeometry.
  relates_steps deviceStep_outsideStatic;
    apply relates_modify; intros m; unfold outsideStatic; done.
Qed.

(** X14.  [SubmitDynamicGeometry] for one frame (in range) leaves the rest of
    the manager as it was: the static structures and their collector, the top-level
    structures, the instance buffers, and the dynamic structures and the
    collector of every other frame. *)
Theorem SubmitDynamicGeometry_frame_local ndebug (frameIndex : nat) (m m' : ASManager) :
  (frameIndex < length (allDynamicBlas m))%nat →
  (frameIndex < length (collectorDynamic m))%nat →
  SubmitDynamicGeometry ndebug frameIndex m = Ok tt m' →
  allStaticBlas m' = allStaticBlas m
  ∧ collectorStatic m' = collectorStatic m
  ∧ tlas m' = tlas m
  ∧ instanceBuffers m' = instanceBuffers m
  ∧ ∀ g, g ≠ frameIndex →
      dynamicBlasOf m' g = dynamicBlasOf m g
      ∧ collectorDynamicOf m' g = collectorDynamicOf m g.
Proof.
  intros _ _ Hrun.
  destruct (SubmitDynamicGeometry_outsideFrame ndebug frameIndex m tt m' Hrun)
    as (H1 & H2 & H3 & H4 & H5).
  split; [done|]. split; [done|]. split; [done|]. split; [done|].
  intros g Hg. destruct (H5 g Hg) as [Hd Hc].
  unfold dynamicBlasOf, collectorDynamicOf. by rewrite Hd, Hc.
Qed.

(** X13.  [SubmitStaticGeometry] leaves the dynamic structures and collectors of
    every frame, the top-level structures and the instance buffers as they
    were. *)
Theorem SubmitStaticGeometry_leaves_dynamic ndebug (m m' : ASManager) :
  SubmitStaticGeometry ndebug m = Ok tt m' →
  allDynamicBlas m' = allDynamicBlas m
  ∧ collectorDynamic m' = collectorDynamic m
  ∧ tlas m' = tlas m
  ∧ instanceBuffers m' = instanceBuffers m.
Proof. intros Hrun. exact (SubmitStaticGeometry_outsideStatic ndebug m tt m' Hrun). Qed.

End LocalityTheorems.

Section Descriptors.

Context `{FT : FilterTypeDecls} `{PF : Platform}.

Lemma tlasKept_current (m m' : ASManager) :
  tlasKept m m' → descriptorsCurrent m → descriptorsCurrent m'.
Proof.
  intros [Ht [es He]] Hm f Hf. unfold tlasOf in *. rewrite Ht in *.
  destruct (Hm f Hf) as (es1 & es2 & E & Hin).
  exists es1, (es2 ++ es). split; [|done].
  by rewrite He, E, <- app_assoc.
Qed.

Lemma modify_tlasKept (f : ASManager → ASManager) :
  (∀ m, tlas (f m) = tlas m ∧ trace (f m) = trace m) → relates tlasKept (modify f).
Proof.
  intros Hf. apply relates_modify. intros m. destruct (Hf m) as [Ht He].
  split; [done|]. exists []. by rewrite app_nil_r.
Qed.

Lemma perform_tlasKept ndebug (c : Call) :
  (∀ stack frameIndex uniform, c ≠ CallTryBuildTLAS stack frameIndex uniform) →
  relates tlasKept (perform ndebug c).
Proof.
  intros Hc. destruct c; cbn [perform];
    unfold ResetStaticGeometry, BeginStaticGeometry, AddStaticGeometry,
      SubmitStaticGeometry, BeginDynamicGeometry, AddDynamicGeometry,
      SubmitDynamicGeometry, UpdateStaticMovableTransform, ResubmitStaticMovable;
    try (by destruct (Hc stack frameIndex uniform));
    relates_steps deviceStep_tlasKept;
    try (apply modify_tlasKept; intros m; done).
Qed.

Lemma TryBuildTLAS_not_built ndebug (stack : list Z) (frameIndex : nat) (uniform : list Z)
    (m : ASManager) res m' :
  TryBuildTLAS ndebug stack frameIndex uniform m = Ok res m' → built res = false →
  m' = m ∧ uniform_instanceGeomInfoOffset res = uniform.
Proof.
  intros Hrun Hb.
  destruct (TryBuildTLAS_result _ _ _ _ _ _ _ Hrun) as (fr & Hasm & Hb' & _ & Hu).
  rewrite Hb in Hb'. symmetry in Hb'. apply negb_false_iff in Hb'.
  rewrite Hb' in Hu. split; [|done].
  revert Hrun. unfold TryBuildTLAS. rewrite Hasm, Hb'. by intros [= _ <-].
Qed.

Lemma TryBuildTLAS_current ndebug (stack : list Z) (frameIndex : nat) (uniform : list Z)
    (m : ASManager) res m' :
  TryBuildTLAS ndebug stack frameIndex uniform m = Ok res m' →
  descriptorsCurrent m → descriptorsCurrent m'.
Proof.
  intros Hrun Hm. destruct (built res) eqn:Hb.
  - destruct (TryBuildTLAS_built _ _ _ _ _ _ _ Hrun Hb)
      as (fr & _ & _ & _ & _ & _ & _ & _ & Ht & _ & _ & _ & He).
    set (n := instanceCount fr) in *.
    intros f Hf. unfold tlasOf in Hf |- *. rewrite Ht in Hf |- *.
    destruct (decide (f = frameIndex)) as [->|Hne].
    + destruct (decide (frameIndex < length (tlas m))%nat) as [Hlt|Hge].
      * rewrite list_lookup_insert_eq in Hf |- * by done. cbn [default] in Hf |- *.
        rewrite He. unfold tlasBuildEvents, tlasAfterBuild in *. cbv zeta in *.
        destruct (GetSize (buffer (tlasOf m frameIndex)) <? GetTopBuildSizes n false).
        -- cbn [as_] in *.
           eexists (trace m ++ (destroyEvents (tlasOf m frameIndex)
                     ++ [EvBufferInit (nextHandle m) (GetTopBuildSizes n false);
                         EvCreateAccelerationStructure (nextHandle m + 1) (nextHandle m)
                           (GetTopBuildSizes n false) true])
                     ++ [_; EvASBuildMemoryBarrier]), [].
           split.
           { rewrite <- !app_assoc. cbn [app]. done. }
           rewrite !created_app, created_pair. clear. multiset_solver.
        -- destruct (Hm frameIndex Hf) as (es1 & es2 & E & Hin).
           exists es1, (es2 ++ [EvBuildTopLevel
             (topQueue (asBuilder m)
              ++ [{| tbr_as := as_ (tlasOf m frameIndex); tbr_instanceCount := n;
                     tbr_accelerationStructureSize := GetTopBuildSizes n false;
                     tbr_fastTrace := true; tbr_update := false |}]);
             EvASBuildMemoryBarrier; EvUpdateASDescriptors frameIndex]).
           split; [|exact Hin]. cbn [app]. rewrite E, <- app_assoc. done.
      * rewrite list_insert_ge in Hf |- * by lia.
        destruct (Hm frameIndex Hf) as (es1 & es2 & E & Hin).
        exists es1, (es2 ++ tlasBuildEvents m frameIndex n). split; [|exact Hin].
        rewrite He, E, <- app_assoc. done.
    + rewrite list_lookup_insert_ne in Hf |- * by done.
      destruct (Hm f Hf) as (es1 & es2 & E & Hin).
      exists es1, (es2 ++ tlasBuildEvents m frameIndex n). split; [|exact Hin].
      rewrite He, E, <- app_assoc. done.
  - by destruct (TryBuildTLAS_not_built _ _ _ _ _ _ _ Hrun Hb) as (-> & _).
Qed.

Lemma reachable_current ndebug (m : ASManager) :
  reachable ndebug m → descriptorsCurrent m.
Proof.
  induction 1 as [|m m' c _ IH Hrun].
  - intros f Hf. exfalso. apply Hf. unfold tlasOf, ASManager_new. cbn [tlas].
    destruct (replicate _ _ !! f) eqn:E; [|done].
    apply lookup_replicate in E as [-> _]. done.
  - destruct c;
      try (apply (tlasKept_current m); [|exact IH];
           eapply (perform_tlasKept ndebug); [|exact Hrun]; done).
    cbn [perform] in Hrun. apply bind_Ok in Hrun as (res & m1 & Hrun & [= <-]).
    by eapply TryBuildTLAS_current.
Qed.

(** X11.  Whenever [GetTLASDescSet] returns a descriptor set for a frame, the
    descriptors of that frame were updated after the top-level structure the
    frame holds was created: the set never refers to a structure that was
    created after the last update. *)
Theorem GetTLASDescSet_descriptors_current ndebug (asDescSets : list Z) (m : ASManager)
    (frameIndex : nat) :
  reachable ndebug m →
  GetTLASDescSet asDescSets m frameIndex ≠ VK_NULL_HANDLE →
  ∃ es1 es2, trace m = es1 ++ EvUpdateASDescriptors frameIndex :: es2
             ∧ inr (as_ (tlasOf m frameIndex)) ∈ created es1.
Proof.
  intros Hm Hset. apply (reachable_current ndebug m Hm).
  intros Hnull. apply Hset. unfold GetTLASDescSet. by rewrite Hnull.
Qed.

(** X7.  [TryBuildTLAS] for a frame in range builds exactly when some
    structure it visits is live; when it does not build it leaves the
    manager and the uniform block as they were. *)
Theorem TryBuildTLAS_builds_iff_live ndebug (stack : list Z) (frameIndex : nat)
    (uniform : list Z) (m : ASManager) res m' :
  (frameIndex < length (allDynamicBlas m))%nat →
  TryBuildTLAS ndebug stack frameIndex uniform m = Ok res m' →
  (built res = true ↔ liveBlas (allStaticBlas m ++ dynamicBlasOf m frameIndex) ≠ [])
  ∧ (built res = false → m' = m ∧ uniform_instanceGeomInfoOffset res = uniform).
Proof.
  intros _ Hrun. split; [|intros Hb; exact (TryBuildTLAS_not_built _ _ _ _ _ _ _ Hrun Hb)].
  destruct (TryBuildTLAS_result _ _ _ _ _ _ _ Hrun) as (fr & Hasm & Hb & _).
  apply assembleInstances_returns in Hasm.
  destruct (pushAll_fields (allStaticBlas m ++ dynamicBlasOf m frameIndex)
              (initialFrame stack)) as (Hc & _).
  rewrite <- Hasm in Hc. unfold initialFrame in Hc. cbn [instanceCount] in Hc.
  rewrite Hb, Hc, negb_true_iff, bool_decide_eq_false.
  destruct (liveBlas _); simpl; split; intros H; try done; lia.
Qed.

End Descriptors.

Section TopLevel.

Context `{FT : FilterTypeDecls} `{PF : Platform}.

Lemma created_buildTail (q : list TopBuildRequest) (f : nat) :
  created [EvBuildTopLevel q; EvASBuildMemoryBarrier; EvUpdateASDescriptors f] = ∅.
Proof. reflexivity. Qed.

Lemma destroyed_buildTail (q : list TopBuildRequest) (f : nat) :
  destroyed [EvBuildTopLevel q; EvASBuildMemoryBarrier; EvUpdateASDescriptors f] = ∅.
Proof. reflexivity. Qed.

(** The top-level record of the frame after [TryBuildTLAS] built [n]
    instances. *)
Lemma TryBuildTLAS_count ndebug (stack : list Z) (frameIndex : nat) (uniform : list Z)
    (m : ASManager) res m' :
  TryBuildTLAS ndebug stack frameIndex uniform m = Ok res m' → built res = true →
  let n := length (liveBlas (allStaticBlas m ++ dynamicBlasOf m frameIndex)) in
  tlas m' = <[frameIndex := tlasAfterBuild m frameIndex n]> (tlas m)
  ∧ trace m' = trace m ++ tlasBuildEvents m frameIndex n.
Proof.
  intros Hrun Hb n.
  destruct (TryBuildTLAS_built _ _ _ _ _ _ _ Hrun Hb)
    as (fr & Hasm & _ & _ & _ & _ & _ & _ & Ht & _ & _ & _ & He).
  apply assembleInstances_returns in Hasm.
  destruct (pushAll_fields (allStaticBlas m ++ dynamicBlasOf m frameIndex)
              (initialFrame stack)) as (Hc & _).
  rewrite <- Hasm in Hc. unfold initialFrame in Hc. cbn [instanceCount] in Hc.
  simpl in Hc. fold n in Hc. rewrite Hc in Ht, He. done.
Qed.

(** X9.  After [TryBuildTLAS] built the top-level structure of a frame, the
    buffer of the frame's record is at least as large as the build requires.
    A buffer that was large enough is kept with its structure, and nothing
    is created or destroyed; otherwise what the old record held is destroyed
    and a buffer of exactly the required size is created for the record.
    The records of the other frames are untouched. *)
Theorem TryBuildTLAS_tlas_buffer ndebug (stack : list Z) (frameIndex : nat)
    (uniform : list Z) (m : ASManager) res m' :
  TryBuildTLAS ndebug stack frameIndex uniform m = Ok res m' → built res = true →
  (frameIndex < length (tlas m))%nat →
  let size :=
    GetTopBuildSizes (length (liveBlas (allStaticBlas m ++ dynamicBlasOf m frameIndex)))
      false in
  let old := tlasOf m frameIndex in
  let new := tlasOf m' frameIndex in
  size ≤ GetSize (buffer new)
  ∧ (size ≤ GetSize (buffer old) →
       new = old
       ∧ created (trace m') = created (trace m)
       ∧ destroyed (trace m') = destroyed (trace m))
  ∧ (GetSize (buffer old) < size →
       buffer new = Some {| buf_handle := nextHandle m; buf_size := size |}
       ∧ inl (nextHandle m) ∈ created (trace m')
       ∧ destroyed (trace m') = destroyed (trace m) ⊎ heldBy [old])
  ∧ (∀ g, g ≠ frameIndex → tlasOf m' g = tlasOf m g).
Proof.
  intros Hrun Hb Hlt size old new.
  destruct (TryBuildTLAS_count _ _ _ _ _ _ _ Hrun Hb) as [Ht He]. cbv zeta in Ht, He.
  assert (Hnew : new = tlasAfterBuild m frameIndex
            (length (liveBlas (allStaticBlas m ++ dynamicBlasOf m frameIndex)))).
  { unfold new, tlasOf. rewrite Ht, list_lookup_insert_eq by done. reflexivity. }
  rewrite He. unfold tlasBuildEvents. rewrite Hnew. unfold tlasAfterBuild. cbv zeta.
  fold size old.
  destruct (Z.ltb_spec (GetSize (buffer old)) size) as [Hsmall|Hbig].
  - split; [simpl; lia|]. split; [lia|]. split.
    + intros _. split; [done|].
      rewrite !created_app, !destroyed_app, created_buildTail, destroyed_buildTail,
        created_destroyEvents, destroyed_destroyEvents, created_pair, destroyed_pair.
      split; clear; multiset_solver.
    + intros g Hg. unfold tlasOf. by rewrite Ht, list_lookup_insert_ne.
  - split; [done|]. split.
    + intros _. split; [done|].
      rewrite app_nil_l, !created_app, !destroyed_app, created_buildTail,
        destroyed_buildTail.
      split; clear; multiset_solver.
    + split; [lia|]. intros g Hg. unfold tlasOf. by rewrite Ht, list_lookup_insert_ne.
Qed.

End TopLevel.

(** ** The destructor and the static submission *)

Section Teardown.

Context `{FT : FilterTypeDecls} `{PF : Platform}.

Lemma gets_bind {S A B} (f : S → A) (k : A → M S B) (s : S) :
  (gets f ≫= k) s = k (f s) s.
Proof. reflexivity. Qed.

Lemma modify_bind {S B} (f : S → S) (k : unit → M S B) (s : S) :
  (modify f ≫= k) s = k tt (f s).
Proof. reflexivity. Qed.

Lemma mapM_DestroyAS_bind {B} (l : list AccelerationStructure)
    (k : list AccelerationStructure → M ASManager B) (m : ASManager) :
  (mapM DestroyAS l ≫= k) m
  = k ((λ a, nullAS (filter a)) <$> l) (emitAll (l ≫= destroyEvents) m).
Proof. unfold mbind at 1, M_bind at 1. by rewrite mapM_DestroyAS. Qed.

Lemma DestroyAS_bind {B} (a : AccelerationStructure)
    (k : AccelerationStructure → M ASManager B) (m : ASManager) :
  (DestroyAS a ≫= k) m = k (nullAS (filter a)) (emitAll (destroyEvents a) m).
Proof. unfold mbind at 1, M_bind at 1. by rewrite DestroyAS_run. Qed.

Lemma bind_assoc_run {S A B C} (c : M S A) (k : A → M S B) (k' : B → M S C) (s : S) :
  ((c ≫= k) ≫= k') s = (c ≫= λ a, k a ≫= k') s.
Proof. unfold mbind, M_bind. by destruct (c s). Qed.

Lemma bind_ret_run {S A} (c : M S A) (s : S) : (c ≫= mret) s = c s.
Proof. unfold mbind, M_bind. by destruct (c s). Qed.

Lemma Forall_nulls (l : list AccelerationStructure) :
  Forall (λ a, as_ a = VK_NULL_HANDLE ∧ buffer a = None) ((λ a, nullAS (filter a)) <$> l).
Proof. apply Forall_fmap, Forall_true. done. Qed.

(** X18.  The loops of the destructor on a manager that was used through the
    public calls with frame indices in range: they return, afterwards every
    acceleration structure and every buffer backing one that was created
    has been destroyed, none was destroyed twice, and every structure
    record is empty. *)
Theorem ASManager_delete_releases_everything ndebug (m : ASManager) :
  reachableInRange ndebug m →
  ∃ m', ASManager_delete m = Ok tt m'
    ∧ created (trace m') = destroyed (trace m')
    ∧ (∀ r, (multiplicity r (destroyed (trace m')) ≤ 1)%nat)
    ∧ Forall (λ a, as_ a = VK_NULL_HANDLE ∧ buffer a = None) (allStructures m').
Proof.
  intros Hm%reachableInRange_consistent.
  destruct Hm as (Hnew & Hlen & _ & _ & Hbal & [_ Hfresh] & _).
  assert (Hdlen : length (allDynamicBlas m) = 2%nat).
  { unfold structuresAsNew, structureFilters in Hnew. injection Hnew as _ Hd.
    apply (f_equal length) in Hd. by rewrite !length_map in Hd. }
  unfold balanced, allStructures in Hbal.
  destruct m as [st dy tl ib cs cd ab nh tr]. cbn [allDynamicBlas tlas trace allStaticBlas] in *.
  destruct dy as [|d0 [|d1 [|]]]; try done.
  destruct tl as [|t0 [|t1 [|]]]; try done.
  unfold ASManager_delete, MAX_FRAMES_IN_FLIGHT. cbn [seq forM_].
  repeat (rewrite ?bind_assoc_run;
          first [ rewrite gets_bind | rewrite mapM_DestroyAS_bind | rewrite modify_bind
                | rewrite DestroyAS_bind ];
          cbv beta).
  eexists. split; [reflexivity|].
  cbn -[created destroyed heldBy destroyEvents].
  rewrite !app_nil_r in *.
  rewrite <- !app_assoc.
  rewrite !created_app, !destroyed_app, !created_bind_destroyEvents,
    !destroyed_bind_destroyEvents, !created_destroyEvents, !destroyed_destroyEvents.
  change (concat [d0; d1]) with (d0 ++ d1 ++ []) in Hbal.
  rewrite !heldBy_app, (heldBy_cons t0 [t1]), heldBy_nil in Hbal.
  assert (Hall : created tr
            = destroyed tr ⊎ (heldBy st ⊎ (heldBy d0 ⊎ (heldBy [t0] ⊎ (heldBy d1 ⊎ heldBy [t1]))))).
  { rewrite Hbal. clear. multiset_solver. }
  split; [|split].
  - rewrite Hall. clear. multiset_solver.
  - intros r. destruct (Hfresh r) as [Hr _]. rewrite Hall in Hr. exact Hr.
  - unfold allStructures. cbn. rewrite !Forall_app.
    repeat split; try apply Forall_nulls. repeat constructor.
Qed.

Lemma destroyStep_inv ndebug (a b : AccelerationStructure) (s s' : ASManager) :
  (assert ndebug (negb (hasAny (filter a) CF_DYNAMIC)) ≫= λ _,
   if hasAny (filter a) staticFlags then DestroyAS a else mret a) s = Ok b s' →
  (hasAny (filter a) staticFlags = true → b = nullAS (filter a)) ∧ deviceStep s s'.
Proof.
  intros (u & s1 & H1 & H2)%bind_Ok. apply assert_Ok in H1 as ->.
  destruct (hasAny (filter a) staticFlags).
  - rewrite DestroyAS_run in H2. injection H2 as <- <-.
    split; [done | apply deviceStep_emitAll].
  - injection H2 as <- <-. split; [done | reflexivity].
Qed.

Lemma setupStep_inv (c : VertexCollector) (a b : AccelerationStructure) (s s' : ASManager) :
  (if hasAny (filter a) staticFlags then SetupBLAS a c else mret a) s = Ok b s' →
  (filter b = filter a ∧ (hasGeometry c a = false → b = a)) ∧ deviceStep s s'.
Proof.
  destruct (hasAny (filter a) staticFlags).
  - intros H. split; [|by eapply SetupBLAS_deviceStep].
    split; [by eapply SetupBLAS_inv|].
    intros Hg. rewrite (SetupBLAS_empty a c s Hg) in H. by injection H as <- _.
  - intros [= <- <-]. split; [done | reflexivity].
Qed.

Lemma Forall2_nulls (l l1 : list AccelerationStructure) :
  Forall (λ a, hasAny (filter a) staticFlags = true) l →
  Forall2 (λ a b, hasAny (filter a) staticFlags = true → b = nullAS (filter a)) l l1 →
  Forall (λ b, b = nullAS (filter b)) l1 ∧ map filter l1 = map filter l.
Proof.
  intros Hl H. induction H as [|a b l l1 Hab _ IH]; [done|].
  apply Forall_cons in Hl as [Ha Hl]. destruct (IH Hl) as [IH1 IH2].
  rewrite (Hab Ha). split; [constructor; done|]. simpl. by rewrite IH2.
Qed.

Lemma Forall2_setup (c : VertexCollector) (l1 l2 : list AccelerationStructure) :
  Forall (λ b, b = nullAS (filter b)) l1 →
  Forall2 (λ a b, filter b = filter a ∧ (hasGeometry c a = false → b = a)) l1 l2 →
  Forall (λ a', hasGeometry c a' = false → as_ a' = VK_NULL_HANDLE ∧ buffer a' = None) l2
  ∧ map filter l2 = map filter l1.
Proof.
  intros Hl H. induction H as [|a b l1 l2 [Hf Hab] _ IH]; [done|].
  apply Forall_cons in Hl as [Ha Hl]. destruct (IH Hl) as [IH1 IH2].
  split; [|simpl; by rewrite Hf, IH2].
  constructor; [|done]. intros Hg.
  assert (Hga : hasGeometry c a = false).
  { unfold hasGeometry in *. by rewrite <- Hf. }
  rewrite (Hab Hga), Ha. done.
Qed.

(** X12.  On a manager whose static records all carry a static
    change-frequency bit, after a [SubmitStaticGeometry] that returned, a
    static record whose filter group holds no geometry in the static
    collector has a null handle and no buffer: a live static structure
    always has geometry.  The call keeps the filter tags. *)
Theorem SubmitStaticGeometry_live_has_geometry ndebug (m m' : ASManager) :
  Forall (λ a, hasAny (filter a) staticFlags = true) (allStaticBlas m) →
  SubmitStaticGeometry ndebug m = Ok tt m' →
  Forall (λ a', hasGeometry (collectorStatic m) a' = false →
                as_ a' = VK_NULL_HANDLE ∧ buffer a' = None) (allStaticBlas m')
  ∧ map filter (allStaticBlas m') = map filter (allStaticBlas m).
Proof.
  intros Htags Hrun. unfold SubmitStaticGeometry, EndCollecting in Hrun.
  apply bind_Ok in Hrun as ([] & s1 & H1 & Hrun). injection H1 as <-.
  rewrite set_collectorStatic_id in Hrun.
  apply bind_Ok in Hrun as (blas & s2 & H2 & Hrun). injection H2 as <- <-.
  apply bind_Ok in Hrun as (blas1 & s3 & H3 & Hrun).
  apply (mapM_inv _ deviceStep
           (λ a b, hasAny (filter a) staticFlags = true → b = nullAS (filter a))) in H3
    as [HQ1 [Hsame1 _]];
    [|reflexivity|intros ? ? ? ? ?; by etransitivity|apply destroyStep_inv].
  destruct (Forall2_nulls _ _ Htags HQ1) as [Hnull Hf1].
  apply bind_Ok in Hrun as ([] & s4 & H4 & Hrun). injection H4 as <-.
  apply bind_Ok in Hrun as (bld & s5 & H5 & Hrun). injection H5 as <- <-.
  apply bind_Ok in Hrun as ([] & s6 & H6 & Hrun). apply assert_Ok in H6 as ->.
  apply bind_Ok in Hrun as (c & s7 & H7 & Hrun). injection H7 as <- <-.
  assert (Hc : collectorStatic s3 = collectorStatic m).
  { destruct Hsame1 as (_ & _ & _ & _ & Hcs & _). exact Hcs. }
  rewrite Hc in Hrun.
  destruct (AreGeometriesEmpty (collectorStatic m) staticFlags).
  - injection Hrun as <-. cbn [allStaticBlas set_allStaticBlas]. split; [|exact Hf1].
    eapply Forall_impl; [exact Hnull|]. intros a -> _. done.
  - apply bind_Ok in Hrun as ([] & s8 & H8 & Hrun). rewrite emit_run in H8.
    injection H8 as <-.
    apply bind_Ok in Hrun as (blas1' & s9 & H9 & Hrun). injection H9 as <- <-.
    cbn [allStaticBlas set_allStaticBlas emitAll set_trace] in Hrun.
    apply bind_Ok in Hrun as (blas2 & s10 & H10 & Hrun).
    apply (mapM_inv _ deviceStep
             (λ a b, filter b = filter a
                     ∧ (hasGeometry (collectorStatic m) a = false → b = a))) in H10
      as [HQ2 _];
      [|reflexivity|intros ? ? ? ? ?; by etransitivity|apply setupStep_inv].
    destruct (Forall2_setup _ _ _ Hnull HQ2) as [Hres Hf2].
    apply bind_Ok in Hrun as ([] & s11 & H11 & Hrun). injection H11 as <-.
    apply bind_Ok in Hrun as ([] & s12 & H12 & Hrun).
    apply BuildBottomLevel_deviceStep in H12 as [(Hst & _) _].
    rewrite emit_run in Hrun. injection Hrun as <-.
    cbn [allStaticBlas emitAll set_trace]. rewrite Hst.
    cbn [allStaticBlas set_allStaticBlas]. split; [exact Hres | congruence].
Qed.

End Teardown.

(** ** The properties on the example runs *)

Section ExampleRuns.

Local Existing Instance exampleDecls.
Local Existing Instance examplePlatform.
Local Existing Instance exampleMath.

Import VertexData VertexDataWriteable.

Lemma twoStaticGroups_reachableInRange : reachableInRange false twoStaticGroups.
Proof.
  pose (i1 := exampleInfo RG_GEOMETRY_TYPE_STATIC RG_GEOMETRY_PASS_THROUGH_TYPE_OPAQUE).
  pose (i2 := exampleInfo RG_GEOMETRY_TYPE_STATIC
                RG_GEOMETRY_PASS_THROUGH_TYPE_ALPHA_TESTED).
  pose (m1 := run (perform false CallBeginStaticGeometry) ASManager_new).
  pose (m2 := run (perform false (CallAddStaticGeometry i1)) m1).
  pose (m3 := run (perform false (CallAddStaticGeometry i2)) m2).
  assert (R1 : reachableInRange false m1).
  { apply (reachableInRange_call false ASManager_new m1 CallBeginStaticGeometry);
      [apply reachableInRange_new | exact I | vm_compute; reflexivity]. }
  assert (R2 : reachableInRange false m2).
  { apply (reachableInRange_call false m1 m2 (CallAddStaticGeometry i1));
      [exact R1 | exact I | vm_compute; reflexivity]. }
  assert (R3 : reachableInRange false m3).
  { apply (reachableInRange_call false m2 m3 (CallAddStaticGeometry i2));
      [exact R2 | exact I | vm_compute; reflexivity]. }
  apply (reachableInRange_call false m3 twoStaticGroups CallSubmitStaticGeometry);
    [exact R3 | exact I | vm_compute; reflexivity].
Qed.


Lemma twoStaticAdded_reachableInRange : reachableInRange false twoStaticAdded.
Proof.
  pose (i1 := exampleInfo RG_GEOMETRY_TYPE_STATIC RG_GEOMETRY_PASS_THROUGH_TYPE_OPAQUE).
  pose (i2 := exampleInfo RG_GEOMETRY_TYPE_STATIC
                RG_GEOMETRY_PASS_THROUGH_TYPE_ALPHA_TESTED).
  pose (m1 := run (perform false CallBeginStaticGeometry) ASManager_new).
  pose (m2 := run (perform false (CallAddStaticGeometry i1)) m1).
  assert (R1 : reachableInRange false m1).
  { apply (reachableInRange_call false ASManager_new m1 CallBeginStaticGeometry);
      [apply reachableInRange_new | exact I | vm_compute; reflexivity]. }
  assert (R2 : reachableInRange false m2).
  { apply (reachableInRange_call false m1 m2 (CallAddStaticGeometry i1));
      [exact R1 | exact I | vm_compute; reflexivity]. }
  apply (reachableInRange_call false m2 twoStaticAdded (CallAddStaticGeometry i2));
    [exact R2 | exact I | vm_compute; reflexivity].
Qed.

Lemma twoStaticGroupsBuilt_reachable : reachable false twoStaticGroupsBuilt.
Proof.
  apply (reachable_call false twoStaticGroups twoStaticGroupsBuilt
           (CallTryBuildTLAS (replicate 180 0) 0 (replicate 48 0)));
    [exact twoStaticGroups_reachable | vm_compute; reflexivity].
Qed.

(** Vertex 1 of the example bindings, whose strides are three and two floats:
    written and read back, and read after a write to vertex 0. *)
Lemma set_then_get_vertex_witness :
  (∃ b', setStaticVerticesPositions 1 (7, 8, 9) (exampleBindings []) = Some b'
     ∧ getStaticVerticesPositions b' 1 = (7, 8, 9))
  ∧ (∃ t', setDynamicVerticesTexCoords 1 (7, 8) exampleTexCoords = Some t'
       ∧ getDynamicVerticesTexCoords t' 1 = (7, 8)).
Proof.
  destruct (set_then_get_vertex (exampleBindings []) exampleTexCoords 1 (7, 8, 9) (7, 8))
    as (H1 & _ & _ & _ & _ & _ & _ & H8).
  split; [apply H1 | apply H8]; unfold withinArray; vm_compute;
    (split; [discriminate | split; discriminate]).
Defined.

Lemma set_vertex_leaves_other_vertices_witness :
  (∃ b', setStaticVerticesPositions 0 (7, 8, 9) (exampleBindings []) = Some b'
     ∧ getStaticVerticesPositions b' 1 = getStaticVerticesPositions (exampleBindings []) 1)
  ∧ (∃ t', setDynamicVerticesTexCoords 0 (7, 8) exampleTexCoords = Some t'
       ∧ getDynamicVerticesTexCoords t' 1 = getDynamicVerticesTexCoords exampleTexCoords 1).
Proof.
  destruct (set_vertex_leaves_other_vertices (exampleBindings []) exampleTexCoords 0 1
              (7, 8, 9) (7, 8))
    as (H1 & _ & _ & _ & _ & _ & _ & H8); [lia|].
  split; [apply H1 | apply H8]; try (simpl; lia); unfold withinArray; vm_compute;
    (split; [discriminate | split; discriminate]).
Defined.

(** Vertex 5 of the example bindings, whose strides are three floats. *)
Lemma vertex_fetch_within_arrays_witness :
  getStaticVerticesPositions (exampleBindings []) 5
  = getStaticVerticesPositions (exampleBindings [4]) 5
  ∧ getDynamicVerticesNormals (exampleBindings []) 5
    = getDynamicVerticesNormals (exampleBindings [4]) 5.
Proof.
  destruct (vertex_fetch_within_arrays (exampleBindings []) (exampleBindings [4]) 5)
    as [Hs Hd]; try (simpl; lia); try reflexivity.
  split.
  - apply Hs; [vm_compute; split; [discriminate | reflexivity]|]. intros k Hk. reflexivity.
  - apply Hd; [vm_compute; split; [discriminate | reflexivity]|]. intros k Hk. reflexivity.
Defined.

(** Primitives 0 and 1 of a geometry without index buffer whose vertices
    start at 10. *)
Lemma vertIndices_without_index_buffer_witness :
  vertIndices (λ i, i) 10 UINT32_MAX 0 = (10, 11, 12)
  ∧ vertIndices (λ i, 2 * i) 10 UINT32_MAX 0 = vertIndices (λ i, i) 10 UINT32_MAX 0
  ∧ (vertIndices (λ i, i) 10 UINT32_MAX 0).2 < (vertIndices (λ i, i) 10 UINT32_MAX 1).1.1.
Proof.
  apply (vertIndices_without_index_buffer (λ i, i) (λ i, 2 * i) 10 0 1); lia.
Defined.

(** The instance buffer of frame 0 after a build on the manager with two
    static groups: its first two instances are those of the two live
    structures. *)
Lemma TryBuildTLAS_instance_buffer_witness :
  ∃ new, instanceBuffers twoStaticGroupsBuilt !! 0%nat = Some new
    ∧ (∀ i a, liveBlas (allStaticBlas twoStaticGroups ++ dynamicBlasOf twoStaticGroups 0)
                !! i = Some a →
         new !! i = SetupTLASInstance a zeroInstance).
Proof.
  destruct (TryBuildTLAS false (replicate 180 0) 0 (replicate 48 0) twoStaticGroups)
    as [res m'|] eqn:Hrun; [|vm_compute in Hrun; discriminate].
  assert (Hm' : twoStaticGroupsBuilt = m').
  { unfold twoStaticGroupsBuilt, run. by rewrite Hrun. }
  destruct (TryBuildTLAS_instance_buffer false (replicate 180 0) 0 (replicate 48 0)
              twoStaticGroups res m'
              (replicate MAX_TOP_LEVEL_INSTANCE_COUNT zeroInstance) Hrun)
    as (new & Hnew & Hlive & _).
  - vm_compute in Hrun. injection Hrun as <- _. reflexivity.
  - vm_compute. reflexivity.
  - vm_compute. lia.
  - exists new. rewrite Hm'. split; [exact Hnew | exact Hlive].
Defined.

(** The manager with two static groups: what the device created is what the
    records hold. *)
Lemma device_objects_owned_once_witness :
  reachableInRange false twoStaticGroups
  ∧ created (trace twoStaticGroups)
    = destroyed (trace twoStaticGroups) ⊎ heldBy (allStructures twoStaticGroups).
Proof.
  split; [exact twoStaticGroups_reachableInRange|].
  apply (device_objects_owned_once false twoStaticGroups twoStaticGroups_reachableInRange).
Defined.

Lemma records_live_have_buffer_witness :
  reachableInRange false twoStaticGroups
  ∧ Forall (λ a, isLive a = true → IsInitted (buffer a) = true) (allStructures twoStaticGroups)
  ∧ IsEmpty (asBuilder twoStaticGroups) = true.
Proof.
  split; [exact twoStaticGroups_reachableInRange|].
  apply (records_live_have_buffer false twoStaticGroups twoStaticGroups_reachableInRange).
Defined.

(** Submitting the dynamic geometry of frame 0 on a manager with two static
    groups. *)
Lemma SubmitDynamicGeometry_frame_local_witness :
  let m' := run (SubmitDynamicGeometry false 0) oneDynamicAdded in
  SubmitDynamicGeometry false 0 oneDynamicAdded = Ok tt m'
  ∧ allStaticBlas m' = allStaticBlas oneDynamicAdded
  ∧ tlas m' = tlas oneDynamicAdded
  ∧ dynamicBlasOf m' 1 = dynamicBlasOf oneDynamicAdded 1.
Proof.
  cbv zeta.
  assert (Hrun : SubmitDynamicGeometry false 0 oneDynamicAdded
                 = Ok tt (run (SubmitDynamicGeometry false 0) oneDynamicAdded)).
  { vm_compute. reflexivity. }
  split; [exact Hrun|].
  destruct (SubmitDynamicGeometry_frame_local false 0 oneDynamicAdded
              (run (SubmitDynamicGeometry false 0) oneDynamicAdded))
    as (Hs & _ & Ht & _ & Hg);
    [vm_compute; lia | vm_compute; lia | exact Hrun |].
  split; [exact Hs|]. split; [exact Ht|]. apply (Hg 1%nat). lia.
Defined.

Lemma SubmitStaticGeometry_leaves_dynamic_witness :
  let m' := run (SubmitStaticGeometry false) twoStaticAdded in
  SubmitStaticGeometry false twoStaticAdded = Ok tt m'
  ∧ allDynamicBlas m' = allDynamicBlas twoStaticAdded
  ∧ tlas m' = tlas twoStaticAdded.
Proof.
  cbv zeta.
  assert (Hrun : SubmitStaticGeometry false twoStaticAdded
                 = Ok tt (run (SubmitStaticGeometry false) twoStaticAdded)).
  { vm_compute. reflexivity. }
  split; [exact Hrun|].
  destruct (SubmitStaticGeometry_leaves_dynamic false twoStaticAdded _ Hrun)
    as (Hd & _ & Ht & _).
  split; [exact Hd | exact Ht].
Defined.

(** After the build of frame 0 on the manager with two static groups
    [GetTLASDescSet] returns the set of frame 0, and the trace has the
    update of its descriptors. *)
Lemma GetTLASDescSet_descriptors_current_witness :
  GetTLASDescSet [7; 9] twoStaticGroupsBuilt 0 = 7
  ∧ ∃ es1 es2, trace twoStaticGroupsBuilt = es1 ++ EvUpdateASDescriptors 0 :: es2
      ∧ inr (as_ (tlasOf twoStaticGroupsBuilt 0)) ∈ created es1.
Proof.
  split; [vm_compute; reflexivity|].
  apply (GetTLASDescSet_descriptors_current false [7; 9] twoStaticGroupsBuilt 0
           twoStaticGroupsBuilt_reachable).
  vm_compute. discriminate.
Defined.

Lemma TryBuildTLAS_builds_iff_live_witness :
  ∃ res m', TryBuildTLAS false (replicate 180 0) 0 (replicate 48 0) twoStaticGroups
            = Ok res m'
    ∧ (built res = true
       ↔ liveBlas (allStaticBlas twoStaticGroups ++ dynamicBlasOf twoStaticGroups 0) ≠ []).
Proof.
  destruct (TryBuildTLAS false (replicate 180 0) 0 (replicate 48 0) twoStaticGroups)
    as [res m'|] eqn:Hrun; [|vm_compute in Hrun; discriminate].
  exists res, m'. split; [reflexivity|].
  apply (TryBuildTLAS_builds_iff_live false (replicate 180 0) 0 (replicate 48 0)
           twoStaticGroups res m'); [vm_compute; lia | exact Hrun].
Defined.

(** The first build of frame 0 on the manager with two static groups, which
    needs 512 bytes: the record has no buffer yet, so one of 512 bytes is
    created. *)
Lemma TryBuildTLAS_tlas_buffer_witness :
  512 ≤ GetSize (buffer (tlasOf twoStaticGroupsBuilt 0))
  ∧ tlasOf twoStaticGroupsBuilt 1 = tlasOf twoStaticGroups 1.
Proof.
  destruct (TryBuildTLAS false (replicate 180 0) 0 (replicate 48 0) twoStaticGroups)
    as [res m'|] eqn:Hrun; [|vm_compute in Hrun; discriminate].
  assert (Hm' : twoStaticGroupsBuilt = m').
  { unfold twoStaticGroupsBuilt, run. by rewrite Hrun. }
  destruct (TryBuildTLAS_tlas_buffer false (replicate 180 0) 0 (replicate 48 0)
              twoStaticGroups res m' Hrun) as (Hsize & _ & _ & Hother).
  - vm_compute in Hrun. injection Hrun as <- _. reflexivity.
  - vm_compute. lia.
  - rewrite Hm'. split; [exact Hsize|]. apply Hother. lia.
Defined.

(** The destructor on the manager with two static groups. *)
Lemma ASManager_delete_releases_everything_witness :
  ∃ m', ASManager_delete twoStaticGroups = Ok tt m'
    ∧ created (trace m') = destroyed (trace m')
    ∧ Forall (λ a, as_ a = VK_NULL_HANDLE ∧ buffer a = None) (allStructures m').
Proof.
  destruct (ASManager_delete_releases_everything false twoStaticGroups
              twoStaticGroups_reachableInRange) as (m' & Hrun & Hbal & _ & Hnull).
  exists m'. split; [exact Hrun|]. split; [exact Hbal | exact Hnull].
Defined.

(** Submitting the two static geometries that were added. *)
Lemma SubmitStaticGeometry_live_has_geometry_witness :
  let m' := run (SubmitStaticGeometry false) twoStaticAdded in
  reachableInRange false twoStaticAdded
  ∧ SubmitStaticGeometry false twoStaticAdded = Ok tt m'
  ∧ Forall (λ a', hasGeometry (collectorStatic twoStaticAdded) a' = false →
                  as_ a' = VK_NULL_HANDLE ∧ buffer a' = None) (allStaticBlas m').
Proof.
  cbv zeta.
  assert (Hrun : SubmitStaticGeometry false twoStaticAdded
                 = Ok tt (run (SubmitStaticGeometry false) twoStaticAdded)).
  { vm_compute. reflexivity. }
  split; [exact twoStaticAdded_reachableInRange|]. split; [exact Hrun|].
  apply (SubmitStaticGeometry_live_has_geometry false twoStaticAdded _); [|exact Hrun].
  apply (bool_decide_unpack _). vm_compute. exact I.
Defined.

End ExampleRuns.
